(** * Provider clients and hotel agent tools of the travel assistant

    A shallow embedding of
    - [src/services/amadeus_service.py] (class [AmadeusService]),
    - [src/services/hotel_service.py] (class [HotelService]),
    - the tools [search_hotels_by_city] and [search_hotels] of
      [src/agents/hotel_agent.py],
    followed by the properties of the token cache, of the outgoing query
    parameters, of the city tables and of the text the tools produce.

    Conventions.  Python [str] is [string] (a sequence of bytes: [lower],
    [upper] and [len] are the ASCII ones).  Python [int] is [Z].  A [dict] is a
    [gmap string _].  [None] is [None], and an absent dictionary key read with
    [.get(k, default)] is an [option] field defaulted at the point of use.
    The network is an oracle from the request to what [aiohttp] does with it;
    every request that is issued is appended to a trace. *)

From Stdlib Require Import ZArith String Ascii List Lia DecimalString.
From stdpp Require Import base option gmap strings list.

Local Open Scope string_scope.
Local Open Scope list_scope.
Local Open Scope Z_scope.

(** ** Python values used by the services *)

(** Truthiness of an [Optional[str]]: [None] and the empty string are false. *)
Definition truthy (o : option string) : bool :=
  match o with
  | Some s => negb (String.eqb s "")
  | None => false
  end.

(** Truthiness of an [Optional[List[_]]]. *)
Definition truthy_list {A} (o : option (list A)) : bool :=
  match o with
  | Some (_ :: _) => true
  | _ => false
  end.

(** [sep.join(parts)]. *)
Fixpoint join (sep : string) (parts : list string) : string :=
  match parts with
  | [] => ""
  | [p] => p
  | p :: rest => p +:+ sep +:+ join sep rest
  end.

(** [str(n)] for an [int]. *)
Definition str_of_int (n : Z) : string := NilZero.string_of_int (Z.to_int n).

(** [str(b).lower()] for a [bool]: [str(True)] is ["True"]. *)
Definition str_of_bool (b : bool) : string := if b then "True" else "False".

Definition lower_ascii (c : ascii) : ascii :=
  let n := nat_of_ascii c in
  if ((65 <=? n) && (n <=? 90))%nat then ascii_of_nat (n + 32) else c.

Definition upper_ascii (c : ascii) : ascii :=
  let n := nat_of_ascii c in
  if ((97 <=? n) && (n <=? 122))%nat then ascii_of_nat (n - 32) else c.

Fixpoint map_string (f : ascii -> ascii) (s : string) : string :=
  match s with
  | EmptyString => EmptyString
  | String c rest => String (f c) (map_string f rest)
  end.

(** [s.lower()] and [s.upper()]. *)
Definition lower (s : string) : string := map_string lower_ascii s.
Definition upper (s : string) : string := map_string upper_ascii s.

(** [s.replace(" ", "")]. *)
Fixpoint remove_spaces (s : string) : string :=
  match s with
  | EmptyString => EmptyString
  | String c rest =>
      if Ascii.eqb c " "%char then remove_spaces rest
      else String c (remove_spaces rest)
  end.

(** ** HTTP: requests, outcomes and the trace *)

Inductive http_method := GET | POST.

(** A value of a query or form dictionary. *)
Inductive param :=
| PStr (s : string)
| PInt (n : Z)
| PNone.

Record request := {
  req_method : http_method;
  req_url : string;
  req_headers : gmap string string;
  req_payload : gmap string param   (* [data=] of a POST, [params=] of a GET *)
}.

(** A call that returns or raises; [Raise msg] carries [str(e)]. *)
Inductive attempt (A : Type) :=
| Ok (a : A)
| Raise (msg : string).
Arguments Ok {A} a.
Arguments Raise {A} msg.

(** The response object inside [async with ... as response]: its status and
    what [await response.text()] and [await response.json()] give. *)
Record response (B : Type) := {
  status : Z;
  text : attempt string;
  json : attempt B
}.
Arguments status {B} r.
Arguments text {B} r.
Arguments json {B} r.

(** What [session.post] / [session.get] does: a response, or an exception
    raised before one is available (connection refused, time out, ...). *)
Definition outcome (B : Type) := attempt (response B).

(** ** The token cache shared by both service classes *)

(** The value under ["expires_in"] of the token response: an integer, or a
    JSON value that is no number ([null], a string, a list, an object), on
    which [current_time + expires_in - 60] raises [TypeError]. *)
Inductive expires_value :=
| EInt (n : Z)
| ENotNumber.

(** The JSON object of the token response, as far as the code reads it.
    A 200 answer whose value is no JSON object makes [result.get] raise
    before anything is stored; the handler is the one of [response.json()]
    raising, and such an answer is a [Raise] of [json]. *)
Record auth_body := {
  body_access_token : option string;      (* [result.get('access_token')] *)
  body_expires_in : option expires_value  (* [None]: no such key *)
}.

(** The fields set by [__init__]; [client_id] and [client_secret] come from
    [os.getenv] and may be [None]. *)
Record Service := {
  client_id : option string;
  client_secret : option string;
  access_token : option string;
  token_expires_at : Z
}.

Definition init (cid csecret : option string) : Service :=
  {| client_id := cid; client_secret := csecret;
     access_token := None; token_expires_at := 0 |}.

(** The state threaded through a call: the service object and the requests
    issued so far, oldest first. *)
Record state := {
  svc : Service;
  trace : list request
}.

Definition M (A : Type) : Type := state -> A * state.

Global Instance M_ret : MRet M := fun A a st => (a, st).
Global Instance M_bind : MBind M :=
  fun A B k m st => let (a, st') := m st in k a st'.

Definition get_self : M Service := fun st => (svc st, st).
Definition set_access_token (tok : option string) : M unit :=
  fun st =>
    (tt, {| svc := {| client_id := client_id (svc st);
                      client_secret := client_secret (svc st);
                      access_token := tok;
                      token_expires_at := token_expires_at (svc st) |};
            trace := trace st |}).
Definition set_token_expires_at (t : Z) : M unit :=
  fun st =>
    (tt, {| svc := {| client_id := client_id (svc st);
                      client_secret := client_secret (svc st);
                      access_token := access_token (svc st);
                      token_expires_at := t |};
            trace := trace st |}).

(** Issue a request: record it, then ask the oracle. *)
Definition send {B} (net : request -> outcome B) (rq : request) : M (outcome B) :=
  fun st => (net rq, {| svc := svc st; trace := trace st ++ [rq] |}).

Definition of_opt (o : option string) : param :=
  match o with
  | Some s => PStr s
  | None => PNone
  end.

Definition AUTH_ENDPOINT : string :=
  "https://test.api.amadeus.com/v1/security/oauth2/token".

(** The POST of the client-credentials exchange. *)
Definition token_request (s : Service) : request :=
  {| req_method := POST;
     req_url := AUTH_ENDPOINT;
     req_headers := {[ "Content-Type" := "application/x-www-form-urlencoded" ]};
     req_payload :=
       <[ "grant_type" := PStr "client_credentials" ]>
       (<[ "client_id" := of_opt (client_id s) ]>
       (<[ "client_secret" := of_opt (client_secret s) ]> ∅)) |}.

(** [not self.access_token or current_time >= self.token_expires_at]. *)
Definition must_refresh (s : Service) (current_time : Z) : bool :=
  negb (truthy (access_token s)) || (token_expires_at s <=? current_time).

Section TokenCache.
(** The auth endpoint, and the clock read by [int(time.time())]. *)
Variable auth : request -> outcome auth_body.
Variable current_time : Z.

(** [AmadeusService._ensure_token] and [HotelService._ensure_token]: the two
    methods are the same statement for statement. *)
Definition _ensure_token : M (option string) :=
  self ← get_self;
  if must_refresh self current_time then
    r ← send auth (token_request self);
    match r with
    | Ok resp =>
        if status resp =? 200 then
          match json resp with
          | Ok result =>
              set_access_token (body_access_token result);;
              match default (EInt 1800) (body_expires_in result) with
              | EInt expires_in =>
                  set_token_expires_at (current_time + expires_in - 60);;
                  mret (body_access_token result)
              | ENotNumber => mret None   (* TypeError, caught below *)
              end
          | Raise _ => mret None
          end
        else
          (* [await response.text()], then [return None]; when [text()]
             raises, the handler returns [None] as well *)
          mret None
    | Raise _ => mret None
    end
  else
    mret (access_token self).
End TokenCache.

(** *** Reading a run *)

Definition result_of {A} (r : A * state) : A := r.1.
Definition service_after {A} (r : A * state) : Service := svc r.2.
Definition trace_after {A} (r : A * state) : list request := trace r.2.

(** The requests a call issues: what it appends to the trace. *)
Definition issued {A} (m : M A) (st : state) : list request :=
  drop (length (trace st)) (trace_after (m st)).

(** "A token is held": [self.access_token] is truthy. *)
Definition token_held (s : Service) : Prop := truthy (access_token s) = true.

(** The ways the exchange fails: [session.post] raises, the status is not
    200, or the status is 200 and [response.json()] raises. *)
Inductive exchange_failed : outcome auth_body -> Prop :=
| failed_transport msg :
    exchange_failed (Raise msg)
| failed_status resp :
    status resp ≠ 200 -> exchange_failed (Ok resp)
| failed_parse resp msg :
    status resp = 200 -> json resp = Raise msg -> exchange_failed (Ok resp).


(** ** Search operations of the provider clients *)

(** Provider records the services pass through without looking inside. *)
#[warnings="-register-all"]
Inductive json_value :=
| JNull
| JBool (b : bool)
| JNum (n : Z)
| JStr (s : string)
| JArr (items : list json_value)
| JObj (fields : list (string * json_value)).

(** The value [response.json()] gave for a search, as far as the code reads
    it; [R] is the type of the records under ["data"].

    [body_read_error] is [str(e)] of the exception the reads raise, when they
    do: [result.get] raises [AttributeError] on a value that is no JSON
    object, and [len(...)], taken for the log line, raises [TypeError] on a
    ["data"] that is [null], a number or a boolean.  It is [None] for an
    object whose ["data"] is absent or an array, and then [body_data],
    [body_meta] and [body_dictionaries] are the keys read, [None] for an
    absent key.  (A string or an object under ["data"] has a length and is
    handed back like an array; the records are typed, so it has no value
    here.) *)
Record search_body (R : Type) := {
  body_read_error : option string;
  body_data : option (list R);
  body_meta : option json_value;
  body_dictionaries : option json_value
}.
Arguments body_read_error {R} _.
Arguments body_data {R} _.
Arguments body_meta {R} _.
Arguments body_dictionaries {R} _.

(** The dictionaries the services return: [None] is an absent key. *)
Record result (R : Type) := {
  error : option string;
  data : list R;
  meta : option json_value;
  dictionaries : option json_value
}.
Arguments error {R} _.
Arguments data {R} _.
Arguments meta {R} _.
Arguments dictionaries {R} _.

(** [{"error": msg, "data": []}]. *)
Definition error_result {R} (msg : string) : result R :=
  {| error := Some msg; data := []; meta := None; dictionaries := None |}.

(** [f'{x}'] for an [Optional[str]]. *)
Definition fmt_opt (o : option string) : string :=
  match o with
  | Some s => s
  | None => "None"
  end.

Definition bearer (access_token : option string) : gmap string string :=
  {[ "Authorization" := "Bearer " +:+ fmt_opt access_token ]}.

Definition get_request (url : string) (params : gmap string param)
    (headers : gmap string string) : request :=
  {| req_method := GET; req_url := url;
     req_headers := headers; req_payload := params |}.

Module AmadeusService.

Definition AIRPORT_SEARCH_ENDPOINT : string :=
  "https://test.api.amadeus.com/v1/reference-data/locations".
Definition FLIGHT_SEARCH_ENDPOINT : string :=
  "https://test.api.amadeus.com/v2/shopping/flight-offers".
Definition CHECKIN_LINKS_ENDPOINT : string :=
  "https://test.api.amadeus.com/v2/reference-data/urls/checkin-links".

Section Operations.
Variable auth : request -> outcome auth_body.
Variable net : request -> outcome (search_body json_value).
Variable current_time : Z.

Definition search_airports (keyword subtype : string)
    : M (list json_value) :=
  access_token ← _ensure_token auth current_time;
  if negb (truthy access_token) then mret []
  else
    let headers := bearer access_token in
    let params : gmap string param :=
      <[ "keyword" := PStr keyword ]>
      (<[ "subType" := PStr subtype ]> ∅) in
    r ← send net (get_request AIRPORT_SEARCH_ENDPOINT params headers);
    match r with
    | Ok resp =>
        if status resp =? 200 then
          match json resp with
          | Ok result =>
              match body_read_error result with
              | Some e => mret []   (* raised by a read, caught below *)
              | None => mret (default [] (body_data result))
              end
          | Raise e => mret []
          end
        else
          match text resp with
          | Ok error_text => mret []
          | Raise e => mret []
          end
    | Raise e => mret []
    end.

Definition search_flights (origin destination departure_date : string)
    (adults max_results : Z) : M (result json_value) :=
  access_token ← _ensure_token auth current_time;
  if negb (truthy access_token) then
    mret (error_result "Unable to get access token")
  else
    let headers := bearer access_token in
    let params : gmap string param :=
      <[ "originLocationCode" := PStr origin ]>
      (<[ "destinationLocationCode" := PStr destination ]>
      (<[ "departureDate" := PStr departure_date ]>
      (<[ "adults" := PInt adults ]>
      (<[ "max" := PInt max_results ]> ∅)))) in
    r ← send net (get_request FLIGHT_SEARCH_ENDPOINT params headers);
    match r with
    | Ok resp =>
        if status resp =? 200 then
          match json resp with
          | Ok result =>
              match body_read_error result with
              | Some e => mret (error_result e)   (* raised by a read *)
              | None =>
                  mret {| error := None;
                          data := default [] (body_data result);
                          meta := None;
                          dictionaries :=
                            Some (default (JObj []) (body_dictionaries result)) |}
              end
          | Raise e => mret (error_result e)
          end
        else
          match text resp with
          | Ok error_text => mret (error_result error_text)
          | Raise e => mret (error_result e)
          end
    | Raise e => mret (error_result e)
    end.

Definition get_flight_checkin_links (airline_code : string)
    : M (list json_value) :=
  access_token ← _ensure_token auth current_time;
  if negb (truthy access_token) then mret []
  else
    let headers := bearer access_token in
    let params : gmap string param :=
      {[ "airlineCode" := PStr airline_code ]} in
    r ← send net (get_request CHECKIN_LINKS_ENDPOINT params headers);
    match r with
    | Ok resp =>
        if status resp =? 200 then
          match json resp with
          | Ok result =>
              match body_read_error result with
              | Some e => mret []   (* raised by a read, caught below *)
              | None => mret (default [] (body_data result))
              end
          | Raise e => mret []
          end
        else
          match text resp with
          | Ok error_text => mret []
          | Raise e => mret []
          end
    | Raise e => mret []
    end.
End Operations.

End AmadeusService.

Module HotelService.

Definition HOTEL_OFFERS_ENDPOINT : string :=
  "https://test.api.amadeus.com/v3/shopping/hotel-offers".
Definition HOTELS_BY_CITY_ENDPOINT : string :=
  "https://test.api.amadeus.com/v1/reference-data/locations/hotels/by-city".

(** The [params] dictionary of [search_hotels_by_city]. *)
Definition hotels_by_city_params (city_code : string) (radius : Z)
    (radius_unit : string) (chain_codes amenities ratings : option (list string))
    (hotel_source : string) : gmap string param :=
  let params : gmap string param :=
    <[ "cityCode" := PStr city_code ]>
    (<[ "radius" := PInt radius ]>
    (<[ "radiusUnit" := PStr radius_unit ]>
    (<[ "hotelSource" := PStr hotel_source ]> ∅))) in
  let params :=
    if truthy_list chain_codes
    then <[ "chainCodes" := PStr (join "," (default [] chain_codes)) ]> params
    else params in
  let params :=
    if truthy_list amenities
    then <[ "amenities" := PStr (join "," (default [] amenities)) ]> params
    else params in
  let params :=
    if truthy_list ratings
    then <[ "ratings" := PStr (join "," (default [] ratings)) ]> params
    else params in
  params.

(** The [params] dictionary of [search_hotel_offers]. *)
Definition hotel_offers_params (hotel_ids : list string)
    (check_in_date : string) (check_out_date : option string)
    (adults room_quantity : Z) (price_range currency board_type : option string)
    (include_closed best_rate_only : bool) : gmap string param :=
  let params : gmap string param :=
    <[ "hotelIds" := PStr (join "," hotel_ids) ]>
    (<[ "checkInDate" := PStr check_in_date ]>
    (<[ "adults" := PInt adults ]>
    (<[ "roomQuantity" := PInt room_quantity ]>
    (<[ "bestRateOnly" := PStr (lower (str_of_bool best_rate_only)) ]> ∅)))) in
  let params :=
    if truthy check_out_date
    then <[ "checkOutDate" := of_opt check_out_date ]> params
    else params in
  let params :=
    if truthy price_range && truthy currency
    then <[ "currency" := of_opt currency ]>
         (<[ "priceRange" := of_opt price_range ]> params)
    else params in
  let params :=
    if truthy board_type
    then <[ "boardType" := of_opt board_type ]> params
    else params in
  let params :=
    if include_closed
    then <[ "includeClosed" := PStr (lower (str_of_bool include_closed)) ]> params
    else params in
  params.

Section Operations.
Context {R : Type}.
Variable auth : request -> outcome auth_body.
Variable net : request -> outcome (search_body R).
Variable current_time : Z.

Definition search_hotels_by_city (city_code : string) (radius : Z)
    (radius_unit : string) (chain_codes amenities ratings : option (list string))
    (hotel_source : string) : M (result R) :=
  access_token ← _ensure_token auth current_time;
  if negb (truthy access_token) then
    mret (error_result "Unable to get access token")
  else
    let headers := bearer access_token in
    let params :=
      hotels_by_city_params city_code radius radius_unit
        chain_codes amenities ratings hotel_source in
    r ← send net (get_request HOTELS_BY_CITY_ENDPOINT params headers);
    match r with
    | Ok resp =>
        if status resp =? 200 then
          match json resp with
          | Ok result =>
              match body_read_error result with
              | Some e => mret (error_result e)   (* raised by a read *)
              | None =>
                  mret {| error := None;
                          data := default [] (body_data result);
                          meta := Some (default (JObj []) (body_meta result));
                          dictionaries := None |}
              end
          | Raise e => mret (error_result e)
          end
        else
          match text resp with
          | Ok error_text => mret (error_result error_text)
          | Raise e => mret (error_result e)
          end
    | Raise e => mret (error_result e)
    end.

Definition search_hotel_offers (hotel_ids : list string)
    (check_in_date : string) (check_out_date : option string)
    (adults room_quantity : Z) (price_range currency board_type : option string)
    (include_closed best_rate_only : bool) : M (result R) :=
  access_token ← _ensure_token auth current_time;
  if negb (truthy access_token) then
    mret (error_result "Unable to get access token")
  else
    let headers := bearer access_token in
    let params :=
      hotel_offers_params hotel_ids check_in_date check_out_date
        adults room_quantity price_range currency board_type
        include_closed best_rate_only in
    r ← send net (get_request HOTEL_OFFERS_ENDPOINT params headers);
    match r with
    | Ok resp =>
        if status resp =? 200 then
          match json resp with
          | Ok result =>
              match body_read_error result with
              | Some e => mret (error_result e)   (* raised by a read *)
              | None =>
                  mret {| error := None;
                          data := default [] (body_data result);
                          meta := None;
                          dictionaries := None |}
              end
          | Raise e => mret (error_result e)
          end
        else
          match text resp with
          | Ok error_text => mret (error_result error_text)
          | Raise e => mret (error_result e)
          end
    | Raise e => mret (error_result e)
    end.
End Operations.

End HotelService.

(** ** Dates of the agent tool

    [datetime.strptime(s, "%Y-%m-%d")], [+ timedelta(days=1)] and
    [.strftime("%Y-%m-%d")], after CPython's [_strptime.py] and [datetime.py]. *)

Record date := {
  year : Z;
  month : Z;
  day : Z
}.

Definition is_leap (y : Z) : bool :=
  (y mod 4 =? 0) && (negb (y mod 100 =? 0) || (y mod 400 =? 0)).

Definition days_in_month (y m : Z) : Z :=
  if (m =? 2) && is_leap y then 29
  else if m =? 2 then 28
  else if (m =? 4) || (m =? 6) || (m =? 9) || (m =? 11) then 30
  else 31.

(** [_days_before_year]: days before January 1st of year [y]. *)
Definition days_before_year (y : Z) : Z :=
  let p := y - 1 in p * 365 + p / 4 - p / 100 + p / 400.

(** [_DAYS_BEFORE_MONTH]. *)
Definition DAYS_BEFORE_MONTH (m : Z) : Z :=
  match m with
  | 1 => 0 | 2 => 31 | 3 => 59 | 4 => 90 | 5 => 120 | 6 => 151
  | 7 => 181 | 8 => 212 | 9 => 243 | 10 => 273 | 11 => 304 | _ => 334
  end.

Definition days_before_month (y m : Z) : Z :=
  DAYS_BEFORE_MONTH m + (if (2 <? m) && is_leap y then 1 else 0).

(** [date.toordinal()]: January 1st of year 1 is day 1. *)
Definition toordinal (d : date) : Z :=
  days_before_year (year d) + days_before_month (year d) (month d) + day d.

(** The dates [datetime] can hold: [MINYEAR = 1], [MAXYEAR = 9999]. *)
Definition valid_date (d : date) : bool :=
  (1 <=? year d) && (year d <=? 9999)
  && (1 <=? month d) && (month d <=? 12)
  && (1 <=? day d) && (day d <=? days_in_month (year d) (month d)).

Definition digit (c : ascii) : option Z :=
  let n := Z.of_nat (nat_of_ascii c) in
  if (48 <=? n) && (n <=? 57) then Some (n - 48) else None.

(** [%Y] is [\d\d\d\d]. *)
Definition parse_year (s : string) : option (Z * string) :=
  match s with
  | String a (String b (String c (String d rest))) =>
      match digit a, digit b, digit c, digit d with
      | Some a, Some b, Some c, Some d =>
          Some (1000 * a + 100 * b + 10 * c + d, rest)
      | _, _, _, _ => None
      end
  | _ => None
  end.

(** The ways [1[0-2]|0[1-9]|[1-9]] ([%m]) matches a prefix of [s], in the
    order the regex engine tries them, each with the rest of the string. *)
Definition month_matches (s : string) : list (Z * string) :=
  match s with
  | String a rest =>
      match digit a with
      | Some a =>
          (match rest with
           | String b rest' =>
               match digit b with
               | Some b =>
                   if ((a =? 1) && (b <=? 2)) || ((a =? 0) && (1 <=? b))
                   then [(10 * a + b, rest')] else []
               | None => []
               end
           | EmptyString => []
           end)
          ++ (if 1 <=? a then [(a, rest)] else [])
      | None => []
      end
  | EmptyString => []
  end.

(** The ways [3[0-1]|[1-2]\d|0[1-9]|[1-9]| [1-9]] ([%d]) matches. *)
Definition day_matches (s : string) : list (Z * string) :=
  match s with
  | String a rest =>
      match digit a with
      | Some a =>
          (match rest with
           | String b rest' =>
               match digit b with
               | Some b =>
                   if ((a =? 3) && (b <=? 1)) || ((1 <=? a) && (a <=? 2))
                      || ((a =? 0) && (1 <=? b))
                   then [(10 * a + b, rest')] else []
               | None => []
               end
           | EmptyString => []
           end)
          ++ (if 1 <=? a then [(a, rest)] else [])
      | None =>
          if Ascii.eqb a " "%char then
            match rest with
            | String b rest' =>
                match digit b with
                | Some b => if 1 <=? b then [(b, rest')] else []
                | None => []
                end
            | EmptyString => []
            end
          else []
      end
  | EmptyString => []
  end.

Definition starts_with_dash (s : string) : option string :=
  match s with
  | String c rest => if Ascii.eqb c "-"%char then Some rest else None
  | EmptyString => None
  end.

(** The first way to continue past a dash. *)
Fixpoint first_dash (ms : list (Z * string)) : option (Z * string) :=
  match ms with
  | [] => None
  | (v, rest) :: ms' =>
      match starts_with_dash rest with
      | Some rest' => Some (v, rest')
      | None => first_dash ms'
      end
  end.

(** [datetime.strptime(s, "%Y-%m-%d")]; [None] stands for the [ValueError]
    of a string that does not match, of unconverted data left over, or of a
    day the month does not have. *)
Definition strptime (s : string) : option date :=
  match parse_year s with
  | Some (y, rest) =>
      match starts_with_dash rest with
      | Some rest =>
          match first_dash (month_matches rest) with
          | Some (m, rest) =>
              match day_matches rest with
              | (d, EmptyString) :: _ =>
                  let dt := {| year := y; month := m; day := d |} in
                  if valid_date dt then Some dt else None
              | _ => None
              end
          | None => None
          end
      | None => None
      end
  | None => None
  end.

(** [dt + timedelta(days=1)]; [None] stands for the [OverflowError] past
    December 31st, 9999. *)
Definition add_one_day (d : date) : option date :=
  if day d <? days_in_month (year d) (month d) then
    Some {| year := year d; month := month d; day := day d + 1 |}
  else if month d <? 12 then
    Some {| year := year d; month := month d + 1; day := 1 |}
  else if year d <? 9999 then
    Some {| year := year d + 1; month := 1; day := 1 |}
  else None.

Definition digit_char (n : Z) : ascii := ascii_of_nat (Z.to_nat (48 + n mod 10)).

Definition pad2 (n : Z) : string :=
  String (digit_char (n / 10)) (String (digit_char n) "").

Definition pad4 (n : Z) : string :=
  String (digit_char (n / 1000)) (String (digit_char (n / 100))
    (String (digit_char (n / 10)) (String (digit_char n) ""))).

(** [dt.strftime("%Y-%m-%d")].  Years below 1000 are printed with four
    digits here; the C library may print them shorter. *)
Definition strftime (d : date) : string :=
  pad4 (year d) +:+ "-" +:+ pad2 (month d) +:+ "-" +:+ pad2 (day d).

(** ** The hotel agent tools *)

Module HotelAgent.

(** The literal of [HOTEL_ID_MAPPING], in source order. *)
Definition HOTEL_ID_MAPPING_items : list (string * list string) :=
  [ ("london", ["MCLONGHM"; "HSLONROT"]);
    ("lon", ["MCLONGHM"; "HSLONROT"]);
    ("newyork", ["NYNYCTSC"; "NYCNYCHM"]);
    ("nyc", ["NYNYCTSC"; "NYCNYCHM"]);
    ("new york", ["NYNYCTSC"; "NYCNYCHM"]);
    ("paris", ["PARPARHT"; "HSPARPDG"]);
    ("par", ["PARPARHT"; "HSPARPDG"]);
    ("tokyo", ["TYOPACTH"; "TYOTYOKH"]);
    ("tyo", ["TYOPACTH"; "TYOTYOKH"]);
    ("beijing", ["PEKPEKFS"; "PEKBEKRG"]);
    ("pek", ["PEKPEKFS"; "PEKBEKRG"]);
    ("shanghai", ["SHAPUDHD"; "SHAPEKRG"]);
    ("sha", ["SHAPUDHD"; "SHAPEKRG"]);
    ("hongkong", ["HKGHKGSH"; "HKGHKGHR"]);
    ("hkg", ["HKGHKGSH"; "HKGHKGHR"]);
    ("hong kong", ["HKGHKGSH"; "HKGHKGHR"]);
    ("singapore", ["SINSINRH"; "SINSINFS"]);
    ("sin", ["SINSINRH"; "SINSINFS"]);
    ("bangkok", ["BKKBKKHB"; "BKKBKKSH"]);
    ("bkk", ["BKKBKKHB"; "BKKBKKSH"]);
    ("sydney", ["SYDSYDHP"; "SYDSYDFS"]);
    ("syd", ["SYDSYDHP"; "SYDSYDFS"]);
    ("dubai", ["DXBDUBCC"; "DXBDUBIC"]);
    ("dxb", ["DXBDUBCC"; "DXBDUBIC"]);
    ("losangeles", ["LAXLAXTL"; "LAXBVRMC"]);
    ("lax", ["LAXLAXTL"; "LAXBVRMC"]);
    ("los angeles", ["LAXLAXTL"; "LAXBVRMC"]);
    ("sanfrancisco", ["SFOSFOLW"; "SFOSFOSC"]);
    ("sfo", ["SFOSFOLW"; "SFOSFOSC"]);
    ("san francisco", ["SFOSFOLW"; "SFOSFOSC"]) ].

(** The literal of [CITY_CODE_MAPPING], in source order. *)
Definition CITY_CODE_MAPPING_items : list (string * string) :=
  [ ("london", "LON"); ("paris", "PAR"); ("newyork", "NYC");
    ("new york", "NYC"); ("tokyo", "TYO"); ("beijing", "PEK");
    ("shanghai", "SHA"); ("hongkong", "HKG"); ("hong kong", "HKG");
    ("singapore", "SIN"); ("bangkok", "BKK"); ("sydney", "SYD");
    ("dubai", "DXB"); ("losangeles", "LAX"); ("los angeles", "LAX");
    ("sanfrancisco", "SFO"); ("san francisco", "SFO"); ("berlin", "BER");
    ("frankfurt", "FRA"); ("amsterdam", "AMS"); ("rome", "ROM");
    ("madrid", "MAD"); ("barcelona", "BCN"); ("moscow", "MOW");
    ("chicago", "CHI"); ("washington", "WAS"); ("boston", "BOS");
    ("toronto", "YTO"); ("vancouver", "YVR"); ("montreal", "YMQ");
    ("milan", "MIL"); ("vienna", "VIE") ].

Definition BOARD_TYPE_MAPPING_items : list (string * string) :=
  [ ("room only", "ROOM_ONLY"); ("breakfast", "BREAKFAST");
    ("half board", "HALF_BOARD"); ("full board", "FULL_BOARD");
    ("all inclusive", "ALL_INCLUSIVE") ].

Definition HOTEL_ID_MAPPING : gmap string (list string) :=
  list_to_map HOTEL_ID_MAPPING_items.
Definition CITY_CODE_MAPPING : gmap string string :=
  list_to_map CITY_CODE_MAPPING_items.
Definition BOARD_TYPE_MAPPING : gmap string string :=
  list_to_map BOARD_TYPE_MAPPING_items.

(** [city.lower().replace(" ", "")]. *)
Definition city_key (city : string) : string := remove_spaces (lower city).

(** [CITY_CODE_MAPPING.get(city_key, city.upper())]. *)
Definition resolve_city_code (city : string) : string :=
  default (upper city) (CITY_CODE_MAPPING !! city_key city).

(** [HOTEL_ID_MAPPING.get(city_key, [])]. *)
Definition resolve_hotel_ids (city : string) : list string :=
  default [] (HOTEL_ID_MAPPING !! city_key city).

(** Both lookups for one city. *)
Definition resolve (city : string) : string * list string :=
  (resolve_city_code city, resolve_hotel_ids city).

(** *** Provider records the tools print

    One record per JSON object; a field is [None] when the key is absent,
    and a printed value is held as the text [str()] gives for it. *)

Record description := {
  description_text : option string          (* ["text"] *)
}.

Record room := {
  room_type : option string;                (* ["type"] *)
  room_description : option description     (* ["description"] *)
}.

Record price := {
  price_currency : option string;           (* ["currency"] *)
  price_total : option string               (* ["total"] *)
}.

Record cancellation := {
  cancellation_description : option description
}.

Record policies := {
  policies_paymentType : option string;
  policies_cancellation : option cancellation
}.

Record offer := {
  offer_id : option string;
  offer_room : option room;
  offer_price : option price;
  offer_policies : option policies
}.

Record hotel := {
  hotel_name : option string;
  hotel_hotelId : option string;
  hotel_cityCode : option string
}.

(** An element of ["data"] of the hotel-offers response. *)
Record hotel_offers := {
  ho_hotel : option hotel;
  ho_available : option bool;
  ho_offers : option (list offer)
}.

(** An element of ["data"] of the hotels-by-city response. *)
Record hotel_listing := {
  hl_name : option string;
  hl_hotelId : option string;
  hl_chainCode : option string;
  hl_iataCode : option string;
  hl_latitude : option string;      (* [geoCode.latitude] *)
  hl_longitude : option string;     (* [geoCode.longitude] *)
  hl_countryCode : option string;   (* [address.countryCode] *)
  hl_distance_value : option string;
  hl_distance_unit : option string
}.

(** The empty dictionaries used as [.get] defaults. *)
Definition no_description : description := {| description_text := None |}.
Definition no_room : room := {| room_type := None; room_description := None |}.
Definition no_price : price := {| price_currency := None; price_total := None |}.
Definition no_cancellation : cancellation :=
  {| cancellation_description := None |}.
Definition no_policies : policies :=
  {| policies_paymentType := None; policies_cancellation := None |}.
Definition no_hotel : hotel :=
  {| hotel_name := None; hotel_hotelId := None; hotel_cityCode := None |}.

Definition nl : string := String (ascii_of_nat 10) "".

(** [str(n)] for a [len()] or a loop index. *)
Definition str_of_nat (n : nat) : string := str_of_int (Z.of_nat n).

(** [s[:n]]. *)
Fixpoint slice_to (n : nat) (s : string) : string :=
  match n, s with
  | S n', String c rest => String c (slice_to n' rest)
  | _, _ => EmptyString
  end.

(** [list(enumerate(l))], counting from [start]. *)
Fixpoint enumerate_from {A} (start : nat) (l : list A) : list (nat * A) :=
  match l with
  | [] => []
  | x :: rest => (start, x) :: enumerate_from (S start) rest
  end.
Definition enumerate {A} (l : list A) : list (nat * A) := enumerate_from 0 l.

(** [room_desc[:100]] followed by ['...' if len(room_desc) > 100 else '']. *)
Definition truncated (room_desc : string) : string :=
  slice_to 100 room_desc
  +:+ (if (100 <? String.length room_desc)%nat then "..." else "").

(** The lines one pass of the inner loop appends for offer [j]. *)
Definition offer_lines (j : nat) (o : offer) : string :=
  let offer_room := default no_room (offer_room o) in
  let room_type := default "Unknown" (room_type offer_room) in
  let room_desc :=
    default "No description"
      (description_text (default no_description (room_description offer_room))) in
  let offer_price := default no_price (offer_price o) in
  let currency_code := default "EUR" (price_currency offer_price) in
  let total_price := default "Unknown" (price_total offer_price) in
  let offer_policies := default no_policies (offer_policies o) in
  let payment_type := default "Unknown" (policies_paymentType offer_policies) in
  let cancel := default no_cancellation (policies_cancellation offer_policies) in
  let cancellation_desc :=
    default "No cancellation policy information"
      (description_text
         (default no_description (cancellation_description cancel))) in
  "  Offer " +:+ str_of_nat (j + 1) +:+ ":" +:+ nl
  +:+ "  - Room Type: " +:+ room_type +:+ nl
  +:+ "  - Description: " +:+ truncated room_desc +:+ nl
  +:+ "  - Price: " +:+ total_price +:+ " " +:+ currency_code +:+ nl
  +:+ "  - Payment Type: " +:+ payment_type +:+ nl
  +:+ "  - Cancellation Policy: " +:+ cancellation_desc +:+ nl +:+ nl.

(** The text one pass of the outer loop appends for [hotels[i]], [n] being
    [len(hotels)].  A hotel that is not available ends its pass at
    [continue], before the separator. *)
Definition hotel_lines (n i : nat) (hotel_data : hotel_offers) : string :=
  let h := default no_hotel (ho_hotel hotel_data) in
  let hotel_name := default "Unknown Hotel" (hotel_name h) in
  let hotel_id := default "Unknown ID" (hotel_hotelId h) in
  let city_code := default "" (hotel_cityCode h) in
  let head :=
    "Hotel " +:+ str_of_nat (i + 1) +:+ ": " +:+ hotel_name
    +:+ " (" +:+ hotel_id +:+ ")" +:+ nl
    +:+ "City Code: " +:+ city_code +:+ nl in
  if negb (default false (ho_available hotel_data)) then
    head +:+ "Status: Sold out" +:+ nl +:+ nl
  else
    let offers := default [] (ho_offers hotel_data) in
    let response :=
      head +:+ "Found " +:+ str_of_nat (length offers) +:+ " offers:" +:+ nl in
    let response :=
      fold_left (fun response '(j, o) => response +:+ offer_lines j o)
        (enumerate offers) response in
    if (i <? n - 1)%nat then response +:+ "---" +:+ nl +:+ nl else response.

(** The response text of [search_hotels] once a non-empty list of hotels
    is in hand. *)
Definition format_hotel_offers (city check_in_date check_out_date : string)
    (hotels : list hotel_offers) : string :=
  let response :=
    "Found " +:+ str_of_nat (length hotels) +:+ " hotels in " +:+ city
    +:+ " from " +:+ check_in_date +:+ " to " +:+ check_out_date
    +:+ ":" +:+ nl +:+ nl in
  fold_left
    (fun response '(i, hotel_data) =>
       response +:+ hotel_lines (length hotels) i hotel_data)
    (enumerate hotels) response.

(** The text one pass of the loop of [search_hotels_by_city] appends. *)
Definition listing_lines (n i : nat) (h : hotel_listing) : string :=
  let response :=
    "Hotel " +:+ str_of_nat (i + 1) +:+ ": "
    +:+ default "Unknown Hotel" (hl_name h) +:+ nl
    +:+ "ID: " +:+ default "Unknown ID" (hl_hotelId h) +:+ nl
    +:+ "Chain Code: " +:+ default "" (hl_chainCode h) +:+ nl
    +:+ "IATA Code: " +:+ default "" (hl_iataCode h) +:+ nl
    +:+ "Location: Latitude " +:+ default "Unknown" (hl_latitude h)
    +:+ ", Longitude " +:+ default "Unknown" (hl_longitude h) +:+ nl
    +:+ "Country: " +:+ default "" (hl_countryCode h) +:+ nl
    +:+ "Distance: " +:+ default "Unknown" (hl_distance_value h)
    +:+ " " +:+ default "KM" (hl_distance_unit h) +:+ nl +:+ nl in
  if (i <? n - 1)%nat then response +:+ "---" +:+ nl +:+ nl else response.

Section Tools.
(** [hotel_service] was imported (it is [None] after an [ImportError]). *)
Variable hotel_service_loaded : bool.
Variable auth : request -> outcome auth_body.
Variable net_listing : request -> outcome (search_body hotel_listing).
Variable net_offers : request -> outcome (search_body hotel_offers).
Variable current_time : Z.
(** [str(e)] of the exception [datetime] raises on a check-in date. *)
Variable exception_text : string -> string.

Definition search_hotels_by_city (city : string) (radius : Z)
    (radius_unit : string) (amenities ratings : option (list string))
    : M string :=
  if negb hotel_service_loaded then
    mret "Hotel service is not available. Please check your configuration."
  else
    let city_code := resolve_city_code city in
    hotel_results ←
      HotelService.search_hotels_by_city auth net_listing current_time
        city_code radius radius_unit None amenities ratings "ALL";
    match error hotel_results with
    | Some e => mret ("Hotel search failed: " +:+ e)
    | None =>
        let hotels := data hotel_results in
        match hotels with
        | [] =>
            mret ("No hotels found in city '" +:+ city +:+ "' ("
                  +:+ city_code
                  +:+ "). Please try other cities or increase search radius.")
        | _ :: _ =>
            let response :=
              "Found " +:+ str_of_nat (length hotels) +:+ " hotels near "
              +:+ city +:+ " (" +:+ city_code +:+ ") within "
              +:+ str_of_int radius +:+ radius_unit +:+ " radius:"
              +:+ nl +:+ nl in
            mret (fold_left
                    (fun response '(i, h) =>
                       response +:+ listing_lines (length hotels) i h)
                    (enumerate hotels) response)
        end
    end.

(** The check-out date sent by [search_hotels]: the argument when it is
    truthy, else the day after [check_in_date]; [None] when [strptime]
    or the addition raises. *)
Definition default_check_out (check_in_date : string)
    (check_out_date : option string) : option string :=
  if negb (truthy check_out_date) then
    check_in_dt ← strptime check_in_date;
    check_out_dt ← add_one_day check_in_dt;
    Some (strftime check_out_dt)
  else check_out_date.

(** [board_type_processed]. *)
Definition process_board_type (board_type : option string)
    : option string :=
  if truthy board_type then
    Some (default (fmt_opt board_type)
            (BOARD_TYPE_MAPPING !! lower (fmt_opt board_type)))
  else None.

Definition search_hotels (city check_in_date : string)
    (check_out_date : option string) (adults room_quantity : Z)
    (price_range currency board_type : option string) : M string :=
  if negb hotel_service_loaded then
    mret "Hotel service is not available. Please check your configuration."
  else
    let hotel_ids := resolve_hotel_ids city in
    match hotel_ids with
    | [] =>
        mret ("No hotel information found for city '" +:+ city
              +:+ "'. Please use major cities like London, Paris, New York, etc.")
    | _ :: _ =>
        let board_type_processed := process_board_type board_type in
        match default_check_out check_in_date check_out_date with
        | None =>
            mret ("An error occurred while searching for hotels: "
                  +:+ exception_text check_in_date)
        | Some check_out_date =>
            hotel_results ←
              HotelService.search_hotel_offers auth net_offers current_time
                hotel_ids check_in_date (Some check_out_date)
                adults room_quantity price_range currency
                board_type_processed false true;
            match error hotel_results with
            | Some e => mret ("Hotel search failed: " +:+ e)
            | None =>
                let hotels := data hotel_results in
                match hotels with
                | [] =>
                    mret ("No hotel offers found matching your criteria. "
                          +:+ "Please try different dates or cities.")
                | _ :: _ =>
                    mret (format_hotel_offers city check_in_date
                            check_out_date hotels)
                end
            end
        end
    end.
End Tools.

End HotelAgent.

(** ** Statements of the specification, as predicates on a request *)

(** "[bestRateOnly] and [includeClosed] are serialized as the lowercase
    literals for their argument values." *)
Definition booleans_serialized (include_closed best_rate_only : bool)
    (rq : request) : Prop :=
  req_payload rq !! "bestRateOnly"
    = Some (PStr (if best_rate_only then "true" else "false"))
  /\ req_payload rq !! "includeClosed"
    = Some (PStr (if include_closed then "true" else "false")).

(** "The query contains [checkOutDate], the day after [check_in_date]." *)
Definition sends_next_day (check_in_date : string) (rq : request) : Prop :=
  exists d d' : date,
    strptime check_in_date = Some d
    /\ valid_date d' = true
    /\ toordinal d' = toordinal d + 1
    /\ req_payload rq !! "checkOutDate" = Some (PStr (strftime d')).

(** What a search operation hands back: a bare list or a dictionary. *)
Inductive returned (R : Type) :=
| ReturnedList (l : list R)
| ReturnedDict (d : result R).
Arguments ReturnedList {R} l.
Arguments ReturnedDict {R} d.

(** "A result object with a non-empty [error] field and an empty [data]
    list." *)
Definition is_error_result {R} (v : returned R) : Prop :=
  exists d e, v = ReturnedDict d /\ error d = Some e /\ e ≠ "" /\ data d = [].

(** The text a failed GET leaves behind: [str(e)] of the exception, raised
    by the request, by [response.json()] or by a read of its value, or the
    body of a response whose status is not 200; [None] for a success. *)
Definition failure_text {R} (o : outcome (search_body R)) : option string :=
  match o with
  | Raise e => Some e
  | Ok resp =>
      if status resp =? 200 then
        match json resp with
        | Ok result => body_read_error result
        | Raise e => Some e
        end
      else
        match text resp with
        | Ok error_text => Some error_text
        | Raise e => Some e
        end
  end.

(** The failure modes of a search call that obtained [tok] from the token
    step and issued [reqs], each with the message it carries. *)
Inductive failure {R} (net : request -> outcome (search_body R))
    (tok : option string)
    (reqs : list request) : string -> Prop :=
| token_unavailable :
    truthy tok = false ->
    failure net tok reqs "Unable to get access token"
| search_failed rq e :
    truthy tok = true ->
    rq ∈ reqs -> req_method rq = GET -> failure_text (net rq) = Some e ->
    failure net tok reqs e.

(** The shape shared by the five operations: the token step, an early
    return without a token, one GET, and a value read off its outcome. *)
Definition operation {B A} (auth : request -> outcome auth_body)
    (net : request -> outcome B) (current_time : Z) (no_token : A)
    (mk_request : option string -> request) (finish : outcome B -> A) : M A :=
  access_token ← _ensure_token auth current_time;
  if negb (truthy access_token) then mret no_token
  else r ← send net (mk_request access_token); mret (finish r).

(** The value of a list-returning operation, by outcome of its GET. *)
Definition finish_list {R} (o : outcome (search_body R)) : list R :=
  match failure_text o, o with
  | None, Ok resp =>
      match json resp with
      | Ok result => default [] (body_data result)
      | Raise _ => []
      end
  | _, _ => []
  end.

(** The value of a dictionary-returning operation; [extras] sets the keys
    of a success besides ["data"]. *)
Definition finish_dict {R}
    (extras : search_body R -> option json_value * option json_value)
    (o : outcome (search_body R)) : result R :=
  match failure_text o, o with
  | None, Ok resp =>
      match json resp with
      | Ok result =>
          {| error := None; data := default [] (body_data result);
             meta := (extras result).1; dictionaries := (extras result).2 |}
      | Raise e => error_result e
      end
  | Some e, _ => error_result e
  | None, Raise e => error_result e
  end.

(** *** What the offer tool prints of a record *)

Module Shown.
Import HotelAgent.

(** [hotel.get("name", "Unknown Hotel")]. *)
Definition name (hotel_data : hotel_offers) : string :=
  default "Unknown Hotel" (hotel_name (default no_hotel (ho_hotel hotel_data))).

(** [room.get("description", {}).get("text", "No description")]. *)
Definition room_desc (o : offer) : string :=
  default "No description"
    (description_text
       (default no_description
          (room_description (default no_room (offer_room o))))).

(** [price.get("total", "Unknown")] and [price.get("currency", "EUR")]. *)
Definition total_price (o : offer) : string :=
  default "Unknown" (price_total (default no_price (offer_price o))).
Definition currency_code (o : offer) : string :=
  default "EUR" (price_currency (default no_price (offer_price o))).

(** [hotel_data.get("available", False)] and [.get("offers", [])]. *)
Definition available (hotel_data : hotel_offers) : bool :=
  default false (ho_available hotel_data).
Definition offers (hotel_data : hotel_offers) : list offer :=
  default [] (ho_offers hotel_data).

(** "The text contains the hotel name, then the description cut to 100
    characters, with the ellipsis when it was longer, then the total price
    with its currency code." *)
Definition in_order (output : string) (hotel_data : hotel_offers) (o : offer)
    : Prop :=
  exists pre mid1 mid2 post,
    output
    = pre +:+ name hotel_data +:+ mid1 +:+ truncated (room_desc o) +:+ mid2
      +:+ (total_price o +:+ " " +:+ currency_code o) +:+ post.

(** The same with the labels the tool prints, for hotel [i] and its offer
    [j], both counted from 0. *)
Definition labelled (output : string) (i : nat) (hotel_data : hotel_offers)
    (j : nat) (o : offer) : Prop :=
  exists pre mid1 mid2 post,
    output
    = pre +:+ ("Hotel " +:+ str_of_nat (i + 1) +:+ ": " +:+ name hotel_data)
      +:+ mid1
      +:+ ("  Offer " +:+ str_of_nat (j + 1) +:+ ":" +:+ nl)
      +:+ mid2
      +:+ ("  - Description: " +:+ truncated (room_desc o) +:+ nl
           +:+ "  - Price: " +:+ total_price o +:+ " " +:+ currency_code o
           +:+ nl)
      +:+ post.

(** Whether the character occurs in the string. *)
Fixpoint occurs (c : ascii) (s : string) : bool :=
  match s with
  | EmptyString => false
  | String c' rest => Ascii.eqb c c' || occurs c rest
  end.

(** The text appended by a loop over [enumerate], pass by pass. *)
Fixpoint passes {A} (lines : nat -> A -> string) (l : list (nat * A))
    : string :=
  match l with
  | [] => ""
  | (i, x) :: rest => lines i x +:+ passes lines rest
  end.
End Shown.

(** ** Sample worlds and records *)

Module Fixture.
Import HotelAgent.

Definition credentials : Service := init (Some "my-id") (Some "my-secret").
Definition start : state := {| svc := credentials; trace := [] |}.

Definition token_body : auth_body :=
  {| body_access_token := Some "tok-1";
     body_expires_in := Some (EInt 1799) |}.

(** An auth endpoint that grants a token. *)
Definition auth_grants : request -> outcome auth_body :=
  fun _ => Ok {| status := 200; text := Ok ""; json := Ok token_body |}.

(** An auth endpoint whose 200 body has no [expires_in]. *)
Definition auth_grants_no_lifetime : request -> outcome auth_body :=
  fun _ => Ok {| status := 200; text := Ok "";
                 json := Ok {| body_access_token := Some "tok-2";
                               body_expires_in := None |} |}.

(** An auth endpoint whose 200 body has [expires_in] as a string. *)
Definition auth_grants_text_lifetime : request -> outcome auth_body :=
  fun _ => Ok {| status := 200; text := Ok "";
                 json := Ok {| body_access_token := Some "tok-3";
                               body_expires_in := Some ENotNumber |} |}.

(** An auth endpoint that answers 401. *)
Definition auth_rejects : request -> outcome auth_body :=
  fun _ => Ok {| status := 401; text := Ok "invalid_client";
                 json := Raise "not json" |}.

(** A provider that answers 404 with an empty body. *)
Definition net_empty_404 {R} : request -> outcome (search_body R) :=
  fun _ => Ok {| status := 404; text := Ok ""; json := Raise "not json" |}.

(** A provider that answers 200 with the given records. *)
Definition net_returns {R} (records : list R)
    : request -> outcome (search_body R) :=
  fun _ => Ok {| status := 200; text := Ok "";
                 json := Ok {| body_read_error := None;
                               body_data := Some records;
                               body_meta := None;
                               body_dictionaries := None |} |}.

(** A provider that answers 200 with [{"data": null}], of which [len()]
    cannot be taken. *)
Definition net_null_data {R} : request -> outcome (search_body R) :=
  fun _ => Ok {| status := 200; text := Ok "";
                 json := Ok {| body_read_error :=
                                 Some "object of type 'NoneType' has no len()";
                               body_data := None;
                               body_meta := None;
                               body_dictionaries := None |} |}.

Definition suite : offer :=
  {| offer_id := Some "OFR1";
     offer_room :=
       Some {| room_type := Some "SUITE";
               room_description :=
                 Some {| description_text := Some "River view" |} |};
     offer_price :=
       Some {| price_currency := Some "GBP"; price_total := Some "480.00" |};
     offer_policies := None |}.

(** An offer whose room description has 116 characters. *)
Definition terrace_suite : offer :=
  {| offer_id := Some "OFR2";
     offer_room :=
       Some {| room_type := Some "SUITE";
               room_description :=
                 Some {| description_text :=
                           Some ("Corner suite on the top floor with a "
                                 +:+ "private terrace, a view of the river, "
                                 +:+ "two bathrooms and a separate living "
                                 +:+ "room.") |} |};
     offer_price :=
       Some {| price_currency := Some "GBP"; price_total := Some "910.00" |};
     offer_policies := None |}.

Definition dorchester : hotel_offers :=
  {| ho_hotel :=
       Some {| hotel_name := Some "Dorchester";
               hotel_hotelId := Some "HSLONROT";
               hotel_cityCode := Some "LON" |};
     ho_available := Some true;
     ho_offers := Some [suite; terrace_suite] |}.

Definition savoy (is_available : bool) : hotel_offers :=
  {| ho_hotel :=
       Some {| hotel_name := Some "Savoy";
               hotel_hotelId := Some "MCLONGHM";
               hotel_cityCode := Some "LON" |};
     ho_available := Some is_available;
     ho_offers := Some [suite] |}.
End Fixture.

(** ** Further statements about a search call *)

(** A call makes one attempt: after the token step it issues at most one
    request, a GET under the bearer token of that step, and none without a
    token; the service object is as the token step left it. *)
Definition one_attempt {A} (auth : request -> outcome auth_body)
    (current_time : Z) (op : M A) (st : state) : Prop :=
  let tok := result_of (_ensure_token auth current_time st) in
  exists gets,
    issued op st = issued (_ensure_token auth current_time) st ++ gets
    /\ (length gets <= 1)%nat
    /\ (length (issued op st) <= 2)%nat
    /\ (truthy tok = false -> gets = [])
    /\ (forall rq, rq ∈ gets ->
          req_method rq = GET
          /\ req_headers rq !! "Authorization"
             = Some ("Bearer " +:+ fmt_opt tok))
    /\ service_after (op st)
       = service_after (_ensure_token auth current_time st).

(** The GET of a call was answered 200 with a value that parsed and that
    the code can read: an object whose ["data"] is absent or an array. *)
Definition answered {R} (net : request -> outcome (search_body R))
    (reqs : list request) (body : search_body R) : Prop :=
  exists rq resp,
    rq ∈ reqs /\ req_method rq = GET /\ net rq = Ok resp
    /\ status resp = 200 /\ json resp = Ok body
    /\ body_read_error body = None.

(** The text is plain ASCII, where [lower] and [upper] are Python's. *)
Fixpoint is_ascii (s : string) : bool :=
  match s with
  | EmptyString => true
  | String c rest => (nat_of_ascii c <? 128)%nat && is_ascii rest
  end.

(** ** The remaining functions of the hotel agent *)

Module HotelAgentUtil.
Import HotelAgent.

(** [list(CITY_CODE_MAPPING.keys())]: the keys in the order of the literal,
    which has no key twice. *)
Definition get_supported_cities : list string := CITY_CODE_MAPPING_items.*1.

(** [list(BOARD_TYPE_MAPPING.keys())]. *)
Definition get_supported_board_types : list string :=
  BOARD_TYPE_MAPPING_items.*1.

(** [datetime.max.date()], the last day [datetime] can hold. *)
Definition last_day : date := {| year := 9999; month := 12; day := 31 |}.

End HotelAgentUtil.

(** A record of the hotels-by-city answer. *)
Module FixtureListing.
Import HotelAgent.

Definition ritz : hotel_listing :=
  {| hl_name := Some "Ritz"; hl_hotelId := Some "PARPARHT";
     hl_chainCode := None; hl_iataCode := Some "PAR";
     hl_latitude := Some "48.868"; hl_longitude := Some "2.329";
     hl_countryCode := None; hl_distance_value := None;
     hl_distance_unit := None |}.

End FixtureListing.
Ltac run_token :=
  unfold _ensure_token, result_of, service_after, trace_after,
    mbind, mret, M_bind, M_ret, get_self, send,
    set_access_token, set_token_expires_at in *;
  simpl in *.

Lemma must_refresh_spec s now :
  must_refresh s now = false <-> token_held s /\ now < token_expires_at s.
Proof.
  unfold must_refresh, token_held.
  rewrite orb_false_iff, negb_false_iff, Z.leb_gt. tauto.
Qed.

Lemma must_refresh_true s now :
  must_refresh s now = true <-> ~ token_held s \/ token_expires_at s <= now.
Proof.
  unfold must_refresh, token_held.
  rewrite orb_true_iff, negb_true_iff, Z.leb_le, not_true_iff_false. tauto.
Qed.

Lemma ensure_token_cached auth now st :
  must_refresh (svc st) now = false ->
  _ensure_token auth now st = (access_token (svc st), st).
Proof. intros Hf. run_token. rewrite Hf. reflexivity. Qed.

Lemma ensure_token_trace auth now st :
  must_refresh (svc st) now = true ->
  trace_after (_ensure_token auth now st) = trace st ++ [token_request (svc st)].
Proof.
  intros Hr. run_token. rewrite Hr.
  destruct (auth _) as [resp|msg]; simpl; [|reflexivity].
  destruct (status resp =? 200); simpl; [|reflexivity].
  destruct (json resp) as [body|msg]; simpl; [|reflexivity].
  destruct (default _ _); reflexivity.
Qed.

(** ** Properties of the token cache *)

(** C3. A held token that has not reached [token_expires_at] is returned as
    it is and nothing is sent; otherwise exactly one request is issued, the
    POST to the auth endpoint whose form carries
    [grant_type=client_credentials] and the stored client id and secret. *)
Theorem ensure_token_refresh_policy auth now st :
  (token_held (svc st) /\ now < token_expires_at (svc st) ->
     _ensure_token auth now st = (access_token (svc st), st))
  /\ (~ token_held (svc st) \/ token_expires_at (svc st) <= now ->
     trace_after (_ensure_token auth now st)
       = trace st ++ [token_request (svc st)])
  /\ req_method (token_request (svc st)) = POST
  /\ req_url (token_request (svc st)) = AUTH_ENDPOINT
  /\ req_payload (token_request (svc st)) !! "grant_type"
       = Some (PStr "client_credentials")
  /\ req_payload (token_request (svc st)) !! "client_id"
       = Some (of_opt (client_id (svc st)))
  /\ req_payload (token_request (svc st)) !! "client_secret"
       = Some (of_opt (client_secret (svc st))).
Proof.
  split; [|split].
  - intros H. apply ensure_token_cached, must_refresh_spec, H.
  - intros H. apply ensure_token_trace, must_refresh_true, H.
  - unfold token_request; simpl. repeat split; by simplify_map_eq.
Qed.

(** C5, as stated, fails: the 200 body can have [access_token] and an
    [expires_in] that is no number (here a string); then the addition
    raises, [None] is returned instead of the token and [token_expires_at]
    keeps its old value. *)
Lemma text_lifetime_token_not_returned :
  must_refresh (svc Fixture.start) 1000 = true
  /\ Fixture.auth_grants_text_lifetime (token_request (svc Fixture.start))
     = Ok {| status := 200; text := Ok "";
             json := Ok {| body_access_token := Some "tok-3";
                           body_expires_in := Some ENotNumber |} |}
  /\ result_of (_ensure_token Fixture.auth_grants_text_lifetime 1000
                  Fixture.start) = None
  /\ token_expires_at
       (service_after (_ensure_token Fixture.auth_grants_text_lifetime 1000
                         Fixture.start)) = 0
  /\ ~ (result_of (_ensure_token Fixture.auth_grants_text_lifetime 1000
                     Fixture.start) = Some "tok-3").
Proof. repeat split; try reflexivity. discriminate. Qed.

(** C5, amended. When the exchange answers 200 with a body that has
    [access_token] and an integer [expires_in], the token is cached,
    [token_expires_at] becomes [current_time + expires_in - 60], and the
    token is returned. *)
Theorem ensure_token_success auth now st resp tok expires_in :
  must_refresh (svc st) now = true ->
  auth (token_request (svc st)) = Ok resp ->
  status resp = 200 ->
  json resp = Ok {| body_access_token := Some tok;
                    body_expires_in := Some (EInt expires_in) |} ->
  result_of (_ensure_token auth now st) = Some tok
  /\ access_token (service_after (_ensure_token auth now st)) = Some tok
  /\ token_expires_at (service_after (_ensure_token auth now st))
       = now + expires_in - 60.
Proof.
  intros Hr Ha Hs Hj. run_token.
  rewrite Hr, Ha; simpl. rewrite Hs, Hj; simpl. auto.
Qed.

(** C6. When the exchange fails (the POST raises, the status is not 200, or
    the body does not parse), [None] is returned and neither [access_token]
    nor [token_expires_at] changes. *)
Theorem ensure_token_failure auth now st :
  must_refresh (svc st) now = true ->
  exchange_failed (auth (token_request (svc st))) ->
  result_of (_ensure_token auth now st) = None
  /\ access_token (service_after (_ensure_token auth now st))
       = access_token (svc st)
  /\ token_expires_at (service_after (_ensure_token auth now st))
       = token_expires_at (svc st).
Proof.
  intros Hr Hf. run_token. rewrite Hr.
  inversion Hf as [msg Heq | resp Hs Heq | resp msg Hs Hj Heq]; simpl.
  - auto.
  - apply Z.eqb_neq in Hs. rewrite Hs. simpl. auto.
  - rewrite Hs, Hj. simpl. auto.
Qed.

(** C10. A 200 body without [expires_in] gets the default lifetime of 1800
    seconds: [token_expires_at] becomes [current_time + 1740]. *)
Theorem ensure_token_default_lifetime auth now st resp tok :
  must_refresh (svc st) now = true ->
  auth (token_request (svc st)) = Ok resp ->
  status resp = 200 ->
  json resp = Ok {| body_access_token := tok; body_expires_in := None |} ->
  token_expires_at (service_after (_ensure_token auth now st)) = now + 1740
  /\ access_token (service_after (_ensure_token auth now st)) = tok
  /\ result_of (_ensure_token auth now st) = tok.
Proof.
  intros Hr Ha Hs Hj. run_token.
  rewrite Hr, Ha; simpl. rewrite Hs, Hj; simpl.
  repeat split. lia.
Qed.

(** A 200 body whose [expires_in] is no number: [access_token] has already
    been overwritten when the addition raises, [token_expires_at] has not,
    and the handler returns [None]. *)
Lemma ensure_token_bad_expires_in auth now st resp tok :
  must_refresh (svc st) now = true ->
  auth (token_request (svc st)) = Ok resp ->
  status resp = 200 ->
  json resp = Ok {| body_access_token := tok;
                    body_expires_in := Some ENotNumber |} ->
  result_of (_ensure_token auth now st) = None
  /\ access_token (service_after (_ensure_token auth now st)) = tok
  /\ token_expires_at (service_after (_ensure_token auth now st))
       = token_expires_at (svc st).
Proof.
  intros Hr Ha Hs Hj. run_token.
  rewrite Hr, Ha; simpl. rewrite Hs, Hj; simpl. auto.
Qed.


(** *** The token theorems at sample worlds *)

Lemma ensure_token_refresh_policy_witness :
  _ensure_token Fixture.auth_grants 100
    {| svc := {| client_id := Some "my-id"; client_secret := Some "my-secret";
                 access_token := Some "tok-0"; token_expires_at := 101 |};
       trace := [] |}
  = (Some "tok-0",
     {| svc := {| client_id := Some "my-id"; client_secret := Some "my-secret";
                  access_token := Some "tok-0"; token_expires_at := 101 |};
        trace := [] |})
  /\ trace_after (_ensure_token Fixture.auth_rejects 0 Fixture.start)
     = [token_request Fixture.credentials].
Proof.
  split.
  - apply (ensure_token_refresh_policy Fixture.auth_grants 100
             {| svc := {| client_id := Some "my-id";
                          client_secret := Some "my-secret";
                          access_token := Some "tok-0";
                          token_expires_at := 101 |};
                trace := [] |}).
    split; [reflexivity|simpl; lia].
  - apply (ensure_token_refresh_policy Fixture.auth_rejects 0 Fixture.start).
    left. unfold token_held. simpl. discriminate.
Defined.

Lemma ensure_token_success_witness :
  result_of (_ensure_token Fixture.auth_grants 1000 Fixture.start)
    = Some "tok-1"
  /\ access_token
       (service_after (_ensure_token Fixture.auth_grants 1000 Fixture.start))
     = Some "tok-1"
  /\ token_expires_at
       (service_after (_ensure_token Fixture.auth_grants 1000 Fixture.start))
     = 1000 + 1799 - 60.
Proof.
  apply (ensure_token_success Fixture.auth_grants 1000 Fixture.start
           {| status := 200; text := Ok ""; json := Ok Fixture.token_body |}
           "tok-1" 1799); reflexivity.
Defined.

Lemma ensure_token_failure_witness :
  result_of (_ensure_token Fixture.auth_rejects 1000 Fixture.start) = None
  /\ access_token
       (service_after (_ensure_token Fixture.auth_rejects 1000 Fixture.start))
     = None
  /\ token_expires_at
       (service_after (_ensure_token Fixture.auth_rejects 1000 Fixture.start))
     = 0.
Proof.
  apply (ensure_token_failure Fixture.auth_rejects 1000 Fixture.start).
  - reflexivity.
  - apply failed_status. simpl. lia.
Defined.

Lemma ensure_token_default_lifetime_witness :
  token_expires_at
    (service_after (_ensure_token Fixture.auth_grants_no_lifetime 1000
                      Fixture.start)) = 1000 + 1740
  /\ access_token
       (service_after (_ensure_token Fixture.auth_grants_no_lifetime 1000
                         Fixture.start)) = Some "tok-2"
  /\ result_of (_ensure_token Fixture.auth_grants_no_lifetime 1000
                  Fixture.start) = Some "tok-2".
Proof.
  apply (ensure_token_default_lifetime Fixture.auth_grants_no_lifetime 1000
           Fixture.start
           {| status := 200; text := Ok "";
              json := Ok {| body_access_token := Some "tok-2";
                            body_expires_in := None |} |}
           (Some "tok-2")); reflexivity.
Defined.

Example strptime_ex1 : strptime "2025-07-01" = Some {| year := 2025; month := 7; day := 1 |}.
Proof. reflexivity. Qed.
Example strptime_ex2 : strptime "2025-7-1" = Some {| year := 2025; month := 7; day := 1 |}.
Proof. reflexivity. Qed.
Example strptime_ex3 : strptime "2025-02-29" = None.
Proof. reflexivity. Qed.
Example strptime_ex4 : strptime "2025-07-011" = None.
Proof. reflexivity. Qed.
Example strftime_ex1 : (strftime <$> (strptime "2024-02-28" ≫= add_one_day)) = Some "2024-02-29".
Proof. reflexivity. Qed.
Example strftime_ex2 : (strftime <$> (strptime "2024-12-31" ≫= add_one_day)) = Some "2025-01-01".
Proof. reflexivity. Qed.

(** ** Query parameters of the hotel-offer search *)

Section OfferParams.
Import HotelService.
Variables (hotel_ids : list string) (check_in_date : string)
  (check_out_date : option string) (adults room_quantity : Z)
  (price_range currency board_type : option string)
  (include_closed best_rate_only : bool).

Let params :=
  hotel_offers_params hotel_ids check_in_date check_out_date adults
    room_quantity price_range currency board_type include_closed
    best_rate_only.

Lemma params_priceRange :
  params !! "priceRange"
  = if truthy price_range && truthy currency
    then Some (of_opt price_range) else None.
Proof.
  subst params; unfold hotel_offers_params.
  destruct (truthy price_range && truthy currency);
    destruct (truthy check_out_date), (truthy board_type), include_closed;
    by simplify_map_eq.
Qed.

Lemma params_currency :
  params !! "currency"
  = if truthy price_range && truthy currency
    then Some (of_opt currency) else None.
Proof.
  subst params; unfold hotel_offers_params.
  destruct (truthy price_range && truthy currency);
    destruct (truthy check_out_date), (truthy board_type), include_closed;
    by simplify_map_eq.
Qed.

Lemma params_checkOutDate :
  params !! "checkOutDate"
  = if truthy check_out_date then Some (of_opt check_out_date) else None.
Proof.
  subst params; unfold hotel_offers_params.
  destruct (truthy price_range && truthy currency);
    destruct (truthy check_out_date), (truthy board_type), include_closed;
    by simplify_map_eq.
Qed.

Lemma params_bestRateOnly :
  params !! "bestRateOnly"
  = Some (PStr (if best_rate_only then "true" else "false")).
Proof.
  subst params; unfold hotel_offers_params.
  destruct (truthy price_range && truthy currency);
    destruct (truthy check_out_date), (truthy board_type), include_closed,
      best_rate_only;
    by simplify_map_eq.
Qed.

Lemma params_includeClosed :
  params !! "includeClosed"
  = if include_closed then Some (PStr "true") else None.
Proof.
  subst params; unfold hotel_offers_params.
  destruct (truthy price_range && truthy currency);
    destruct (truthy check_out_date), (truthy board_type), include_closed;
    by simplify_map_eq.
Qed.
End OfferParams.

(** ** Requests issued by the hotel-offer search *)

Lemma issued_ensure_token auth now st :
  issued (_ensure_token auth now) st
  = if must_refresh (svc st) now then [token_request (svc st)] else [].
Proof.
  unfold issued. destruct (must_refresh (svc st) now) eqn:Hr.
  - rewrite ensure_token_trace by done. by rewrite drop_app_length.
  - rewrite ensure_token_cached by done.
    unfold trace_after; simpl. by rewrite drop_all.
Qed.

Lemma ensure_token_trace_prefix auth now st :
  trace_after (_ensure_token auth now st)
  = trace st ++ issued (_ensure_token auth now) st.
Proof.
  rewrite issued_ensure_token. destruct (must_refresh (svc st) now) eqn:Hr.
  - by apply ensure_token_trace.
  - rewrite ensure_token_cached by done.
    unfold trace_after; simpl. by rewrite app_nil_r.
Qed.

Section OfferRequests.
Import HotelService.
Context {R : Type}.
Variables (auth : request -> outcome auth_body)
  (net : request -> outcome (search_body R)) (now : Z).
Variables (hotel_ids : list string) (check_in_date : string)
  (check_out_date : option string) (adults room_quantity : Z)
  (price_range currency board_type : option string)
  (include_closed best_rate_only : bool).

Let call : M (result R) :=
  search_hotel_offers auth net now hotel_ids check_in_date check_out_date
    adults room_quantity price_range currency board_type include_closed
    best_rate_only.
Let params :=
  hotel_offers_params hotel_ids check_in_date check_out_date adults
    room_quantity price_range currency board_type include_closed
    best_rate_only.

(** The call issues the token exchange when one is due, then, when a
    token is in hand, one GET with [params]. *)
Lemma search_hotel_offers_issued st :
  issued call st
  = issued (_ensure_token auth now) st
    ++ (let tok := result_of (_ensure_token auth now st) in
        if truthy tok
        then [get_request HOTEL_OFFERS_ENDPOINT params (bearer tok)]
        else []).
Proof.
  unfold issued at 1. subst call params.
  unfold search_hotel_offers, mbind, M_bind, trace_after, result_of.
  pose proof (ensure_token_trace_prefix auth now st) as Ht.
  unfold trace_after in Ht.
  destruct (_ensure_token auth now st) as [tok st1]; simpl in *.
  destruct (truthy tok); simpl.
  - unfold send.
    assert (forall (x : result R * state) l,
               trace x.2 = trace st1 ++ l ->
               drop (length (trace st)) (trace x.2)
               = issued (_ensure_token auth now) st ++ l) as Hd.
    { intros x l ->. rewrite Ht, <- app_assoc. by rewrite drop_app_length. }
    apply Hd.
    destruct (net _) as [resp|e]; simpl; [|done].
    destruct (status resp =? 200); simpl.
    + destruct (json resp) as [b|]; [by destruct (body_read_error b)|done].
    + destruct (text resp); done.
  - unfold mret, M_ret; simpl. rewrite Ht.
    by rewrite drop_app_length, app_nil_r.
Qed.

Lemma search_hotel_offers_get st rq :
  rq ∈ issued call st -> req_method rq = GET ->
  req_payload rq = params /\ req_url rq = HOTEL_OFFERS_ENDPOINT.
Proof.
  rewrite search_hotel_offers_issued, issued_ensure_token.
  intros Hin Hm. apply elem_of_app in Hin as [Hin|Hin].
  - destruct (must_refresh _ _); [|by apply elem_of_nil in Hin].
    apply list_elem_of_singleton in Hin. subst rq. discriminate Hm.
  - cbv zeta in Hin. destruct (truthy _); [|by apply elem_of_nil in Hin].
    apply list_elem_of_singleton in Hin. by subst rq.
Qed.
End OfferRequests.

(** ** Calendar arithmetic *)

Lemma valid_date_bounds d :
  valid_date d = true ->
  1 <= year d <= 9999 /\ 1 <= month d <= 12
  /\ 1 <= day d <= days_in_month (year d) (month d).
Proof.
  unfold valid_date. rewrite !andb_true_iff, !Z.leb_le. lia.
Qed.

Lemma days_before_year_succ y :
  days_before_year (y + 1)
  = days_before_year y + 365 + (if is_leap y then 1 else 0).
Proof.
  unfold days_before_year, is_leap.
  replace (y + 1 - 1) with y by lia.
  destruct (Z.eqb_spec (y mod 4) 0), (Z.eqb_spec (y mod 100) 0),
    (Z.eqb_spec (y mod 400) 0); simpl;
    Z.div_mod_to_equations; lia.
Qed.

Lemma days_before_month_succ y m :
  1 <= m < 12 ->
  days_before_month y (m + 1) = days_before_month y m + days_in_month y m.
Proof.
  intros Hm.
  assert (m = 1 \/ m = 2 \/ m = 3 \/ m = 4 \/ m = 5 \/ m = 6 \/ m = 7
          \/ m = 8 \/ m = 9 \/ m = 10 \/ m = 11) as Hc by lia.
  unfold days_before_month, days_in_month.
  repeat destruct Hc as [-> | Hc]; try subst m;
    simpl; destruct (is_leap y); reflexivity.
Qed.

Lemma days_in_month_bounds y m : 28 <= days_in_month y m <= 31.
Proof.
  unfold days_in_month.
  repeat match goal with |- context [if ?b then _ else _] => destruct b end; lia.
Qed.

(** The calendar successor is the date whose ordinal is one more, which is
    what [dt + timedelta(days=1)] computes. *)
Lemma add_one_day_ordinal d d' :
  valid_date d = true -> add_one_day d = Some d' ->
  valid_date d' = true /\ toordinal d' = toordinal d + 1.
Proof.
  intros Hv Ha. apply valid_date_bounds in Hv as (Hy & Hm & Hd).
  unfold add_one_day in Ha.
  pose proof (days_in_month_bounds (year d) (month d)) as Hb.
  destruct (Z.ltb_spec (day d) (days_in_month (year d) (month d))).
  { inversion Ha; subst d'. split.
    - unfold valid_date; simpl. rewrite !andb_true_iff, !Z.leb_le. lia.
    - unfold toordinal; simpl. lia. }
  destruct (Z.ltb_spec (month d) 12).
  { inversion Ha; subst d'. split.
    - unfold valid_date; simpl. rewrite !andb_true_iff, !Z.leb_le.
      pose proof (days_in_month_bounds (year d) (month d + 1)). lia.
    - unfold toordinal; simpl. rewrite days_before_month_succ by lia. lia. }
  destruct (Z.ltb_spec (year d) 9999); [|discriminate].
  inversion Ha; subst d'. split.
  - unfold valid_date; simpl. rewrite !andb_true_iff, !Z.leb_le.
    pose proof (days_in_month_bounds (year d + 1) 1). lia.
  - unfold toordinal; simpl. rewrite days_before_year_succ.
    assert (month d = 12) as Hm12 by lia. rewrite Hm12 in *.
    unfold days_before_month, days_in_month in *; simpl in *.
    destruct (is_leap (year d)); lia.
Qed.

Lemma add_one_day_overflow d :
  valid_date d = true ->
  add_one_day d = None <-> d = {| year := 9999; month := 12; day := 31 |}.
Proof.
  intros Hv. apply valid_date_bounds in Hv as (Hy & Hm & Hd).
  unfold add_one_day. split.
  - destruct (Z.ltb_spec (day d) (days_in_month (year d) (month d)));
      [discriminate|].
    destruct (Z.ltb_spec (month d) 12); [discriminate|].
    destruct (Z.ltb_spec (year d) 9999); [discriminate|].
    intros _. destruct d as [y m dd]; simpl in *.
    assert (m = 12) by lia. subst m.
    unfold days_in_month in *; simpl in *. f_equal; lia.
  - intros ->. reflexivity.
Qed.

Lemma strptime_valid s d : strptime s = Some d -> valid_date d = true.
Proof.
  unfold strptime. intros H.
  repeat match type of H with
         | match ?x with _ => _ end = _ => destruct x eqn:?; try discriminate
         | (if ?x then _ else _) = _ => destruct x eqn:?; try discriminate
         end.
  by inversion H; subst.
Qed.

(** *** Printing a date and reading it back *)

Lemma append_cons c s t : String c s +:+ t = String c (s +:+ t).
Proof. reflexivity. Qed.

Lemma append_empty t : "" +:+ t = t.
Proof. reflexivity. Qed.

Ltac push_append := rewrite ?append_cons, ?append_empty.

Lemma digit_digit_char n : digit (digit_char n) = Some (n mod 10).
Proof.
  unfold digit_char.
  assert (0 <= n mod 10 < 10) as Hk by (apply Z.mod_pos_bound; lia).
  remember (n mod 10) as k eqn:Hk'. clear Hk'.
  assert (k = 0 \/ k = 1 \/ k = 2 \/ k = 3 \/ k = 4 \/ k = 5 \/ k = 6
          \/ k = 7 \/ k = 8 \/ k = 9) as Hc by lia.
  repeat destruct Hc as [-> | Hc]; try subst k; reflexivity.
Qed.

Lemma parse_year_pad4 y rest :
  0 <= y <= 9999 -> parse_year (pad4 y +:+ rest) = Some (y, rest).
Proof.
  intros Hy. unfold pad4, parse_year. push_append.
  rewrite !digit_digit_char. do 2 f_equal.
  Z.div_mod_to_equations. lia.
Qed.

Lemma first_dash_pad2 m rest :
  1 <= m <= 12 ->
  first_dash (month_matches (pad2 m +:+ String "-" rest)) = Some (m, rest).
Proof.
  intros Hm.
  assert (m = 1 \/ m = 2 \/ m = 3 \/ m = 4 \/ m = 5 \/ m = 6 \/ m = 7
          \/ m = 8 \/ m = 9 \/ m = 10 \/ m = 11 \/ m = 12) as Hc by lia.
  repeat destruct Hc as [-> | Hc]; try subst m; reflexivity.
Qed.

Lemma day_matches_pad2 d :
  1 <= d <= 31 -> exists l, day_matches (pad2 d) = (d, "") :: l.
Proof.
  intros Hd.
  remember (Z.to_nat d) as k eqn:Hk.
  assert (d = Z.of_nat k) as -> by lia. clear Hk.
  destruct k as [|k]; [lia|].
  do 31 (destruct k as [|k]; [eexists; reflexivity|]).
  lia.
Qed.

Lemma strptime_strftime d :
  valid_date d = true -> strptime (strftime d) = Some d.
Proof.
  intros Hv. pose proof (valid_date_bounds d Hv) as (Hy & Hm & Hd).
  pose proof (days_in_month_bounds (year d) (month d)).
  destruct d as [y m dd]. unfold strptime, strftime. cbn [year month day] in *.
  rewrite parse_year_pad4 by lia. push_append.
  cbn [starts_with_dash]. rewrite Ascii.eqb_refl.
  rewrite first_dash_pad2 by lia.
  destruct (day_matches_pad2 dd) as [l ->]; [lia|].
  by rewrite Hv.
Qed.

(** ** The outgoing hotel-offer query *)

(** C7. A call to [search_hotel_offers] that has a token issues, after
    the token step, exactly one request, the GET to the hotel-offer endpoint;
    without a token it issues none.  That GET carries [priceRange] and
    [currency] when [price_range] and [currency] are both supplied (neither
    [None] nor empty), with the values supplied, and carries neither of the
    two otherwise. *)
Theorem search_hotel_offers_price_range {R} auth
    (net : request -> outcome (search_body R)) now hotel_ids check_in_date
    check_out_date adults room_quantity price_range currency board_type
    include_closed best_rate_only st :
  let call :=
    HotelService.search_hotel_offers auth net now hotel_ids check_in_date
      check_out_date adults room_quantity price_range currency board_type
      include_closed best_rate_only in
  let tok := result_of (_ensure_token auth now st) in
  let both := truthy price_range && truthy currency in
  (truthy tok = true ->
   exists rq,
     issued call st = issued (_ensure_token auth now) st ++ [rq]
     /\ req_method rq = GET
     /\ req_url rq = HotelService.HOTEL_OFFERS_ENDPOINT)
  /\ (truthy tok = false ->
      issued call st = issued (_ensure_token auth now) st)
  /\ (forall rq,
        rq ∈ issued call st -> req_method rq = GET ->
        req_payload rq !! "priceRange"
          = (if both then Some (of_opt price_range) else None)
        /\ req_payload rq !! "currency"
          = (if both then Some (of_opt currency) else None)).
Proof.
  cbv zeta. split; [|split].
  - intros Ht. rewrite search_hotel_offers_issued. cbv zeta. rewrite Ht.
    eexists. split; [reflexivity|]. by split.
  - intros Ht. rewrite search_hotel_offers_issued. cbv zeta. rewrite Ht.
    apply app_nil_r.
  - intros rq Hin Hm.
    destruct (search_hotel_offers_get _ _ _ _ _ _ _ _ _ _ _ _ _ _ _ Hin Hm)
      as [-> _].
    split; [apply params_priceRange | apply params_currency].
Qed.

Lemma search_hotel_offers_price_range_witness :
  exists rq,
    rq ∈ issued (HotelService.search_hotel_offers (R := json_value)
                   Fixture.auth_grants Fixture.net_empty_404 0 ["MCLONGHM"]
                   "2025-07-01" None 1 1 (Some "100-200") (Some "USD") None
                   false true) Fixture.start
    /\ req_method rq = GET
    /\ req_payload rq !! "priceRange" = Some (PStr "100-200")
    /\ req_payload rq !! "currency" = Some (PStr "USD").
Proof.
  pose proof (search_hotel_offers_price_range (R := json_value)
                Fixture.auth_grants Fixture.net_empty_404 0 ["MCLONGHM"]
                "2025-07-01" None 1 1 (Some "100-200") (Some "USD") None
                false true Fixture.start) as H.
  cbv zeta in H. destruct H as (Hsent & _ & Hquery).
  destruct (Hsent eq_refl) as (rq & Hi & Hm & _).
  assert (rq ∈ issued (HotelService.search_hotel_offers (R := json_value)
                         Fixture.auth_grants Fixture.net_empty_404 0
                         ["MCLONGHM"] "2025-07-01" None 1 1 (Some "100-200")
                         (Some "USD") None false true) Fixture.start) as Hin.
  { rewrite Hi. apply elem_of_app. right. by apply list_elem_of_singleton. }
  exists rq. split; [exact Hin|]. split; [exact Hm|].
  exact (Hquery rq Hin Hm).
Defined.

(** A price range without a currency: neither parameter is sent. *)
Example price_range_without_currency :
  issued (HotelService.search_hotel_offers (R := json_value)
            Fixture.auth_grants Fixture.net_empty_404 0 ["MCLONGHM"]
            "2025-07-01" None 1 1 (Some "100-200") None None false true)
    Fixture.start !! 1%nat
  ≫= (fun rq => Some (req_payload rq !! "priceRange",
                       req_payload rq !! "currency"))
  = Some (None, None).
Proof. reflexivity. Qed.

(** C8, as stated, fails: with [include_closed = False] the GET has no
    [includeClosed] parameter at all, so it is not sent as ["false"]. *)
Lemma include_closed_false_not_serialized :
  exists rq,
    rq ∈ issued (HotelService.search_hotel_offers (R := json_value)
                   Fixture.auth_grants Fixture.net_empty_404 0 ["MCLONGHM"]
                   "2025-07-01" None 1 1 None None None false true)
           Fixture.start
    /\ req_method rq = GET
    /\ req_payload rq !! "includeClosed" = None
    /\ ~ booleans_serialized false true rq.
Proof.
  eexists. split; [|split; [|split]].
  - apply list_elem_of_lookup. exists 1%nat. reflexivity.
  - reflexivity.
  - reflexivity.
  - intros [_ H]. vm_compute in H. discriminate H.
Qed.

(** C8, amended. In a call to [search_hotel_offers], the GET carries
    [bestRateOnly] as ["true"] or ["false"] after [best_rate_only]; it
    carries [includeClosed] as ["true"] when [include_closed] is true and has
    no [includeClosed] parameter when it is false. *)
Theorem search_hotel_offers_booleans {R} auth
    (net : request -> outcome (search_body R)) now hotel_ids check_in_date
    check_out_date adults room_quantity price_range currency board_type
    include_closed best_rate_only st rq :
  rq ∈ issued (HotelService.search_hotel_offers auth net now hotel_ids
                 check_in_date check_out_date adults room_quantity price_range
                 currency board_type include_closed best_rate_only) st ->
  req_method rq = GET ->
  req_payload rq !! "bestRateOnly"
    = Some (PStr (if best_rate_only then "true" else "false"))
  /\ req_payload rq !! "includeClosed"
    = (if include_closed then Some (PStr "true") else None).
Proof.
  intros Hin Hm.
  destruct (search_hotel_offers_get _ _ _ _ _ _ _ _ _ _ _ _ _ _ _ Hin Hm)
    as [-> _].
  split; [apply params_bestRateOnly | apply params_includeClosed].
Qed.

Lemma search_hotel_offers_booleans_witness :
  req_payload
    (get_request HotelService.HOTEL_OFFERS_ENDPOINT
       (HotelService.hotel_offers_params ["MCLONGHM"] "2025-07-01" None 1 1
          None None None true false)
       (bearer (Some "tok-1"))) !! "bestRateOnly" = Some (PStr "false")
  /\ req_payload
    (get_request HotelService.HOTEL_OFFERS_ENDPOINT
       (HotelService.hotel_offers_params ["MCLONGHM"] "2025-07-01" None 1 1
          None None None true false)
       (bearer (Some "tok-1"))) !! "includeClosed" = Some (PStr "true").
Proof.
  apply (search_hotel_offers_booleans (R := json_value)
           Fixture.auth_grants Fixture.net_empty_404 0 ["MCLONGHM"]
           "2025-07-01" None 1 1 None None None true false Fixture.start).
  - apply list_elem_of_lookup. exists 1%nat. reflexivity.
  - reflexivity.
Defined.

(** C2, as stated, fails for the service: [search_hotel_offers] called
    without [check_out_date] sends no [checkOutDate] parameter. *)
Lemma service_omits_check_out_date :
  exists rq,
    rq ∈ issued (HotelService.search_hotel_offers (R := json_value)
                   Fixture.auth_grants Fixture.net_empty_404 0 ["MCLONGHM"]
                   "2025-07-01" None 1 1 None None None false true)
           Fixture.start
    /\ req_method rq = GET
    /\ req_payload rq !! "checkOutDate" = None
    /\ ~ sends_next_day "2025-07-01" rq.
Proof.
  eexists. split; [|split; [|split]].
  - apply list_elem_of_lookup. exists 1%nat. reflexivity.
  - reflexivity.
  - reflexivity.
  - intros (d & d' & _ & _ & _ & H). vm_compute in H. discriminate H.
Qed.

(** ** Requests issued by the agent tool *)

Lemma issued_mret {A} (x : A) st : issued (mret x) st = [].
Proof. unfold issued, trace_after, mret, M_ret; simpl. by rewrite drop_all. Qed.

Lemma issued_bind_pure {A B} (m : M A) (k : A -> M B) st :
  (forall x st', trace (k x st').2 = trace st') ->
  issued (m ≫= k) st = issued m st.
Proof.
  intros Hk. unfold issued, trace_after, mbind, M_bind.
  destruct (m st) as [x st']; simpl. by rewrite Hk.
Qed.

Section AgentRequests.
Import HotelAgent.
Variables (loaded : bool) (auth : request -> outcome auth_body)
  (net : request -> outcome (search_body hotel_offers)) (now : Z)
  (exception_text : string -> string).
Variables (city check_in_date : string) (check_out_date : option string)
  (adults room_quantity : Z) (price_range currency board_type : option string).

Lemma search_hotels_issued st :
  issued (search_hotels loaded auth net now exception_text city
            check_in_date check_out_date adults room_quantity price_range
            currency board_type) st
  = if loaded then
      match resolve_hotel_ids city with
      | [] => []
      | _ :: _ =>
          match default_check_out check_in_date check_out_date with
          | None => []
          | Some co =>
              issued (HotelService.search_hotel_offers auth net now
                        (resolve_hotel_ids city) check_in_date (Some co)
                        adults room_quantity price_range currency
                        (process_board_type board_type) false true) st
          end
      end
    else [].
Proof.
  unfold search_hotels. destruct loaded; cbn [negb]; [|apply issued_mret].
  destruct (resolve_hotel_ids city) as [|id ids]; [apply issued_mret|].
  destruct (default_check_out check_in_date check_out_date) as [co|];
    [|apply issued_mret].
  apply issued_bind_pure. intros x st'.
  destruct (error x); [done|]. by destruct (data x).
Qed.
End AgentRequests.

(** C2, amended. When the [search_hotels] tool is called without a
    check-out date ([None] or empty) and [check_in_date] is a date of the
    years 1000 to 9999, the hotel-offer GET it issues carries [checkOutDate],
    the date one day after [check_in_date] printed as [YYYY-MM-DD]; on its
    own, [search_hotel_offers] sends [checkOutDate] only when it is given
    one. *)
Theorem search_hotels_default_check_out loaded auth net now exception_text
    city check_in_date check_out_date adults room_quantity price_range
    currency board_type st rq d :
  truthy check_out_date = false ->
  strptime check_in_date = Some d ->
  1000 <= year d ->
  rq ∈ issued (HotelAgent.search_hotels loaded auth net now exception_text
                 city check_in_date check_out_date adults room_quantity
                 price_range currency board_type) st ->
  req_method rq = GET ->
  sends_next_day check_in_date rq
  /\ forall hotel_ids include_closed best_rate_only,
       HotelService.hotel_offers_params hotel_ids check_in_date check_out_date
         adults room_quantity price_range currency board_type include_closed
         best_rate_only !! "checkOutDate" = None.
Proof.
  intros Hco Hp _ Hin Hm. split.
  - rewrite search_hotels_issued in Hin.
    destruct loaded; [|by apply elem_of_nil in Hin].
    destruct (HotelAgent.resolve_hotel_ids city) as [|id ids] eqn:Hids;
      [by apply elem_of_nil in Hin|].
    unfold HotelAgent.default_check_out in Hin.
    rewrite Hco, Hp in Hin. simpl in Hin.
    destruct (add_one_day d) as [d'|] eqn:Hd'; simpl in Hin;
      [|by apply elem_of_nil in Hin].
    destruct (search_hotel_offers_get _ _ _ _ _ _ _ _ _ _ _ _ _ _ _ Hin Hm)
      as [Hpay _].
    destruct (add_one_day_ordinal d d' (strptime_valid _ _ Hp) Hd')
      as [Hv Ho].
    exists d, d'. repeat split; try done.
    rewrite Hpay, params_checkOutDate. reflexivity.
  - intros. rewrite params_checkOutDate. by rewrite Hco.
Qed.

Lemma search_hotels_default_check_out_witness :
  sends_next_day "2025-07-01"
    (get_request HotelService.HOTEL_OFFERS_ENDPOINT
       (HotelService.hotel_offers_params ["MCLONGHM"; "HSLONROT"]
          "2025-07-01" (Some "2025-07-02") 2 1 None None None false true)
       (bearer (Some "tok-1")))
  /\ forall hotel_ids include_closed best_rate_only,
       HotelService.hotel_offers_params hotel_ids "2025-07-01" None
         2 1 None None None include_closed best_rate_only
         !! "checkOutDate" = None.
Proof.
  apply (search_hotels_default_check_out true Fixture.auth_grants
           Fixture.net_empty_404 0 (fun _ => "") "London" "2025-07-01" None
           2 1 None None None Fixture.start _
           {| year := 2025; month := 7; day := 1 |}).
  - reflexivity.
  - reflexivity.
  - simpl. lia.
  - apply list_elem_of_lookup. exists 1%nat. reflexivity.
  - reflexivity.
Defined.

(** The example of the specification: a check-in on 2025-07-01 without a
    check-out date is sent with [checkOutDate = "2025-07-02"]. *)
Example search_hotels_july_first :
  issued (HotelAgent.search_hotels true Fixture.auth_grants
            Fixture.net_empty_404 0 (fun _ => "") "London" "2025-07-01" None
            2 1 None None None) Fixture.start !! 1%nat
  ≫= (fun rq => req_payload rq !! "checkOutDate")
  = Some (PStr "2025-07-02").
Proof. reflexivity. Qed.

(** ** The five operations follow one template *)

Lemma operation_issued {B A} auth (net : request -> outcome B) now
    (no_token : A) mk finish st :
  issued (operation auth net now no_token mk finish) st
  = issued (_ensure_token auth now) st
    ++ (let tok := result_of (_ensure_token auth now st) in
        if truthy tok then [mk tok] else []).
Proof.
  unfold issued at 1.
  unfold operation, mbind, M_bind, trace_after, result_of.
  pose proof (ensure_token_trace_prefix auth now st) as Ht.
  unfold trace_after in Ht.
  destruct (_ensure_token auth now st) as [tok st1]; simpl in *.
  destruct (truthy tok); simpl; rewrite Ht.
  - by rewrite <- app_assoc, drop_app_length.
  - by rewrite drop_app_length, app_nil_r.
Qed.

Lemma operation_result {B A} auth (net : request -> outcome B) now
    (no_token : A) mk finish st :
  result_of (operation auth net now no_token mk finish st)
  = let tok := result_of (_ensure_token auth now st) in
    if truthy tok then finish (net (mk tok)) else no_token.
Proof.
  unfold operation, mbind, M_bind, result_of.
  destruct (_ensure_token auth now st) as [tok st1]; simpl.
  by destruct (truthy tok).
Qed.

Lemma operation_get {B A} auth (net : request -> outcome B) now
    (no_token : A) mk finish st rq :
  (forall tok, req_method (mk tok) = GET) ->
  rq ∈ issued (operation auth net now no_token mk finish) st ->
  req_method rq = GET ->
  rq = mk (result_of (_ensure_token auth now st)).
Proof.
  intros Hmk. rewrite operation_issued, issued_ensure_token.
  intros Hin Hm. apply elem_of_app in Hin as [Hin|Hin].
  - destruct (must_refresh _ _); [|by apply elem_of_nil in Hin].
    apply list_elem_of_singleton in Hin. subst rq. discriminate Hm.
  - cbv zeta in Hin. destruct (truthy _); [|by apply elem_of_nil in Hin].
    by apply list_elem_of_singleton in Hin.
Qed.

(** A failure of an operation decides its value: [no_token] without a
    token, else [finish] of a failed GET. *)
Lemma operation_failure {R A} auth
    (net : request -> outcome (search_body R)) now
    (no_token : A) mk finish st msg :
  (forall tok, req_method (mk tok) = GET) ->
  failure net (result_of (_ensure_token auth now st))
    (issued (operation auth net now no_token mk finish) st) msg ->
  (msg = "Unable to get access token"
   /\ result_of (operation auth net now no_token mk finish st) = no_token)
  \/ (exists o, failure_text o = Some msg
      /\ result_of (operation auth net now no_token mk finish st) = finish o).
Proof.
  intros Hmk Hf. rewrite operation_result. cbv zeta.
  destruct Hf as [Htok | rq e Htok Hin Hm He].
  - left. by rewrite Htok.
  - right. rewrite Htok.
    apply operation_get in Hin; [|done..]. subst rq. eauto.
Qed.

Lemma finish_list_failure {R} (o : outcome (search_body R)) e :
  failure_text o = Some e -> finish_list o = [].
Proof. unfold finish_list. by intros ->. Qed.

Lemma finish_dict_failure {R} extras (o : outcome (search_body R)) e :
  failure_text o = Some e -> finish_dict extras o = error_result e.
Proof. unfold finish_dict. by intros ->. Qed.

Ltac by_outcome :=
  intros st; unfold operation, mbind, M_bind, mret, M_ret, send,
    finish_list, finish_dict, failure_text;
  destruct (_ensure_token _ _ st) as [tok st1]; simpl;
  destruct (truthy tok); simpl; [|reflexivity];
  match goal with
  | |- context [match ?net ?rq with _ => _ end] =>
      let resp := fresh "resp" in
      destruct (net rq) as [resp|]; simpl; [|reflexivity];
      destruct (status resp =? 200); simpl;
      [destruct (json resp) as [b|]; [destruct (body_read_error b)|]
      | destruct (text resp)]; reflexivity
  end.

Section Templates.
Variables (auth : request -> outcome auth_body) (now : Z).

Lemma search_airports_operation net keyword subtype :
  forall st,
    AmadeusService.search_airports auth net now keyword subtype st
    = operation auth net now []
        (fun tok =>
           get_request AmadeusService.AIRPORT_SEARCH_ENDPOINT
             (<[ "keyword" := PStr keyword ]>
              (<[ "subType" := PStr subtype ]> ∅))
             (bearer tok))
        finish_list st.
Proof. unfold AmadeusService.search_airports. by_outcome. Qed.

Lemma get_flight_checkin_links_operation net airline_code :
  forall st,
    AmadeusService.get_flight_checkin_links auth net now airline_code st
    = operation auth net now []
        (fun tok =>
           get_request AmadeusService.CHECKIN_LINKS_ENDPOINT
             {[ "airlineCode" := PStr airline_code ]} (bearer tok))
        finish_list st.
Proof. unfold AmadeusService.get_flight_checkin_links. by_outcome. Qed.

Lemma search_flights_operation net origin destination departure_date
    adults max_results :
  forall st,
    AmadeusService.search_flights auth net now origin destination
      departure_date adults max_results st
    = operation auth net now (error_result "Unable to get access token")
        (fun tok =>
           get_request AmadeusService.FLIGHT_SEARCH_ENDPOINT
             (<[ "originLocationCode" := PStr origin ]>
              (<[ "destinationLocationCode" := PStr destination ]>
              (<[ "departureDate" := PStr departure_date ]>
              (<[ "adults" := PInt adults ]>
              (<[ "max" := PInt max_results ]> ∅)))))
             (bearer tok))
        (finish_dict
           (fun b => (None, Some (default (JObj []) (body_dictionaries b)))))
        st.
Proof. unfold AmadeusService.search_flights. by_outcome. Qed.

Lemma search_hotels_by_city_operation {R}
    (net : request -> outcome (search_body R)) city_code radius radius_unit
    chain_codes amenities ratings hotel_source :
  forall st,
    HotelService.search_hotels_by_city auth net now city_code radius
      radius_unit chain_codes amenities ratings hotel_source st
    = operation auth net now (error_result "Unable to get access token")
        (fun tok =>
           get_request HotelService.HOTELS_BY_CITY_ENDPOINT
             (HotelService.hotels_by_city_params city_code radius
                radius_unit chain_codes amenities ratings hotel_source)
             (bearer tok))
        (finish_dict
           (fun b => (Some (default (JObj []) (body_meta b)), None)))
        st.
Proof. unfold HotelService.search_hotels_by_city. by_outcome. Qed.

Lemma search_hotel_offers_operation {R}
    (net : request -> outcome (search_body R)) hotel_ids check_in_date
    check_out_date adults room_quantity price_range currency board_type
    include_closed best_rate_only :
  forall st,
    HotelService.search_hotel_offers auth net now hotel_ids check_in_date
      check_out_date adults room_quantity price_range currency board_type
      include_closed best_rate_only st
    = operation auth net now (error_result "Unable to get access token")
        (fun tok =>
           get_request HotelService.HOTEL_OFFERS_ENDPOINT
             (HotelService.hotel_offers_params hotel_ids check_in_date
                check_out_date adults room_quantity price_range currency
                board_type include_closed best_rate_only)
             (bearer tok))
        (finish_dict (fun _ => (None, None)))
        st.
Proof. unfold HotelService.search_hotel_offers. by_outcome. Qed.
End Templates.

(** ** Failures of the search operations *)

Lemma dict_operation_failure {R} auth (net : request -> outcome (search_body R))
    now mk extras (op : M (result R)) st msg :
  (forall st, op st
     = operation auth net now (error_result "Unable to get access token")
         mk (finish_dict extras) st) ->
  (forall tok : option string, req_method (mk tok) = GET) ->
  failure net (result_of (_ensure_token auth now st)) (issued op st) msg ->
  result_of (op st) = error_result msg.
Proof.
  intros Hop Hmk Hf. unfold issued in Hf. rewrite Hop in *.
  apply operation_failure in Hf as [[-> Hr] | (o & Ho & Hr)]; [done| |done].
  rewrite Hr. by apply finish_dict_failure.
Qed.

Lemma list_operation_failure {R} auth (net : request -> outcome (search_body R))
    now mk (op : M (list R)) st msg :
  (forall st, op st = operation auth net now [] mk finish_list st) ->
  (forall tok : option string, req_method (mk tok) = GET) ->
  failure net (result_of (_ensure_token auth now st)) (issued op st) msg ->
  result_of (op st) = [].
Proof.
  intros Hop Hmk Hf. unfold issued in Hf. rewrite Hop in *.
  apply operation_failure in Hf as [[-> Hr] | (o & Ho & Hr)]; [done| |done].
  rewrite Hr. by eapply finish_list_failure.
Qed.

(** C1, as stated, fails twice: without a token [search_airports] returns a
    bare empty list, which has no [error] field; and [search_flights] on a
    404 with an empty body returns an [error] field that is the empty
    string. *)
Lemma failure_without_error_text :
  failure (Fixture.net_empty_404 (R := json_value))
    (result_of (_ensure_token Fixture.auth_rejects 0 Fixture.start))
    (issued (AmadeusService.search_airports Fixture.auth_rejects
               Fixture.net_empty_404 0 "PEK" "AIRPORT") Fixture.start)
    "Unable to get access token"
  /\ ~ is_error_result
        (ReturnedList
           (result_of (AmadeusService.search_airports Fixture.auth_rejects
                         Fixture.net_empty_404 0 "PEK" "AIRPORT"
                         Fixture.start)))
  /\ ~ is_error_result
        (ReturnedDict
           (result_of (AmadeusService.search_flights Fixture.auth_grants
                         Fixture.net_empty_404 0 "MAD" "BCN" "2025-07-01" 1 3
                         Fixture.start))).
Proof.
  split; [|split].
  - by apply token_unavailable.
  - intros (d & e & H & _). discriminate H.
  - intros (d & e & H & He & Hne & _).
    inversion H; subst d. vm_compute in He. congruence.
Qed.

(** C1, amended. On every failure mode (no token, a status other than 200,
    an exception of the transport or of the parser), [search_flights],
    [search_hotels_by_city] and [search_hotel_offers] return a dictionary
    whose [data] is empty and whose [error] is the message of the failure:
    ["Unable to get access token"], the body of the response, or the text of
    the exception; [search_airports] and [get_flight_checkin_links] return an
    empty list. *)
Theorem search_failure_results {R} auth
    (net : request -> outcome (search_body json_value))
    (net_hotels : request -> outcome (search_body R)) now st msg
    keyword subtype origin destination departure_date adults max_results
    airline_code city_code radius radius_unit chain_codes amenities ratings
    hotel_source hotel_ids check_in_date check_out_date room_quantity
    price_range currency board_type include_closed best_rate_only :
  let tok := result_of (_ensure_token auth now st) in
  (failure net tok
     (issued (AmadeusService.search_flights auth net now origin destination
                departure_date adults max_results) st) msg ->
   result_of (AmadeusService.search_flights auth net now origin destination
                departure_date adults max_results st)
   = {| error := Some msg; data := []; meta := None; dictionaries := None |})
  /\ (failure net_hotels tok
       (issued (HotelService.search_hotels_by_city auth net_hotels now
                  city_code radius radius_unit chain_codes amenities ratings
                  hotel_source) st) msg ->
     result_of (HotelService.search_hotels_by_city auth net_hotels now
                  city_code radius radius_unit chain_codes amenities ratings
                  hotel_source st)
     = {| error := Some msg; data := []; meta := None; dictionaries := None |})
  /\ (failure net_hotels tok
       (issued (HotelService.search_hotel_offers auth net_hotels now
                  hotel_ids check_in_date check_out_date adults room_quantity
                  price_range currency board_type include_closed
                  best_rate_only) st) msg ->
     result_of (HotelService.search_hotel_offers auth net_hotels now
                  hotel_ids check_in_date check_out_date adults room_quantity
                  price_range currency board_type include_closed
                  best_rate_only st)
     = {| error := Some msg; data := []; meta := None; dictionaries := None |})
  /\ (failure net tok
       (issued (AmadeusService.search_airports auth net now keyword subtype)
          st) msg ->
     result_of (AmadeusService.search_airports auth net now keyword subtype st)
     = [])
  /\ (failure net tok
       (issued (AmadeusService.get_flight_checkin_links auth net now
                  airline_code) st) msg ->
     result_of (AmadeusService.get_flight_checkin_links auth net now
                  airline_code st)
     = []).
Proof.
  cbv zeta. repeat split; intros Hf.
  - eapply dict_operation_failure;
      [apply search_flights_operation | done | exact Hf].
  - eapply dict_operation_failure;
      [apply search_hotels_by_city_operation | done | exact Hf].
  - eapply dict_operation_failure;
      [apply search_hotel_offers_operation | done | exact Hf].
  - eapply list_operation_failure;
      [apply search_airports_operation | done | exact Hf].
  - eapply list_operation_failure;
      [apply get_flight_checkin_links_operation | done | exact Hf].
Qed.

Lemma search_failure_results_witness :
  result_of (AmadeusService.search_flights Fixture.auth_grants
               Fixture.net_empty_404 0 "MAD" "BCN" "2025-07-01" 1 3
               Fixture.start)
  = {| error := Some ""; data := []; meta := None; dictionaries := None |}.
Proof.
  apply (search_failure_results (R := json_value) Fixture.auth_grants
           Fixture.net_empty_404 Fixture.net_empty_404 0 Fixture.start ""
           "PEK" "AIRPORT" "MAD" "BCN" "2025-07-01" 1 3 "BA" "PAR" 5 "KM"
           None None None "ALL" ["MCLONGHM"] "2025-07-01" None 1 None None
           None false true).
  eapply search_failed.
  - reflexivity.
  - apply list_elem_of_lookup. exists 1%nat. reflexivity.
  - reflexivity.
  - reflexivity.
Defined.

(** ** The city tables *)

Section CityTables.
Import HotelAgent.

Lemma hotel_items_resolve :
  Forall (fun kv : string * list string =>
            resolve_hotel_ids kv.1 = kv.2 /\ length kv.2 = 2%nat
            /\ resolve_city_code kv.1 ∈ CITY_CODE_MAPPING_items.*2)
         HOTEL_ID_MAPPING_items.
Proof.
  unfold HOTEL_ID_MAPPING_items.
  repeat (apply Forall_cons; split;
          [split; [reflexivity|split; [reflexivity|]];
           apply (bool_decide_unpack _); vm_compute; exact I|]).
  constructor.
Qed.

Lemma city_items_resolve :
  Forall (fun kv : string * string =>
            resolve_city_code kv.1 = kv.2 /\ String.length kv.2 = 3%nat)
         CITY_CODE_MAPPING_items.
Proof.
  unfold CITY_CODE_MAPPING_items.
  repeat (apply Forall_cons; split; [split; reflexivity|]).
  constructor.
Qed.

Lemma hotel_alias_resolves alias ids :
  HOTEL_ID_MAPPING !! alias = Some ids ->
  resolve_hotel_ids alias = ids /\ length ids = 2%nat
  /\ resolve_city_code alias ∈ CITY_CODE_MAPPING_items.*2.
Proof.
  intros H. apply elem_of_list_to_map_2 in H.
  pose proof hotel_items_resolve as Hall.
  rewrite Forall_forall in Hall.
  destruct (Hall _ H) as (H1 & H2 & H3). auto.
Qed.

Lemma city_alias_resolves alias code :
  CITY_CODE_MAPPING !! alias = Some code ->
  resolve_city_code alias = code /\ String.length code = 3%nat.
Proof.
  intros H. apply elem_of_list_to_map_2 in H.
  pose proof city_items_resolve as Hall.
  rewrite Forall_forall in Hall. exact (Hall _ H).
Qed.
End CityTables.

(** C4, as stated, fails: ["berlin"] is an alias of the city-code table and
    resolves to its code, yet has no hotel IDs. *)
Lemma berlin_has_no_hotel_ids :
  HotelAgent.CITY_CODE_MAPPING !! "berlin" = Some "BER"
  /\ HotelAgent.resolve "berlin" = ("BER", [])
  /\ ~ (HotelAgent.resolve_hotel_ids "berlin" ≠ []).
Proof. split; [reflexivity|split; [reflexivity|]]. intros H. by apply H. Qed.

(** C4, amended. Every alias of [HOTEL_ID_MAPPING] resolves to its two
    hotel IDs and to a city code the city table documents; every alias of
    [CITY_CODE_MAPPING] resolves to its three-letter code; a city whose key
    (lowercased, spaces removed) is not in [HOTEL_ID_MAPPING] gets the empty
    hotel-ID list, and one whose key is not in [CITY_CODE_MAPPING] gets its
    raw input uppercased as the code. *)
Theorem resolve_tables :
  (forall alias ids,
      HotelAgent.HOTEL_ID_MAPPING !! alias = Some ids ->
      HotelAgent.resolve_hotel_ids alias = ids /\ ids ≠ []
      /\ HotelAgent.resolve_city_code alias
           ∈ HotelAgent.CITY_CODE_MAPPING_items.*2)
  /\ (forall alias code,
      HotelAgent.CITY_CODE_MAPPING !! alias = Some code ->
      HotelAgent.resolve_city_code alias = code /\ String.length code = 3%nat)
  /\ (forall city,
      HotelAgent.HOTEL_ID_MAPPING !! HotelAgent.city_key city = None ->
      HotelAgent.resolve_hotel_ids city = [])
  /\ (forall city,
      HotelAgent.CITY_CODE_MAPPING !! HotelAgent.city_key city = None ->
      HotelAgent.resolve_city_code city = upper city).
Proof.
  repeat split.
  - by apply hotel_alias_resolves.
  - apply hotel_alias_resolves in H as (_ & Hl & _).
    intros ->. discriminate Hl.
  - by apply hotel_alias_resolves in H as (_ & _ & Hc).
  - by apply city_alias_resolves in H as [Hc _].
  - by apply city_alias_resolves in H as [_ Hl].
  - intros city H. unfold HotelAgent.resolve_hotel_ids. by rewrite H.
  - intros city H. unfold HotelAgent.resolve_city_code. by rewrite H.
Qed.

Lemma resolve_tables_witness :
  (HotelAgent.resolve_hotel_ids "hong kong" = ["HKGHKGSH"; "HKGHKGHR"]
   /\ ["HKGHKGSH"; "HKGHKGHR"] ≠ []
   /\ HotelAgent.resolve_city_code "hong kong"
        ∈ HotelAgent.CITY_CODE_MAPPING_items.*2)
  /\ (HotelAgent.resolve_city_code "new york" = "NYC"
      /\ String.length "NYC" = 3%nat)
  /\ HotelAgent.resolve_hotel_ids "Ber lin" = []
  /\ HotelAgent.resolve_city_code "Atlantis 9" = upper "Atlantis 9".
Proof.
  destruct resolve_tables as (H1 & H2 & H3 & H4).
  split; [|split; [|split]].
  - apply H1. reflexivity.
  - apply H2. reflexivity.
  - apply H3. reflexivity.
  - apply H4. reflexivity.
Defined.

(** ** The text of the offer tool *)

Lemma append_assoc (a b c : string) : (a +:+ b) +:+ c = a +:+ b +:+ c.
Proof. induction a as [|x a IH]; [done|]. by rewrite !append_cons, IH. Qed.

Lemma append_empty_r (a : string) : a +:+ "" = a.
Proof. induction a as [|x a IH]; [done|]. by rewrite append_cons, IH. Qed.

Section Formatter.
Import HotelAgent Shown.

Lemma occurs_append c a b : occurs c (a +:+ b) = occurs c a || occurs c b.
Proof.
  induction a as [|x a IH]; [done|].
  rewrite append_cons. simpl. by rewrite IH, orb_assoc.
Qed.

Lemma fold_left_passes {A} (lines : nat -> A -> string) l acc :
  fold_left (fun response '(i, x) => response +:+ lines i x) l acc
  = acc +:+ passes lines l.
Proof.
  revert acc. induction l as [|[i x] l IH]; intros acc; simpl.
  - by rewrite append_empty_r.
  - by rewrite IH, append_assoc.
Qed.

Lemma passes_app {A} (lines : nat -> A -> string) l1 l2 :
  passes lines (l1 ++ l2) = passes lines l1 +:+ passes lines l2.
Proof.
  induction l1 as [|[i x] l1 IH]; simpl; [done|].
  by rewrite IH, append_assoc.
Qed.

Lemma enumerate_from_lookup {A} (l : list A) start i x :
  l !! i = Some x ->
  exists l1 l2,
    enumerate_from start l = l1 ++ ((start + i)%nat, x) :: l2.
Proof.
  revert start i. induction l as [|y l IH]; intros start i Hi; [done|].
  destruct i as [|i]; simpl in *.
  - inversion Hi; subst. exists [], (enumerate_from (S start) l).
    by rewrite Nat.add_0_r.
  - destruct (IH (S start) i Hi) as (l1 & l2 & ->).
    exists ((start, y) :: l1), l2.
    replace (start + S i)%nat with (S start + i)%nat by lia. reflexivity.
Qed.

(** Pass [i] of a loop over [enumerate(l)] shows up in the text. *)
Lemma passes_lookup {A} (lines : nat -> A -> string) (l : list A) i x :
  l !! i = Some x ->
  exists before after,
    passes lines (enumerate l) = before +:+ lines i x +:+ after.
Proof.
  intros Hi. destruct (enumerate_from_lookup l 0 i x Hi) as (l1 & l2 & He).
  unfold enumerate. rewrite He, passes_app. simpl. eauto.
Qed.

Lemma offer_lines_parts j o :
  exists mid tail,
    offer_lines j o
    = ("  Offer " +:+ str_of_nat (j + 1) +:+ ":" +:+ nl)
      +:+ mid
      +:+ ("  - Description: " +:+ truncated (room_desc o) +:+ nl
           +:+ "  - Price: " +:+ total_price o +:+ " " +:+ currency_code o
           +:+ nl)
      +:+ tail.
Proof.
  unfold offer_lines, room_desc, total_price, currency_code.
  exists ("  - Room Type: "
          +:+ default "Unknown" (room_type (default no_room (offer_room o)))
          +:+ nl).
  exists ("  - Payment Type: "
          +:+ default "Unknown"
                (policies_paymentType (default no_policies (offer_policies o)))
          +:+ nl +:+ "  - Cancellation Policy: "
          +:+ default "No cancellation policy information"
                (description_text
                   (default no_description
                      (cancellation_description
                         (default no_cancellation
                            (policies_cancellation
                               (default no_policies (offer_policies o)))))))
          +:+ nl +:+ nl).
  rewrite !append_assoc. reflexivity.
Qed.

Lemma hotel_lines_available n i hotel_data :
  available hotel_data = true ->
  exists mid sep,
    hotel_lines n i hotel_data
    = ("Hotel " +:+ str_of_nat (i + 1) +:+ ": " +:+ name hotel_data)
      +:+ mid
      +:+ passes offer_lines (enumerate (offers hotel_data))
      +:+ sep.
Proof.
  unfold available, offers, name, hotel_lines. intros ->. cbn [negb].
  rewrite fold_left_passes.
  exists (" (" +:+ default "Unknown ID"
                    (hotel_hotelId (default no_hotel (ho_hotel hotel_data)))
          +:+ ")" +:+ nl +:+ "City Code: "
          +:+ default ""
                (hotel_cityCode (default no_hotel (ho_hotel hotel_data)))
          +:+ nl +:+ "Found "
          +:+ str_of_nat (length (default [] (ho_offers hotel_data)))
          +:+ " offers:" +:+ nl),
    (if (i <? n - 1)%nat then "---" +:+ nl +:+ nl else "").
  destruct (i <? n - 1)%nat; rewrite !append_assoc, ?append_empty_r;
    reflexivity.
Qed.

Lemma hotel_lines_sold_out n i hotel_data :
  available hotel_data = false ->
  hotel_lines n i hotel_data
  = "Hotel " +:+ str_of_nat (i + 1) +:+ ": " +:+ name hotel_data
    +:+ " (" +:+ default "Unknown ID"
                   (hotel_hotelId (default no_hotel (ho_hotel hotel_data)))
    +:+ ")" +:+ nl +:+ "City Code: "
    +:+ default "" (hotel_cityCode (default no_hotel (ho_hotel hotel_data)))
    +:+ nl +:+ "Status: Sold out" +:+ nl +:+ nl.
Proof.
  unfold available, name, hotel_lines. intros ->. cbn [negb].
  by rewrite !append_assoc.
Qed.

Lemma format_hotel_offers_labelled city check_in_date check_out_date
    hotels i hotel_data j o :
  hotels !! i = Some hotel_data ->
  available hotel_data = true ->
  offers hotel_data !! j = Some o ->
  labelled (format_hotel_offers city check_in_date check_out_date hotels)
    i hotel_data j o.
Proof.
  intros Hi Hav Hj. unfold format_hotel_offers, labelled.
  rewrite fold_left_passes.
  destruct (passes_lookup (hotel_lines (length hotels)) hotels i hotel_data Hi)
    as (before & after & ->).
  destruct (hotel_lines_available (length hotels) i hotel_data Hav)
    as (mid & sep & ->).
  destruct (passes_lookup offer_lines (offers hotel_data) j o Hj)
    as (before' & after' & ->).
  destruct (offer_lines_parts j o) as (mid' & tail & ->).
  exists (("Found " +:+ str_of_nat (length hotels) +:+ " hotels in " +:+ city
           +:+ " from " +:+ check_in_date +:+ " to " +:+ check_out_date
           +:+ ":" +:+ nl +:+ nl) +:+ before),
    (mid +:+ before'), mid', (tail +:+ after' +:+ sep +:+ after).
  rewrite !append_assoc. reflexivity.
Qed.

Lemma labelled_in_order output i hotel_data j o :
  labelled output i hotel_data j o -> in_order output hotel_data o.
Proof.
  intros (pre & mid1 & mid2 & post & ->). unfold in_order.
  exists (pre +:+ "Hotel " +:+ str_of_nat (i + 1) +:+ ": "),
    (mid1 +:+ "  Offer " +:+ str_of_nat (j + 1) +:+ ":" +:+ nl +:+ mid2
     +:+ "  - Description: "),
    (nl +:+ "  - Price: "), (nl +:+ post).
  rewrite !append_assoc. reflexivity.
Qed.

Lemma slice_to_length n s :
  String.length (slice_to n s) = Nat.min n (String.length s).
Proof.
  revert s. induction n as [|n IH]; intros [|c s]; simpl; try done.
  by rewrite IH.
Qed.

Lemma slice_to_all n s :
  (String.length s <= n)%nat -> slice_to n s = s.
Proof.
  revert s. induction n as [|n IH]; intros [|c s]; simpl; try done.
  - lia.
  - intros H. rewrite IH; [done|lia].
Qed.

Lemma slice_to_prefix n s : exists rest, s = slice_to n s +:+ rest.
Proof.
  revert s. induction n as [|n IH]; intros [|c s]; simpl; eauto.
  destruct (IH s) as [rest Hr]. exists rest. by rewrite append_cons, <- Hr.
Qed.

Lemma truncated_cases room_desc :
  (String.length (slice_to 100 room_desc) <= 100)%nat
  /\ (exists rest, room_desc = slice_to 100 room_desc +:+ rest)
  /\ ((100 < String.length room_desc)%nat ->
      truncated room_desc = slice_to 100 room_desc +:+ "...")
  /\ ((String.length room_desc <= 100)%nat ->
      truncated room_desc = room_desc).
Proof.
  unfold truncated. split; [|split; [|split]].
  - rewrite slice_to_length. lia.
  - apply slice_to_prefix.
  - intros H. apply Nat.ltb_lt in H. by rewrite H.
  - intros H. rewrite slice_to_all by done.
    apply Nat.ltb_ge in H. rewrite H. apply append_empty_r.
Qed.
End Formatter.

Section OfferTool.
Import HotelAgent.
Variables (auth : request -> outcome auth_body)
  (net : request -> outcome (search_body hotel_offers)) (now : Z)
  (exception_text : string -> string).
Variables (city check_in_date : string) (check_out_date : option string)
  (adults room_quantity : Z) (price_range currency board_type : option string).

(** With hotel IDs for the city, a check-out date and a non-empty answer
    of the service in hand, the tool returns the formatted text. *)
Lemma search_hotels_formats st co hotels :
  resolve_hotel_ids city ≠ [] ->
  default_check_out check_in_date check_out_date = Some co ->
  let r :=
    result_of (HotelService.search_hotel_offers auth net now
                 (resolve_hotel_ids city) check_in_date (Some co) adults
                 room_quantity price_range currency
                 (process_board_type board_type) false true st) in
  error r = None -> data r = hotels -> hotels ≠ [] ->
  result_of (search_hotels true auth net now exception_text city
               check_in_date check_out_date adults room_quantity
               price_range currency board_type st)
  = format_hotel_offers city check_in_date co hotels.
Proof.
  intros Hids Hco r He Hd Hne. subst r.
  unfold search_hotels, result_of in *. cbn [negb].
  destruct (resolve_hotel_ids city) as [|id ids]; [done|].
  rewrite Hco. unfold mbind, M_bind.
  destruct (HotelService.search_hotel_offers _ _ _ _ _ _ _ _ _ _ _ _ _ st)
    as [r st']; simpl in *.
  rewrite He, Hd. by destruct hotels.
Qed.
End OfferTool.

(** C9, as stated, fails: a record that is not available is printed with
    its name and [Status: Sold out]; neither the description nor the price of
    its offers is in the text. *)
Lemma sold_out_record_shows_no_offer :
  result_of (HotelAgent.search_hotels true Fixture.auth_grants
               (Fixture.net_returns [Fixture.savoy false]) 0 (fun _ => "")
               "London" "2025-07-01" None 1 1 None None None Fixture.start)
  = HotelAgent.format_hotel_offers "London" "2025-07-01" "2025-07-02"
      [Fixture.savoy false]
  /\ ~ Shown.in_order
        (HotelAgent.format_hotel_offers "London" "2025-07-01" "2025-07-02"
           [Fixture.savoy false])
        (Fixture.savoy false) Fixture.suite.
Proof.
  split; [reflexivity|].
  intros (pre & mid1 & mid2 & post & H).
  apply (f_equal (Shown.occurs "8")) in H.
  rewrite !occurs_append in H.
  replace (Shown.occurs "8" (Shown.total_price Fixture.suite)) with true in H
    by reflexivity.
  rewrite !orb_true_r in H. vm_compute in H. discriminate H.
Qed.

Lemma enumerate_from_split {A} (l : list A) start i x :
  l !! i = Some x ->
  HotelAgent.enumerate_from start l
  = HotelAgent.enumerate_from start (take i l)
    ++ ((start + i)%nat, x)
    :: HotelAgent.enumerate_from (S (start + i)) (drop (S i) l).
Proof.
  revert start i. induction l as [|y l IH]; intros start i Hi; [done|].
  destruct i as [|i]; simpl in *.
  - inversion Hi; subst. by rewrite Nat.add_0_r, drop_0.
  - rewrite (IH (S start) i Hi).
    by replace (start + S i)%nat with (S start + i)%nat by lia.
Qed.

(** The text around a record that is not available: what the records
    before it gave, its own three lines, what the records after it give. *)
Lemma format_hotel_offers_sold_out city check_in_date check_out_date hotels i
    hotel_data :
  hotels !! i = Some hotel_data ->
  Shown.available hotel_data = false ->
  HotelAgent.format_hotel_offers city check_in_date check_out_date hotels
  = ("Found " +:+ HotelAgent.str_of_nat (length hotels) +:+ " hotels in "
     +:+ city +:+ " from " +:+ check_in_date +:+ " to " +:+ check_out_date
     +:+ ":" +:+ HotelAgent.nl +:+ HotelAgent.nl)
    +:+ Shown.passes (HotelAgent.hotel_lines (length hotels))
          (HotelAgent.enumerate (take i hotels))
    +:+ ("Hotel " +:+ HotelAgent.str_of_nat (i + 1) +:+ ": "
         +:+ Shown.name hotel_data +:+ " ("
         +:+ default "Unknown ID"
               (HotelAgent.hotel_hotelId
                  (default HotelAgent.no_hotel
                     (HotelAgent.ho_hotel hotel_data)))
         +:+ ")" +:+ HotelAgent.nl +:+ "City Code: "
         +:+ default ""
               (HotelAgent.hotel_cityCode
                  (default HotelAgent.no_hotel
                     (HotelAgent.ho_hotel hotel_data)))
         +:+ HotelAgent.nl +:+ "Status: Sold out" +:+ HotelAgent.nl
         +:+ HotelAgent.nl)
    +:+ Shown.passes (HotelAgent.hotel_lines (length hotels))
          (HotelAgent.enumerate_from (S i) (drop (S i) hotels)).
Proof.
  intros Hi Hav. unfold HotelAgent.format_hotel_offers.
  rewrite fold_left_passes. unfold HotelAgent.enumerate.
  rewrite (enumerate_from_split hotels 0 i hotel_data Hi), passes_app.
  cbn [Shown.passes Nat.add].
  rewrite (hotel_lines_sold_out (length hotels) i hotel_data Hav).
  rewrite !append_assoc. reflexivity.
Qed.

(** C9, amended. For every record of the answer that is available and every
    offer of it, the text of [search_hotels] contains, in this order, the
    label [Hotel i+1:] with the hotel name, the label [Offer j+1:], the room
    description cut to its first 100 characters, followed by ["..."] exactly
    when it was longer, and the total price with its currency code.  A record
    that is not available (the flag false or missing) is printed as its
    header lines, with its name, and [Status: Sold out]: between the text of
    the records before it and the text of the records after it there is
    nothing else, so none of its offers. *)
Theorem search_hotels_text auth net now exception_text city check_in_date
    check_out_date adults room_quantity price_range currency board_type st
    co hotels i hotel_data :
  HotelAgent.resolve_hotel_ids city ≠ [] ->
  HotelAgent.default_check_out check_in_date check_out_date = Some co ->
  error (result_of (HotelService.search_hotel_offers auth net now
                      (HotelAgent.resolve_hotel_ids city) check_in_date
                      (Some co) adults room_quantity price_range currency
                      (HotelAgent.process_board_type board_type) false true
                      st)) = None ->
  data (result_of (HotelService.search_hotel_offers auth net now
                     (HotelAgent.resolve_hotel_ids city) check_in_date
                     (Some co) adults room_quantity price_range currency
                     (HotelAgent.process_board_type board_type) false true
                     st)) = hotels ->
  hotels !! i = Some hotel_data ->
  let output :=
    result_of (HotelAgent.search_hotels true auth net now exception_text
                 city check_in_date check_out_date adults room_quantity
                 price_range currency board_type st) in
  (Shown.available hotel_data = true ->
   forall j o,
     Shown.offers hotel_data !! j = Some o ->
     let room_desc := Shown.room_desc o in
     Shown.labelled output i hotel_data j o
     /\ Shown.in_order output hotel_data o
     /\ (String.length (HotelAgent.slice_to 100 room_desc) <= 100)%nat
     /\ ((100 < String.length room_desc)%nat ->
         HotelAgent.truncated room_desc
         = HotelAgent.slice_to 100 room_desc +:+ "...")
     /\ ((String.length room_desc <= 100)%nat ->
         HotelAgent.truncated room_desc = room_desc))
  /\ (Shown.available hotel_data = false ->
      output
      = ("Found " +:+ HotelAgent.str_of_nat (length hotels) +:+ " hotels in "
         +:+ city +:+ " from " +:+ check_in_date +:+ " to " +:+ co
         +:+ ":" +:+ HotelAgent.nl +:+ HotelAgent.nl)
        +:+ Shown.passes (HotelAgent.hotel_lines (length hotels))
              (HotelAgent.enumerate (take i hotels))
        +:+ ("Hotel " +:+ HotelAgent.str_of_nat (i + 1) +:+ ": "
             +:+ Shown.name hotel_data +:+ " ("
             +:+ default "Unknown ID"
                   (HotelAgent.hotel_hotelId
                      (default HotelAgent.no_hotel
                         (HotelAgent.ho_hotel hotel_data)))
             +:+ ")" +:+ HotelAgent.nl +:+ "City Code: "
             +:+ default ""
                   (HotelAgent.hotel_cityCode
                      (default HotelAgent.no_hotel
                         (HotelAgent.ho_hotel hotel_data)))
             +:+ HotelAgent.nl +:+ "Status: Sold out" +:+ HotelAgent.nl
             +:+ HotelAgent.nl)
        +:+ Shown.passes (HotelAgent.hotel_lines (length hotels))
              (HotelAgent.enumerate_from (S i) (drop (S i) hotels))).
Proof.
  intros Hids Hco He Hd Hi output. subst output.
  assert (hotels ≠ []) as Hne by (intros ->; discriminate Hi).
  rewrite (search_hotels_formats auth net now exception_text city
             check_in_date check_out_date adults room_quantity price_range
             currency board_type st co hotels Hids Hco He Hd Hne).
  split.
  - intros Hav j o Hj room_desc.
    pose proof (format_hotel_offers_labelled city check_in_date co hotels
                  i hotel_data j o Hi Hav Hj) as Hl.
    destruct (truncated_cases room_desc) as (H1 & _ & H3 & H4).
    split; [exact Hl|]. split; [by eapply labelled_in_order|]. auto.
  - intros Hav. by apply format_hotel_offers_sold_out.
Qed.

Lemma search_hotels_text_witness :
  Shown.labelled
    (result_of (HotelAgent.search_hotels true Fixture.auth_grants
                  (Fixture.net_returns [Fixture.savoy false;
                                        Fixture.dorchester])
                  0 (fun _ => "") "London" "2025-07-01" None 1 1 None None
                  None Fixture.start))
    1 Fixture.dorchester 1 Fixture.terrace_suite
  /\ HotelAgent.truncated (Shown.room_desc Fixture.terrace_suite)
     = HotelAgent.slice_to 100 (Shown.room_desc Fixture.terrace_suite)
       +:+ "...".
Proof.
  pose proof (search_hotels_text Fixture.auth_grants
                (Fixture.net_returns [Fixture.savoy false;
                                      Fixture.dorchester])
                0 (fun _ => "") "London" "2025-07-01" None 1 1 None None None
                Fixture.start "2025-07-02"
                [Fixture.savoy false; Fixture.dorchester] 1%nat
                Fixture.dorchester) as H.
  cbv zeta in H. destruct H as [Hav _].
  - vm_compute. discriminate.
  - reflexivity.
  - reflexivity.
  - reflexivity.
  - reflexivity.
  - destruct (Hav eq_refl 1%nat Fixture.terrace_suite eq_refl)
      as (Hl & _ & _ & Hlong & _).
    split; [exact Hl|]. apply Hlong. apply Nat.ltb_lt. reflexivity.
Defined.

(** The same answer, whose first record is sold out: its block has no
    offers and no separator after it. *)
Example search_hotels_sold_out_first :
  exists rest,
    result_of (HotelAgent.search_hotels true Fixture.auth_grants
                 (Fixture.net_returns [Fixture.savoy false;
                                       Fixture.dorchester])
                 0 (fun _ => "") "London" "2025-07-01" None 1 1 None None
                 None Fixture.start)
    = "Found 2 hotels in London from 2025-07-01 to 2025-07-02:"
      +:+ HotelAgent.nl +:+ HotelAgent.nl
      +:+ "Hotel 1: Savoy (MCLONGHM)" +:+ HotelAgent.nl
      +:+ "City Code: LON" +:+ HotelAgent.nl
      +:+ "Status: Sold out" +:+ HotelAgent.nl +:+ HotelAgent.nl
      +:+ "Hotel 2: Dorchester (HSLONROT)" +:+ HotelAgent.nl
      +:+ rest.
Proof. eexists. reflexivity. Qed.

(** The text for one available hotel with one offer. *)
Example search_hotels_savoy :
  result_of (HotelAgent.search_hotels true Fixture.auth_grants
               (Fixture.net_returns [Fixture.savoy true]) 0 (fun _ => "")
               "London" "2025-07-01" None 1 1 None None None Fixture.start)
  = "Found 1 hotels in London from 2025-07-01 to 2025-07-02:"
    +:+ HotelAgent.nl +:+ HotelAgent.nl
    +:+ "Hotel 1: Savoy (MCLONGHM)" +:+ HotelAgent.nl
    +:+ "City Code: LON" +:+ HotelAgent.nl
    +:+ "Found 1 offers:" +:+ HotelAgent.nl
    +:+ "  Offer 1:" +:+ HotelAgent.nl
    +:+ "  - Room Type: SUITE" +:+ HotelAgent.nl
    +:+ "  - Description: River view" +:+ HotelAgent.nl
    +:+ "  - Price: 480.00 GBP" +:+ HotelAgent.nl
    +:+ "  - Payment Type: Unknown" +:+ HotelAgent.nl
    +:+ "  - Cancellation Policy: No cancellation policy information"
    +:+ HotelAgent.nl +:+ HotelAgent.nl.
Proof. reflexivity. Qed.

(** * Further properties of the services and of the agent tools *)

(** ** The token over several calls *)

Lemma truthy_nonempty tok : tok ≠ "" -> truthy (Some tok) = true.
Proof.
  intros Hne. unfold truthy. destruct (String.eqb_spec tok ""); [done|reflexivity].
Qed.

Lemma ensure_token_granted auth now st resp tok expires_in :
  must_refresh (svc st) now = true ->
  auth (token_request (svc st)) = Ok resp ->
  status resp = 200 ->
  json resp = Ok {| body_access_token := tok;
                    body_expires_in := Some (EInt expires_in) |} ->
  _ensure_token auth now st
  = (tok,
     {| svc := {| client_id := client_id (svc st);
                  client_secret := client_secret (svc st);
                  access_token := tok;
                  token_expires_at := now + expires_in - 60 |};
        trace := trace st ++ [token_request (svc st)] |}).
Proof.
  intros Hr Ha Hs Hj. run_token. rewrite Hr, Ha; simpl. by rewrite Hs, Hj.
Qed.

(** X1. A token granted at [t0] with lifetime [expires_in] is reused by every
    later call before [t0 + expires_in - 60]: that call sends nothing, returns
    the same token and leaves the service as it is, whatever the auth
    endpoint would answer by then. *)
Theorem ensure_token_reuse auth auth' t0 t1 st resp tok expires_in :
  must_refresh (svc st) t0 = true ->
  auth (token_request (svc st)) = Ok resp ->
  status resp = 200 ->
  json resp = Ok {| body_access_token := Some tok;
                    body_expires_in := Some (EInt expires_in) |} ->
  tok ≠ "" ->
  t1 < t0 + expires_in - 60 ->
  _ensure_token auth' t1 (_ensure_token auth t0 st).2
  = (Some tok, (_ensure_token auth t0 st).2).
Proof.
  intros Hr Ha Hs Hj Hne Ht.
  rewrite (ensure_token_granted auth t0 st resp (Some tok) expires_in)
    by done.
  apply ensure_token_cached. apply must_refresh_spec. simpl. split; [|lia].
  by apply truthy_nonempty.
Qed.

Lemma ensure_token_reuse_witness :
  _ensure_token Fixture.auth_rejects 2738
    (_ensure_token Fixture.auth_grants 1000 Fixture.start).2
  = (Some "tok-1", (_ensure_token Fixture.auth_grants 1000 Fixture.start).2).
Proof.
  apply (ensure_token_reuse Fixture.auth_grants Fixture.auth_rejects 1000
           2738 Fixture.start
           {| status := 200; text := Ok ""; json := Ok Fixture.token_body |}
           "tok-1" 1799); try reflexivity.
  discriminate.
Defined.

(** X2. From [t0 + expires_in - 60] on, the granted token is stale: the next
    call sends exactly one new token request, with the same credentials.  A
    lifetime of 60 seconds or less is therefore never reused. *)
Theorem ensure_token_expiry auth auth' t0 t1 st resp tok expires_in :
  must_refresh (svc st) t0 = true ->
  auth (token_request (svc st)) = Ok resp ->
  status resp = 200 ->
  json resp = Ok {| body_access_token := tok;
                    body_expires_in := Some (EInt expires_in) |} ->
  t0 + expires_in - 60 <= t1 ->
  issued (_ensure_token auth' t1) (_ensure_token auth t0 st).2
  = [token_request (svc st)].
Proof.
  intros Hr Ha Hs Hj Ht.
  rewrite (ensure_token_granted auth t0 st resp tok expires_in) by done.
  rewrite issued_ensure_token.
  replace (must_refresh _ t1) with true.
  - reflexivity.
  - symmetry. apply must_refresh_true. right. simpl. lia.
Qed.

Lemma ensure_token_expiry_witness :
  issued (_ensure_token Fixture.auth_rejects 2739)
    (_ensure_token Fixture.auth_grants 1000 Fixture.start).2
  = [token_request Fixture.credentials].
Proof.
  apply (ensure_token_expiry Fixture.auth_grants Fixture.auth_rejects 1000
           2739 Fixture.start
           {| status := 200; text := Ok ""; json := Ok Fixture.token_body |}
           (Some "tok-1") 1799); try reflexivity.
  all: simpl; lia.
Defined.

(** X3. A 200 answer whose [access_token] is missing or empty is cached all
    the same, expiry included, but it never counts as a token: the call
    returns the falsy value, and the next call at any time asks again. *)
Theorem ensure_token_unusable_grant auth t0 t1 st resp tok expires_in :
  must_refresh (svc st) t0 = true ->
  auth (token_request (svc st)) = Ok resp ->
  status resp = 200 ->
  json resp = Ok {| body_access_token := tok; body_expires_in := expires_in |} ->
  default (EInt 1800) expires_in ≠ ENotNumber ->
  truthy tok = false ->
  result_of (_ensure_token auth t0 st) = tok
  /\ access_token (service_after (_ensure_token auth t0 st)) = tok
  /\ (exists n, default (EInt 1800) expires_in = EInt n
        /\ token_expires_at (service_after (_ensure_token auth t0 st))
           = t0 + n - 60)
  /\ must_refresh (service_after (_ensure_token auth t0 st)) t1 = true.
Proof.
  intros Hr Ha Hs Hj Hnum Htok. run_token.
  rewrite Hr, Ha; simpl. rewrite Hs, Hj; simpl.
  destruct (default (EInt 1800) expires_in) as [n|] eqn:He; [|done].
  simpl. repeat split; [eauto|].
  unfold must_refresh; simpl. by rewrite Htok.
Qed.

Lemma ensure_token_unusable_grant_witness :
  result_of (_ensure_token
               (fun _ => Ok {| status := 200; text := Ok "";
                               json := Ok {| body_access_token := None;
                                             body_expires_in := None |} |})
               1000 Fixture.start) = None
  /\ must_refresh
       (service_after
          (_ensure_token
             (fun _ => Ok {| status := 200; text := Ok "";
                             json := Ok {| body_access_token := None;
                                           body_expires_in := None |} |})
             1000 Fixture.start)) 1001 = true.
Proof.
  destruct (ensure_token_unusable_grant
              (fun _ => Ok {| status := 200; text := Ok "";
                              json := Ok {| body_access_token := None;
                                            body_expires_in := None |} |})
              1000 1001 Fixture.start
              {| status := 200; text := Ok "";
                 json := Ok {| body_access_token := None;
                               body_expires_in := None |} |}
              None None) as (H1 & _ & _ & H4); try reflexivity.
  - discriminate.
  - split; [exact H1 | exact H4].
Defined.

(** ** One attempt per call *)

Lemma operation_state {B A} auth (net : request -> outcome B) now
    (no_token : A) mk finish st :
  service_after (operation auth net now no_token mk finish st)
  = service_after (_ensure_token auth now st).
Proof.
  unfold operation, mbind, M_bind, service_after.
  destruct (_ensure_token auth now st) as [tok st1]; simpl.
  by destruct (truthy tok).
Qed.

Lemma operation_one_attempt {B A} auth (net : request -> outcome B) now
    (no_token : A) mk finish (op : M A) st :
  (forall st, op st = operation auth net now no_token mk finish st) ->
  (forall tok, req_method (mk tok) = GET
               /\ req_headers (mk tok) = bearer tok) ->
  one_attempt auth now op st.
Proof.
  intros Hop Hmk. unfold one_attempt, issued, service_after. rewrite Hop.
  fold (issued (operation auth net now no_token mk finish) st).
  fold (issued (_ensure_token auth now) st).
  fold (service_after (operation auth net now no_token mk finish st)).
  rewrite operation_issued, operation_state. cbv zeta.
  set (tok := result_of (_ensure_token auth now st)).
  exists (if truthy tok then [mk tok] else []).
  split; [done|]. split; [destruct (truthy tok); simpl; lia|].
  split.
  { rewrite length_app, issued_ensure_token.
    destruct (must_refresh _ _), (truthy tok); simpl; lia. }
  split; [by intros ->|]. split; [|done].
  intros rq Hin. destruct (truthy tok); [|by apply elem_of_nil in Hin].
  apply list_elem_of_singleton in Hin. subst rq.
  destruct (Hmk tok) as [Hm Hh]. split; [done|].
  rewrite Hh. unfold bearer. by simplify_map_eq.
Qed.

(** X4. Each of the five search operations makes one attempt: the token
    step, then at most one GET, sent under [Authorization: Bearer <token>]
    and only when the token step gave a token; never more than two requests,
    and no change to the service beyond what the token step did. *)
Theorem searches_make_one_attempt {R} auth
    (net : request -> outcome (search_body json_value))
    (net_hotels : request -> outcome (search_body R)) now st
    keyword subtype origin destination departure_date adults max_results
    airline_code city_code radius radius_unit chain_codes amenities ratings
    hotel_source hotel_ids check_in_date check_out_date room_quantity
    price_range currency board_type include_closed best_rate_only :
  one_attempt auth now
    (AmadeusService.search_airports auth net now keyword subtype) st
  /\ one_attempt auth now
       (AmadeusService.search_flights auth net now origin destination
          departure_date adults max_results) st
  /\ one_attempt auth now
       (AmadeusService.get_flight_checkin_links auth net now airline_code) st
  /\ one_attempt auth now
       (HotelService.search_hotels_by_city auth net_hotels now city_code
          radius radius_unit chain_codes amenities ratings hotel_source) st
  /\ one_attempt auth now
       (HotelService.search_hotel_offers auth net_hotels now hotel_ids
          check_in_date check_out_date adults room_quantity price_range
          currency board_type include_closed best_rate_only) st.
Proof.
  repeat split.
  - eapply operation_one_attempt; [apply search_airports_operation|done].
  - eapply operation_one_attempt; [apply search_flights_operation|done].
  - eapply operation_one_attempt;
      [apply get_flight_checkin_links_operation|done].
  - eapply operation_one_attempt;
      [apply search_hotels_by_city_operation|done].
  - eapply operation_one_attempt;
      [apply search_hotel_offers_operation|done].
Qed.

(** ** Success and failure of a call *)

Lemma finish_dict_error {R} extras (o : outcome (search_body R)) :
  error (finish_dict extras o) = failure_text o.
Proof.
  unfold finish_dict, failure_text.
  destruct o as [resp|e]; [|done].
  destruct (status resp =? 200).
  - destruct (json resp) as [b|]; [|done]. by destruct (body_read_error b).
  - by destruct (text resp).
Qed.

Lemma dict_operation_error {R} auth (net : request -> outcome (search_body R))
    now mk extras (op : M (result R)) st :
  (forall st, op st
     = operation auth net now (error_result "Unable to get access token")
         mk (finish_dict extras) st) ->
  (forall tok : option string, req_method (mk tok) = GET) ->
  is_Some (error (result_of (op st)))
  <-> exists msg,
        failure net (result_of (_ensure_token auth now st)) (issued op st) msg.
Proof.
  intros Hop Hmk. split.
  - intros [e He]. unfold issued. rewrite Hop in *.
    fold (issued (operation auth net now
                    (error_result "Unable to get access token") mk
                    (finish_dict extras)) st).
    rewrite operation_result in He. cbv zeta in He.
    destruct (truthy (result_of (_ensure_token auth now st))) eqn:Ht.
    + rewrite finish_dict_error in He. exists e.
      eapply search_failed; [done| |apply Hmk|exact He].
      rewrite operation_issued. cbv zeta. rewrite Ht.
      apply elem_of_app. right. by apply list_elem_of_singleton.
    + eexists. by apply token_unavailable.
  - intros [msg Hf].
    rewrite (dict_operation_failure auth net now mk extras op st msg Hop Hmk Hf).
    by eexists.
Qed.

(** X5. For the three operations that return a dictionary, the [error] key
    is there exactly when the call failed: without a token, or with a GET
    that raised, did not answer 200, did not parse, or gave a value the code
    cannot read (no JSON object, or a ["data"] that is [null], a number or a
    boolean). *)
Theorem error_key_iff_failure {R} auth
    (net : request -> outcome (search_body json_value))
    (net_hotels : request -> outcome (search_body R)) now st
    origin destination departure_date adults max_results
    city_code radius radius_unit chain_codes amenities ratings
    hotel_source hotel_ids check_in_date check_out_date room_quantity
    price_range currency board_type include_closed best_rate_only :
  let tok := result_of (_ensure_token auth now st) in
  (is_Some (error (result_of (AmadeusService.search_flights auth net now
                                origin destination departure_date adults
                                max_results st)))
   <-> exists msg,
         failure net tok
           (issued (AmadeusService.search_flights auth net now origin
                      destination departure_date adults max_results) st) msg)
  /\ (is_Some (error (result_of (HotelService.search_hotels_by_city auth
                                   net_hotels now city_code radius radius_unit
                                   chain_codes amenities ratings hotel_source
                                   st)))
      <-> exists msg,
            failure net_hotels tok
              (issued (HotelService.search_hotels_by_city auth net_hotels now
                         city_code radius radius_unit chain_codes amenities
                         ratings hotel_source) st) msg)
  /\ (is_Some (error (result_of (HotelService.search_hotel_offers auth
                                   net_hotels now hotel_ids check_in_date
                                   check_out_date adults room_quantity
                                   price_range currency board_type
                                   include_closed best_rate_only st)))
      <-> exists msg,
            failure net_hotels tok
              (issued (HotelService.search_hotel_offers auth net_hotels now
                         hotel_ids check_in_date check_out_date adults
                         room_quantity price_range currency board_type
                         include_closed best_rate_only) st) msg).
Proof.
  cbv zeta. split; [|split].
  - eapply dict_operation_error; [apply search_flights_operation|done].
  - eapply dict_operation_error; [apply search_hotels_by_city_operation|done].
  - eapply dict_operation_error; [apply search_hotel_offers_operation|done].
Qed.

Lemma operation_answered {R A} auth
    (net : request -> outcome (search_body R)) now
    (no_token : A) mk finish st body :
  (forall tok, req_method (mk tok) = GET) ->
  answered net (issued (operation auth net now no_token mk finish) st) body ->
  exists resp,
    status resp = 200 /\ json resp = Ok body
    /\ body_read_error body = None
    /\ result_of (operation auth net now no_token mk finish st)
       = finish (Ok resp).
Proof.
  intros Hmk (rq & resp & Hin & Hm & Hn & Hs & Hj & Hb).
  pose proof (operation_get _ _ _ _ _ _ _ _ Hmk Hin Hm) as ->.
  rewrite operation_issued in Hin. cbv zeta in Hin.
  rewrite operation_result. cbv zeta.
  destruct (truthy (result_of (_ensure_token auth now st))).
  - rewrite Hn. eauto.
  - rewrite app_nil_r, issued_ensure_token in Hin.
    destruct (must_refresh _ _); [|by apply elem_of_nil in Hin].
    apply list_elem_of_singleton in Hin. rewrite Hin in Hm. discriminate Hm.
Qed.

Lemma finish_dict_answered {R} extras (resp : response (search_body R)) body :
  status resp = 200 -> json resp = Ok body -> body_read_error body = None ->
  finish_dict extras (Ok resp)
  = {| error := None; data := default [] (body_data body);
       meta := (extras body).1; dictionaries := (extras body).2 |}.
Proof.
  intros Hs Hj Hb. unfold finish_dict, failure_text. by rewrite Hs, Hj, Hb.
Qed.

Lemma finish_list_answered {R} (resp : response (search_body R)) body :
  status resp = 200 -> json resp = Ok body -> body_read_error body = None ->
  finish_list (Ok resp) = default [] (body_data body).
Proof.
  intros Hs Hj Hb. unfold finish_list, failure_text. by rewrite Hs, Hj, Hb.
Qed.

(** X6. When the GET of a call is answered 200 with a JSON object whose
    ["data"] is an array or absent, the records under ["data"] are handed
    back as they are, and an absent ["data"] key reads as the empty list;
    [search_flights] adds ["dictionaries"] and [search_hotels_by_city] adds
    ["meta"], each an empty object when the body has none; no [error] key is
    set. *)
Theorem answered_search_results {R} auth
    (net : request -> outcome (search_body json_value))
    (net_hotels : request -> outcome (search_body R)) now st
    (body : search_body json_value) (hbody : search_body R)
    keyword subtype origin destination departure_date adults max_results
    airline_code city_code radius radius_unit chain_codes amenities ratings
    hotel_source hotel_ids check_in_date check_out_date room_quantity
    price_range currency board_type include_closed best_rate_only :
  (answered net
     (issued (AmadeusService.search_airports auth net now keyword subtype) st)
     body ->
   result_of (AmadeusService.search_airports auth net now keyword subtype st)
   = default [] (body_data body))
  /\ (answered net
        (issued (AmadeusService.get_flight_checkin_links auth net now
                   airline_code) st) body ->
      result_of (AmadeusService.get_flight_checkin_links auth net now
                   airline_code st)
      = default [] (body_data body))
  /\ (answered net
        (issued (AmadeusService.search_flights auth net now origin destination
                   departure_date adults max_results) st) body ->
      result_of (AmadeusService.search_flights auth net now origin destination
                   departure_date adults max_results st)
      = {| error := None; data := default [] (body_data body); meta := None;
           dictionaries := Some (default (JObj []) (body_dictionaries body)) |})
  /\ (answered net_hotels
        (issued (HotelService.search_hotels_by_city auth net_hotels now
                   city_code radius radius_unit chain_codes amenities ratings
                   hotel_source) st) hbody ->
      result_of (HotelService.search_hotels_by_city auth net_hotels now
                   city_code radius radius_unit chain_codes amenities ratings
                   hotel_source st)
      = {| error := None; data := default [] (body_data hbody);
           meta := Some (default (JObj []) (body_meta hbody));
           dictionaries := None |})
  /\ (answered net_hotels
        (issued (HotelService.search_hotel_offers auth net_hotels now
                   hotel_ids check_in_date check_out_date adults room_quantity
                   price_range currency board_type include_closed
                   best_rate_only) st) hbody ->
      result_of (HotelService.search_hotel_offers auth net_hotels now
                   hotel_ids check_in_date check_out_date adults room_quantity
                   price_range currency board_type include_closed
                   best_rate_only st)
      = {| error := None; data := default [] (body_data hbody);
           meta := None; dictionaries := None |}).
Proof.
  repeat split; intros Ha; unfold issued in Ha.
  - rewrite search_airports_operation in *.
    apply operation_answered in Ha as (resp & Hs & Hj & Hb & ->); [|done].
    by apply finish_list_answered.
  - rewrite get_flight_checkin_links_operation in *.
    apply operation_answered in Ha as (resp & Hs & Hj & Hb & ->); [|done].
    by apply finish_list_answered.
  - rewrite search_flights_operation in *.
    apply operation_answered in Ha as (resp & Hs & Hj & Hb & ->); [|done].
    by rewrite (finish_dict_answered _ resp body).
  - rewrite search_hotels_by_city_operation in *.
    apply operation_answered in Ha as (resp & Hs & Hj & Hb & ->); [|done].
    by rewrite (finish_dict_answered _ resp hbody).
  - rewrite search_hotel_offers_operation in *.
    apply operation_answered in Ha as (resp & Hs & Hj & Hb & ->); [|done].
    by rewrite (finish_dict_answered _ resp hbody).
Qed.

Lemma answered_search_results_witness :
  result_of (HotelService.search_hotel_offers Fixture.auth_grants
               (Fixture.net_returns [Fixture.savoy true]) 0 ["MCLONGHM"]
               "2025-07-01" None 1 1 None None None false true Fixture.start)
  = {| error := None; data := [Fixture.savoy true];
       meta := None; dictionaries := None |}.
Proof.
  apply (answered_search_results Fixture.auth_grants Fixture.net_empty_404
           (Fixture.net_returns [Fixture.savoy true]) 0 Fixture.start
           {| body_read_error := None; body_data := None; body_meta := None;
              body_dictionaries := None |}
           {| body_read_error := None; body_data := Some [Fixture.savoy true];
              body_meta := None; body_dictionaries := None |}
           "PEK" "AIRPORT" "MAD" "BCN" "2025-07-01" 1 3 "BA" "PAR" 5 "KM"
           None None None "ALL" ["MCLONGHM"] "2025-07-01" None 1 None None
           None false true).
  eexists _, _. split; [|split; [|split; [|split; [|split]]]].
  - apply list_elem_of_lookup. exists 1%nat. reflexivity.
  - reflexivity.
  - reflexivity.
  - reflexivity.
  - reflexivity.
  - reflexivity.
Defined.

(** An answer [{"data": null}] parses, but [len()] of its data raises: the
    dictionary operations hand back the error of that exception, the list
    operations the empty list. *)
Example null_data_is_a_failure :
  result_of (HotelService.search_hotel_offers (R := json_value)
               Fixture.auth_grants Fixture.net_null_data 0 ["MCLONGHM"]
               "2025-07-01" None 1 1 None None None false true Fixture.start)
  = {| error := Some "object of type 'NoneType' has no len()"; data := [];
       meta := None; dictionaries := None |}
  /\ result_of (AmadeusService.search_airports Fixture.auth_grants
                  Fixture.net_null_data 0 "PEK" "AIRPORT" Fixture.start)
     = [].
Proof. split; reflexivity. Qed.

(** X7. A non-empty list from [search_airports] or
    [get_flight_checkin_links] means the GET was answered 200 with exactly
    these records under ["data"]: the two operations return the empty list for
    every failure and for an answer without records alike. *)
Theorem nonempty_list_means_answered auth
    (net : request -> outcome (search_body json_value)) now st
    keyword subtype airline_code :
  (result_of (AmadeusService.search_airports auth net now keyword subtype st)
     ≠ [] ->
   exists body,
     answered net
       (issued (AmadeusService.search_airports auth net now keyword subtype)
          st) body
     /\ body_data body
        = Some (result_of (AmadeusService.search_airports auth net now
                             keyword subtype st)))
  /\ (result_of (AmadeusService.get_flight_checkin_links auth net now
                   airline_code st) ≠ [] ->
      exists body,
        answered net
          (issued (AmadeusService.get_flight_checkin_links auth net now
                     airline_code) st) body
        /\ body_data body
           = Some (result_of (AmadeusService.get_flight_checkin_links auth
                                net now airline_code st))).
Proof.
  assert (forall mk (op : M (list json_value)),
             (forall st, op st = operation auth net now [] mk finish_list st) ->
             (forall tok : option string, req_method (mk tok) = GET) ->
             result_of (op st) ≠ [] ->
             exists body,
               answered net (issued op st) body
               /\ body_data body = Some (result_of (op st))) as Hgen.
  { intros mk op Hop Hmk Hne. unfold issued. rewrite Hop in *.
    fold (issued (operation auth net now [] mk finish_list) st).
    rewrite operation_result in *. cbv zeta in *.
    rewrite operation_issued. cbv zeta.
    destruct (truthy (result_of (_ensure_token auth now st))); [|done].
    unfold finish_list, failure_text in *.
    destruct (net (mk _)) as [resp|e] eqn:Hn; [|done].
    destruct (status resp =? 200) eqn:Hs;
      [|by destruct (text resp)].
    destruct (json resp) as [body|e] eqn:Hj; [|done].
    destruct (body_read_error body) as [e|] eqn:Hb; [done|].
    destruct (body_data body) as [l|] eqn:Hd; [|done].
    exists body. split; [|done].
    exists (mk (result_of (_ensure_token auth now st))), resp.
    split; [apply elem_of_app; right; by apply list_elem_of_singleton|].
    split; [apply Hmk|]. split; [done|]. split; [by apply Z.eqb_eq|done]. }
  split; intros Hne.
  - eapply Hgen; [apply search_airports_operation|done|done].
  - eapply Hgen; [apply get_flight_checkin_links_operation|done|done].
Qed.

Lemma nonempty_list_means_answered_witness :
  exists body,
    answered (Fixture.net_returns [JStr "PEK"])
      (issued (AmadeusService.search_airports Fixture.auth_grants
                 (Fixture.net_returns [JStr "PEK"]) 0 "PEK" "AIRPORT")
         Fixture.start) body
    /\ body_data body
       = Some (result_of (AmadeusService.search_airports Fixture.auth_grants
                            (Fixture.net_returns [JStr "PEK"]) 0 "PEK"
                            "AIRPORT" Fixture.start)).
Proof.
  apply (nonempty_list_means_answered Fixture.auth_grants
           (Fixture.net_returns [JStr "PEK"]) 0 Fixture.start "PEK" "AIRPORT"
           "BA").
  vm_compute. discriminate.
Defined.

(** ** Query parameters *)

Lemma dict_operation_get {R A} auth (net : request -> outcome (search_body R))
    now (no_token : A) mk finish (op : M A) st rq :
  (forall st, op st = operation auth net now no_token mk finish st) ->
  (forall tok : option string, req_method (mk tok) = GET) ->
  rq ∈ issued op st -> req_method rq = GET ->
  rq = mk (result_of (_ensure_token auth now st)).
Proof.
  intros Hop Hmk Hin Hm. unfold issued in Hin. rewrite Hop in Hin.
  by eapply operation_get.
Qed.

Lemma hotels_by_city_params_lookups city_code radius radius_unit chain_codes
    amenities ratings hotel_source :
  let params :=
    HotelService.hotels_by_city_params city_code radius radius_unit
      chain_codes amenities ratings hotel_source in
  params !! "cityCode" = Some (PStr city_code)
  /\ params !! "radius" = Some (PInt radius)
  /\ params !! "radiusUnit" = Some (PStr radius_unit)
  /\ params !! "hotelSource" = Some (PStr hotel_source)
  /\ params !! "chainCodes"
     = (if truthy_list chain_codes
        then Some (PStr (join "," (default [] chain_codes))) else None)
  /\ params !! "amenities"
     = (if truthy_list amenities
        then Some (PStr (join "," (default [] amenities))) else None)
  /\ params !! "ratings"
     = (if truthy_list ratings
        then Some (PStr (join "," (default [] ratings))) else None).
Proof.
  cbv zeta. unfold HotelService.hotels_by_city_params.
  destruct (truthy_list chain_codes), (truthy_list amenities),
    (truthy_list ratings); repeat split; by simplify_map_eq.
Qed.

Lemma search_hotels_by_city_get {R} auth
    (net : request -> outcome (search_body R)) now city_code radius
    radius_unit chain_codes amenities ratings hotel_source st rq :
  rq ∈ issued (HotelService.search_hotels_by_city auth net now city_code
                 radius radius_unit chain_codes amenities ratings
                 hotel_source) st ->
  req_method rq = GET ->
  req_url rq = HotelService.HOTELS_BY_CITY_ENDPOINT
  /\ req_payload rq
     = HotelService.hotels_by_city_params city_code radius radius_unit
         chain_codes amenities ratings hotel_source.
Proof.
  intros Hin Hm.
  by rewrite (dict_operation_get _ _ _ _ _ _ _ _ _
                (search_hotels_by_city_operation auth now net city_code radius
                   radius_unit chain_codes amenities ratings hotel_source)
                (fun _ => eq_refl) Hin Hm).
Qed.

(** X8. The GET of [search_hotels_by_city] always carries [cityCode],
    [radius], [radiusUnit] and [hotelSource] as given; each of [chainCodes],
    [amenities] and [ratings] is sent, joined with commas, when its list is
    given and not empty, and is left out otherwise. *)
Theorem search_hotels_by_city_query {R} auth
    (net : request -> outcome (search_body R)) now city_code radius
    radius_unit chain_codes amenities ratings hotel_source st rq :
  rq ∈ issued (HotelService.search_hotels_by_city auth net now city_code
                 radius radius_unit chain_codes amenities ratings
                 hotel_source) st ->
  req_method rq = GET ->
  req_url rq = HotelService.HOTELS_BY_CITY_ENDPOINT
  /\ req_payload rq !! "cityCode" = Some (PStr city_code)
  /\ req_payload rq !! "radius" = Some (PInt radius)
  /\ req_payload rq !! "radiusUnit" = Some (PStr radius_unit)
  /\ req_payload rq !! "hotelSource" = Some (PStr hotel_source)
  /\ req_payload rq !! "chainCodes"
     = (if truthy_list chain_codes
        then Some (PStr (join "," (default [] chain_codes))) else None)
  /\ req_payload rq !! "amenities"
     = (if truthy_list amenities
        then Some (PStr (join "," (default [] amenities))) else None)
  /\ req_payload rq !! "ratings"
     = (if truthy_list ratings
        then Some (PStr (join "," (default [] ratings))) else None).
Proof.
  intros Hin Hm.
  destruct (search_hotels_by_city_get _ _ _ _ _ _ _ _ _ _ _ _ Hin Hm)
    as [-> ->].
  split; [done|]. apply hotels_by_city_params_lookups.
Qed.

Lemma search_hotels_by_city_query_witness :
  exists rq,
    req_payload rq !! "amenities" = Some (PStr "SPA,WIFI")
    /\ req_payload rq !! "ratings" = None
    /\ req_payload rq !! "chainCodes" = None.
Proof.
  eexists.
  pose proof (search_hotels_by_city_query (R := json_value)
                Fixture.auth_grants Fixture.net_empty_404 0 "PAR" 5 "KM"
                None (Some ["SPA"; "WIFI"]) (Some []) "ALL" Fixture.start _
                ltac:(apply list_elem_of_lookup; exists 1%nat; reflexivity)
                eq_refl)
    as (_ & _ & _ & _ & _ & Hc & Ha & Hr).
  split; [exact Ha|split; [exact Hr|exact Hc]].
Defined.

Lemma params_required hotel_ids check_in_date check_out_date adults
    room_quantity price_range currency board_type include_closed
    best_rate_only :
  let params :=
    HotelService.hotel_offers_params hotel_ids check_in_date check_out_date
      adults room_quantity price_range currency board_type include_closed
      best_rate_only in
  params !! "hotelIds" = Some (PStr (join "," hotel_ids))
  /\ params !! "checkInDate" = Some (PStr check_in_date)
  /\ params !! "adults" = Some (PInt adults)
  /\ params !! "roomQuantity" = Some (PInt room_quantity)
  /\ params !! "boardType"
     = (if truthy board_type then Some (of_opt board_type) else None).
Proof.
  cbv zeta. unfold HotelService.hotel_offers_params.
  destruct (truthy price_range && truthy currency);
    destruct (truthy check_out_date), (truthy board_type), include_closed;
    repeat split; by simplify_map_eq.
Qed.

(** X9. The GET of [search_hotel_offers] always carries [hotelIds], the IDs
    joined with commas, [checkInDate] as given, and [adults] and
    [roomQuantity] as numbers; [checkOutDate] and [boardType] are sent as
    given when they are given and not empty, and are left out otherwise. *)
Theorem search_hotel_offers_query {R} auth
    (net : request -> outcome (search_body R)) now hotel_ids check_in_date
    check_out_date adults room_quantity price_range currency board_type
    include_closed best_rate_only st rq :
  rq ∈ issued (HotelService.search_hotel_offers auth net now hotel_ids
                 check_in_date check_out_date adults room_quantity price_range
                 currency board_type include_closed best_rate_only) st ->
  req_method rq = GET ->
  req_url rq = HotelService.HOTEL_OFFERS_ENDPOINT
  /\ req_payload rq !! "hotelIds" = Some (PStr (join "," hotel_ids))
  /\ req_payload rq !! "checkInDate" = Some (PStr check_in_date)
  /\ req_payload rq !! "adults" = Some (PInt adults)
  /\ req_payload rq !! "roomQuantity" = Some (PInt room_quantity)
  /\ req_payload rq !! "checkOutDate"
     = (if truthy check_out_date then Some (of_opt check_out_date) else None)
  /\ req_payload rq !! "boardType"
     = (if truthy board_type then Some (of_opt board_type) else None).
Proof.
  intros Hin Hm.
  destruct (search_hotel_offers_get _ _ _ _ _ _ _ _ _ _ _ _ _ _ _ Hin Hm)
    as [-> ->].
  split; [done|].
  destruct (params_required hotel_ids check_in_date check_out_date adults
              room_quantity price_range currency board_type include_closed
              best_rate_only) as (H1 & H2 & H3 & H4 & H5).
  rewrite params_checkOutDate. repeat split; done.
Qed.

Lemma search_hotel_offers_query_witness :
  exists rq,
    req_payload rq !! "hotelIds" = Some (PStr "MCLONGHM,HSLONROT")
    /\ req_payload rq !! "boardType" = Some (PStr "BREAKFAST")
    /\ req_payload rq !! "checkOutDate" = None.
Proof.
  eexists.
  pose proof (search_hotel_offers_query (R := json_value)
                Fixture.auth_grants Fixture.net_empty_404 0
                ["MCLONGHM"; "HSLONROT"] "2025-07-01" (Some "") 1 1 None None
                (Some "BREAKFAST") false true Fixture.start _
                ltac:(apply list_elem_of_lookup; exists 1%nat; reflexivity)
                eq_refl)
    as (_ & Hh & _ & _ & _ & Hc & Hb).
  split; [exact Hh|split; [exact Hb|exact Hc]].
Defined.

(** ** Two calls on one service *)

Lemma operation_run {B A} auth (net : request -> outcome B) now
    (no_token : A) mk finish st :
  trace_after (operation auth net now no_token mk finish st)
  = trace st ++ issued (operation auth net now no_token mk finish) st.
Proof.
  rewrite operation_issued. cbv zeta.
  unfold operation, mbind, M_bind, trace_after, result_of.
  pose proof (ensure_token_trace_prefix auth now st) as Ht.
  unfold trace_after in Ht.
  destruct (_ensure_token auth now st) as [tok st1]; simpl in *.
  rewrite app_assoc, <- Ht.
  destruct (truthy tok); simpl; [done|by rewrite app_nil_r].
Qed.

(** X10. The token is shared by the calls on one service: after a
    [search_hotels_by_city] during which a non-empty token was granted at
    [t0], a [search_hotel_offers] before [t0 + expires_in - 60] sends no token
    request, only its GET, under the same bearer token. *)
Theorem second_search_reuses_token {R1 R2} auth auth'
    (net1 : request -> outcome (search_body R1))
    (net2 : request -> outcome (search_body R2)) t0 t1 st resp tok expires_in
    city_code radius radius_unit chain_codes amenities ratings hotel_source
    hotel_ids check_in_date check_out_date adults room_quantity price_range
    currency board_type include_closed best_rate_only :
  must_refresh (svc st) t0 = true ->
  auth (token_request (svc st)) = Ok resp ->
  status resp = 200 ->
  json resp = Ok {| body_access_token := Some tok;
                    body_expires_in := Some (EInt expires_in) |} ->
  tok ≠ "" ->
  t1 < t0 + expires_in - 60 ->
  issued (HotelService.search_hotel_offers auth' net2 t1 hotel_ids
            check_in_date check_out_date adults room_quantity price_range
            currency board_type include_closed best_rate_only)
    (HotelService.search_hotels_by_city auth net1 t0 city_code radius
       radius_unit chain_codes amenities ratings hotel_source st).2
  = [get_request HotelService.HOTEL_OFFERS_ENDPOINT
       (HotelService.hotel_offers_params hotel_ids check_in_date
          check_out_date adults room_quantity price_range currency board_type
          include_closed best_rate_only)
       (bearer (Some tok))].
Proof.
  intros Hr Ha Hs Hj Hne Ht.
  set (st1 := (HotelService.search_hotels_by_city auth net1 t0 city_code
                 radius radius_unit chain_codes amenities ratings hotel_source
                 st).2).
  assert (svc st1
          = {| client_id := client_id (svc st);
               client_secret := client_secret (svc st);
               access_token := Some tok;
               token_expires_at := t0 + expires_in - 60 |}) as Hsvc.
  { subst st1. rewrite search_hotels_by_city_operation.
    change (svc (?x).2) with (service_after x).
    rewrite operation_state. unfold service_after.
    by rewrite (ensure_token_granted auth t0 st resp (Some tok) expires_in). }
  assert (must_refresh (svc st1) t1 = false) as Hfresh.
  { apply must_refresh_spec. rewrite Hsvc. simpl.
    split; [by apply truthy_nonempty|lia]. }
  rewrite search_hotel_offers_issued, issued_ensure_token, Hfresh.
  rewrite (ensure_token_cached auth' t1 st1 Hfresh). cbv zeta.
  unfold result_of. cbn [fst]. rewrite Hsvc. cbn [access_token].
  by rewrite truthy_nonempty.
Qed.

Lemma second_search_reuses_token_witness :
  issued (HotelService.search_hotel_offers (R := json_value)
            Fixture.auth_rejects Fixture.net_empty_404 1200 ["MCLONGHM"]
            "2025-07-01" None 1 1 None None None false true)
    (HotelService.search_hotels_by_city (R := json_value) Fixture.auth_grants
       Fixture.net_empty_404 1000 "LON" 5 "KM" None None None "ALL"
       Fixture.start).2
  = [get_request HotelService.HOTEL_OFFERS_ENDPOINT
       (HotelService.hotel_offers_params ["MCLONGHM"] "2025-07-01" None 1 1
          None None None false true)
       (bearer (Some "tok-1"))].
Proof.
  apply (second_search_reuses_token Fixture.auth_grants Fixture.auth_rejects
           Fixture.net_empty_404 Fixture.net_empty_404 1000 1200
           Fixture.start
           {| status := 200; text := Ok ""; json := Ok Fixture.token_body |}
           "tok-1" 1799); try reflexivity.
  discriminate.
Defined.

(** ** The offer tool before it reaches the network *)

(** X11. For a city without hotel IDs (its key is not in
    [HOTEL_ID_MAPPING], as for ["berlin"]), [search_hotels] answers with the
    "No hotel information found" message for that city, sends nothing and
    leaves the service as it is, token included. *)
Theorem search_hotels_unknown_city auth net now exception_text city
    check_in_date check_out_date adults room_quantity price_range currency
    board_type st :
  HotelAgent.HOTEL_ID_MAPPING !! HotelAgent.city_key city = None ->
  HotelAgent.search_hotels true auth net now exception_text city
    check_in_date check_out_date adults room_quantity price_range currency
    board_type st
  = ("No hotel information found for city '" +:+ city
     +:+ "'. Please use major cities like London, Paris, New York, etc.", st).
Proof.
  intros Hk. unfold HotelAgent.search_hotels, HotelAgent.resolve_hotel_ids.
  by rewrite Hk.
Qed.

Lemma search_hotels_unknown_city_witness :
  HotelAgent.search_hotels true Fixture.auth_grants
    (Fixture.net_returns [Fixture.savoy true]) 0 (fun _ => "") "Berlin"
    "2025-07-01" None 1 1 None None None Fixture.start
  = ("No hotel information found for city '" +:+ "Berlin"
     +:+ "'. Please use major cities like London, Paris, New York, etc.",
     Fixture.start).
Proof.
  apply (search_hotels_unknown_city Fixture.auth_grants
           (Fixture.net_returns [Fixture.savoy true]) 0 (fun _ => "")
           "Berlin" "2025-07-01" None 1 1 None None None Fixture.start).
  reflexivity.
Defined.

Lemma default_check_out_none check_in_date check_out_date :
  HotelAgent.default_check_out check_in_date check_out_date = None
  <-> truthy check_out_date = false
      /\ (strptime check_in_date = None
          \/ strptime check_in_date = Some HotelAgentUtil.last_day).
Proof.
  unfold HotelAgent.default_check_out.
  destruct (truthy check_out_date) eqn:Ht; cbn [negb].
  - split; [|intros [? _]; done].
    intros ->. discriminate Ht.
  - destruct (strptime check_in_date) as [d|] eqn:Hp; simpl.
    + pose proof (add_one_day_overflow d (strptime_valid _ _ Hp)) as Ho.
      destruct (add_one_day d) as [d'|] eqn:Ha; simpl.
      * split; [done|]. intros [_ [H|H]]; [done|].
        inversion H as [Hd]. apply Ho in Hd. discriminate Hd.
      * split; [|done]. intros _. split; [done|]. right. f_equal.
        by apply Ho.
    + split; [|done]. intros _. split; [done|]. by left.
Qed.

(** X12. Without a check-out date, a [check_in_date] that [strptime]
    rejects, or the last day of year 9999, makes [search_hotels] answer "An
    error occurred while searching for hotels:" with the text of the
    exception; nothing is sent and the service is left as it is. *)
Theorem search_hotels_bad_check_in auth net now exception_text city
    check_in_date check_out_date adults room_quantity price_range currency
    board_type st :
  HotelAgent.resolve_hotel_ids city ≠ [] ->
  truthy check_out_date = false ->
  strptime check_in_date = None
  \/ strptime check_in_date = Some HotelAgentUtil.last_day ->
  HotelAgent.search_hotels true auth net now exception_text city
    check_in_date check_out_date adults room_quantity price_range currency
    board_type st
  = ("An error occurred while searching for hotels: "
     +:+ exception_text check_in_date, st).
Proof.
  intros Hids Hco Hd. unfold HotelAgent.search_hotels. cbn [negb].
  destruct (HotelAgent.resolve_hotel_ids city) as [|id ids]; [done|].
  assert (HotelAgent.default_check_out check_in_date check_out_date = None)
    as -> by (by apply default_check_out_none).
  reflexivity.
Qed.

Lemma search_hotels_bad_check_in_witness :
  HotelAgent.search_hotels true Fixture.auth_grants
    (Fixture.net_returns [Fixture.savoy true]) 0
    (fun _ => "day is out of range for month") "London" "2025-02-30" None
    1 1 None None None Fixture.start
  = ("An error occurred while searching for hotels: "
     +:+ "day is out of range for month", Fixture.start).
Proof.
  apply (search_hotels_bad_check_in Fixture.auth_grants
           (Fixture.net_returns [Fixture.savoy true]) 0
           (fun _ => "day is out of range for month") "London" "2025-02-30"
           None 1 1 None None None Fixture.start).
  - vm_compute. discriminate.
  - reflexivity.
  - left. reflexivity.
Defined.

(** ** The query of the offer tool *)

(** X13. Whatever [search_hotels] sends to the hotel-offer endpoint carries
    the hotel IDs of the city joined with commas, [check_in_date] as typed,
    [bestRateOnly=true] and no [includeClosed]; a check-out date that is
    given is passed on as typed, without being parsed, and so is the check-in
    date next to it. *)
Theorem search_hotels_query auth net now exception_text city check_in_date
    check_out_date adults room_quantity price_range currency board_type st
    rq :
  rq ∈ issued (HotelAgent.search_hotels true auth net now exception_text
                 city check_in_date check_out_date adults room_quantity
                 price_range currency board_type) st ->
  req_method rq = GET ->
  req_url rq = HotelService.HOTEL_OFFERS_ENDPOINT
  /\ req_payload rq !! "hotelIds"
     = Some (PStr (join "," (HotelAgent.resolve_hotel_ids city)))
  /\ req_payload rq !! "checkInDate" = Some (PStr check_in_date)
  /\ req_payload rq !! "bestRateOnly" = Some (PStr "true")
  /\ req_payload rq !! "includeClosed" = None
  /\ req_payload rq !! "adults" = Some (PInt adults)
  /\ req_payload rq !! "roomQuantity" = Some (PInt room_quantity)
  /\ (truthy check_out_date = true ->
      req_payload rq !! "checkOutDate" = Some (of_opt check_out_date)).
Proof.
  intros Hin Hm. rewrite search_hotels_issued in Hin.
  destruct (HotelAgent.resolve_hotel_ids city) as [|id ids] eqn:Hids;
    [by apply elem_of_nil in Hin|].
  destruct (HotelAgent.default_check_out check_in_date check_out_date)
    as [co|] eqn:Hco; [|by apply elem_of_nil in Hin].
  destruct (search_hotel_offers_get _ _ _ _ _ _ _ _ _ _ _ _ _ _ _ Hin Hm)
    as [-> ->].
  split; [done|].
  destruct (params_required (id :: ids) check_in_date (Some co) adults
              room_quantity price_range currency
              (HotelAgent.process_board_type board_type) false true)
    as (H1 & H2 & H3 & H4 & _).
  rewrite params_bestRateOnly, params_includeClosed, params_checkOutDate.
  repeat split; try done.
  intros Ht. unfold HotelAgent.default_check_out in Hco.
  rewrite Ht in Hco. cbn [negb] in Hco. rewrite Hco in Ht.
  by rewrite Ht, Hco.
Qed.

Lemma search_hotels_query_witness :
  exists rq,
    req_payload rq !! "hotelIds" = Some (PStr "PARPARHT,HSPARPDG")
    /\ req_payload rq !! "checkInDate" = Some (PStr "tomorrow")
    /\ req_payload rq !! "checkOutDate" = Some (PStr "next week").
Proof.
  eexists.
  pose proof (search_hotels_query Fixture.auth_grants
                (Fixture.net_returns [Fixture.savoy true]) 0 (fun _ => "")
                "Paris" "tomorrow" (Some "next week") 1 1 None None None
                Fixture.start _
                ltac:(apply list_elem_of_lookup; exists 1%nat; reflexivity)
                eq_refl)
    as (_ & Hh & Hi & _ & _ & _ & _ & Ho).
  split; [exact Hh|split; [exact Hi|exact (Ho eq_refl)]].
Defined.

(** ** Board types *)

Lemma board_values_fixed :
  Forall (fun kv : string * string =>
            kv.2 ≠ ""
            /\ HotelAgent.process_board_type (Some kv.2) = Some kv.2)
         HotelAgent.BOARD_TYPE_MAPPING_items.
Proof.
  unfold HotelAgent.BOARD_TYPE_MAPPING_items.
  repeat (apply Forall_cons; split;
          [split; [discriminate|reflexivity]|]).
  constructor.
Qed.

Lemma board_names_accepted :
  Forall (fun kv : string * string =>
            HotelAgent.process_board_type (Some kv.1) = Some kv.2
            /\ HotelAgent.process_board_type (Some (upper kv.1)) = Some kv.2)
         HotelAgent.BOARD_TYPE_MAPPING_items.
Proof.
  unfold HotelAgent.BOARD_TYPE_MAPPING_items.
  repeat (apply Forall_cons; split; [split; reflexivity|]).
  constructor.
Qed.

Lemma process_board_type_cases board_type :
  (truthy board_type = false
   /\ HotelAgent.process_board_type board_type = None)
  \/ (exists bt v,
        board_type = Some bt /\ bt ≠ ""
        /\ HotelAgent.BOARD_TYPE_MAPPING !! lower bt = Some v
        /\ HotelAgent.process_board_type board_type = Some v)
  \/ (exists bt,
        board_type = Some bt /\ bt ≠ ""
        /\ HotelAgent.BOARD_TYPE_MAPPING !! lower bt = None
        /\ HotelAgent.process_board_type board_type = Some bt).
Proof.
  unfold HotelAgent.process_board_type.
  destruct (truthy board_type) eqn:Ht; [|by left].
  right. destruct board_type as [bt|]; [|discriminate Ht].
  assert (bt ≠ "") as Hne.
  { intros ->. discriminate Ht. }
  simpl. destruct (HotelAgent.BOARD_TYPE_MAPPING !! lower bt) as [v|] eqn:Hl.
  - left. by exists bt, v.
  - right. by exists bt.
Qed.

(** X14. [search_hotels] normalizes the board type once and for all: a
    name of [BOARD_TYPE_MAPPING], in any letter case, becomes its API value;
    any other non-empty text is kept as typed; [None] and the empty text give
    no board type.  The API values are kept as they are, so normalizing twice
    changes nothing; every name of [get_supported_board_types()] is accepted,
    in lower and in upper case. *)
Theorem process_board_type_idempotent board_type :
  HotelAgent.process_board_type (HotelAgent.process_board_type board_type)
  = HotelAgent.process_board_type board_type
  /\ (truthy board_type = false ->
      HotelAgent.process_board_type board_type = None)
  /\ (forall bt name value,
        board_type = Some bt -> bt ≠ "" -> lower bt = name ->
        (name, value) ∈ HotelAgent.BOARD_TYPE_MAPPING_items ->
        HotelAgent.process_board_type board_type = Some value
        /\ HotelAgent.process_board_type (Some value) = Some value)
  /\ (forall bt,
        board_type = Some bt -> bt ≠ "" ->
        HotelAgent.BOARD_TYPE_MAPPING !! lower bt = None ->
        HotelAgent.process_board_type board_type = Some bt)
  /\ (forall name,
        name ∈ HotelAgentUtil.get_supported_board_types ->
        exists value,
          (name, value) ∈ HotelAgent.BOARD_TYPE_MAPPING_items
          /\ HotelAgent.process_board_type (Some name) = Some value
          /\ HotelAgent.process_board_type (Some (upper name)) = Some value).
Proof.
  pose proof board_values_fixed as Hall. rewrite Forall_forall in Hall.
  split; [|split; [|split; [|split]]].
  - destruct (process_board_type_cases board_type)
      as [[_ ->] | [(bt & v & -> & Hne & Hl & ->) | (bt & -> & Hne & Hl & ->)]].
    + reflexivity.
    + apply elem_of_list_to_map_2 in Hl.
      by destruct (Hall _ Hl) as (_ & Hv).
    + unfold HotelAgent.process_board_type.
      rewrite truthy_nonempty by done. simpl. by rewrite Hl.
  - intros Ht. unfold HotelAgent.process_board_type. by rewrite Ht.
  - intros bt name value -> Hne Hl Hin.
    destruct (Hall _ Hin) as (_ & Hv). split; [|done].
    unfold HotelAgent.process_board_type.
    rewrite truthy_nonempty by done. cbn [fmt_opt]. rewrite Hl.
    revert Hin. unfold HotelAgent.BOARD_TYPE_MAPPING_items.
    rewrite !elem_of_cons, elem_of_nil.
    intros [H|[H|[H|[H|[H|[]]]]]]; inversion H; subst; reflexivity.
  - intros bt -> Hne Hl. unfold HotelAgent.process_board_type.
    rewrite truthy_nonempty by done. simpl. by rewrite Hl.
  - intros name Hn. unfold HotelAgentUtil.get_supported_board_types in Hn.
    apply list_elem_of_fmap in Hn as ([k v] & -> & Hin).
    pose proof board_names_accepted as Hacc. rewrite Forall_forall in Hacc.
    destruct (Hacc _ Hin) as [H1 H2]. by exists v.
Qed.

Lemma process_board_type_idempotent_witness :
  HotelAgent.process_board_type (Some "Half Board") = Some "HALF_BOARD"
  /\ HotelAgent.process_board_type (Some "HALF_BOARD") = Some "HALF_BOARD".
Proof.
  destruct (process_board_type_idempotent (Some "Half Board"))
    as (_ & _ & H & _ & _).
  apply (H "Half Board" "half board" "HALF_BOARD").
  - reflexivity.
  - discriminate.
  - reflexivity.
  - apply list_elem_of_lookup. exists 2%nat. reflexivity.
Defined.

(** ** What the offer tool makes of the service's answer *)

Lemma search_hotels_result auth net now exception_text city check_in_date
    check_out_date adults room_quantity price_range currency board_type st
    co :
  HotelAgent.resolve_hotel_ids city ≠ [] ->
  HotelAgent.default_check_out check_in_date check_out_date = Some co ->
  let r :=
    result_of (HotelService.search_hotel_offers auth net now
                 (HotelAgent.resolve_hotel_ids city) check_in_date (Some co)
                 adults room_quantity price_range currency
                 (HotelAgent.process_board_type board_type) false true st) in
  result_of (HotelAgent.search_hotels true auth net now exception_text city
               check_in_date check_out_date adults room_quantity price_range
               currency board_type st)
  = match error r with
    | Some e => "Hotel search failed: " +:+ e
    | None =>
        match data r with
        | [] => "No hotel offers found matching your criteria. "
                +:+ "Please try different dates or cities."
        | _ :: _ =>
            HotelAgent.format_hotel_offers city check_in_date co (data r)
        end
    end.
Proof.
  intros Hids Hco r. subst r.
  unfold HotelAgent.search_hotels, result_of. cbn [negb].
  destruct (HotelAgent.resolve_hotel_ids city) as [|id ids]; [done|].
  rewrite Hco. unfold mbind, M_bind.
  destruct (HotelService.search_hotel_offers _ _ _ _ _ _ _ _ _ _ _ _ _ st)
    as [r st']; simpl.
  destruct (error r); [done|]. by destruct (data r).
Qed.

(** X15. A failure of the hotel-offer call reaches the user of
    [search_hotels] as text: the tool answers ["Hotel search failed: "]
    followed by the message of the failure, which is ["Unable to get access
    token"] when the token step failed. *)
Theorem search_hotels_reports_failure auth net now exception_text city
    check_in_date check_out_date adults room_quantity price_range currency
    board_type st msg :
  failure net (result_of (_ensure_token auth now st))
    (issued (HotelAgent.search_hotels true auth net now exception_text city
               check_in_date check_out_date adults room_quantity price_range
               currency board_type) st) msg ->
  HotelAgent.resolve_hotel_ids city ≠ [] ->
  HotelAgent.default_check_out check_in_date check_out_date ≠ None ->
  result_of (HotelAgent.search_hotels true auth net now exception_text city
               check_in_date check_out_date adults room_quantity price_range
               currency board_type st)
  = "Hotel search failed: " +:+ msg.
Proof.
  intros Hf Hids Hco.
  destruct (HotelAgent.default_check_out check_in_date check_out_date)
    as [co|] eqn:Hd; [|done].
  rewrite (search_hotels_result auth net now exception_text city
             check_in_date check_out_date adults room_quantity price_range
             currency board_type st co Hids Hd). cbv zeta.
  rewrite search_hotels_issued in Hf.
  destruct (HotelAgent.resolve_hotel_ids city) as [|id ids] eqn:Hr; [done|].
  rewrite Hd in Hf.
  by rewrite (dict_operation_failure auth net now _ _ _ st msg
                (search_hotel_offers_operation auth now net _ _ _ _ _ _ _ _
                   _ _)
                (fun _ => eq_refl) Hf).
Qed.

Lemma search_hotels_reports_failure_witness :
  result_of (HotelAgent.search_hotels true Fixture.auth_rejects
               (Fixture.net_returns [Fixture.savoy true]) 0 (fun _ => "")
               "London" "2025-07-01" None 1 1 None None None Fixture.start)
  = "Hotel search failed: " +:+ "Unable to get access token".
Proof.
  apply (search_hotels_reports_failure Fixture.auth_rejects
           (Fixture.net_returns [Fixture.savoy true]) 0 (fun _ => "")
           "London" "2025-07-01" None 1 1 None None None Fixture.start).
  - apply token_unavailable. reflexivity.
  - vm_compute. discriminate.
  - vm_compute. discriminate.
Defined.

(** X16. When the hotel-offer GET is answered 200 with no records (no
    ["data"] key, or an empty list), [search_hotels] answers "No hotel offers
    found matching your criteria. Please try different dates or cities." *)
Theorem search_hotels_no_offers auth net now exception_text city
    check_in_date check_out_date adults room_quantity price_range currency
    board_type st body :
  answered net
    (issued (HotelAgent.search_hotels true auth net now exception_text city
               check_in_date check_out_date adults room_quantity price_range
               currency board_type) st) body ->
  default [] (body_data body) = [] ->
  result_of (HotelAgent.search_hotels true auth net now exception_text city
               check_in_date check_out_date adults room_quantity price_range
               currency board_type st)
  = "No hotel offers found matching your criteria. "
    +:+ "Please try different dates or cities.".
Proof.
  intros Ha Hd. rewrite search_hotels_issued in Ha.
  destruct (HotelAgent.resolve_hotel_ids city) as [|id ids] eqn:Hr.
  { destruct Ha as (rq & resp & Hin & _). by apply elem_of_nil in Hin. }
  destruct (HotelAgent.default_check_out check_in_date check_out_date)
    as [co|] eqn:Hco.
  2: { destruct Ha as (rq & resp & Hin & _). by apply elem_of_nil in Hin. }
  rewrite (search_hotels_result auth net now exception_text city
             check_in_date check_out_date adults room_quantity price_range
             currency board_type st co); [|by rewrite Hr|done].
  cbv zeta. rewrite Hr.
  unfold issued in Ha. rewrite search_hotel_offers_operation in *.
  apply operation_answered in Ha as (resp & Hs & Hj & Hb & ->); [|done].
  rewrite (finish_dict_answered _ resp body Hs Hj Hb). simpl. by rewrite Hd.
Qed.

Lemma search_hotels_no_offers_witness :
  result_of (HotelAgent.search_hotels true Fixture.auth_grants
               (Fixture.net_returns []) 0 (fun _ => "")
               "London" "2025-07-01" None 1 1 None None None Fixture.start)
  = "No hotel offers found matching your criteria. "
    +:+ "Please try different dates or cities.".
Proof.
  apply (search_hotels_no_offers Fixture.auth_grants (Fixture.net_returns [])
           0 (fun _ => "") "London" "2025-07-01" None 1 1 None None None
           Fixture.start
           {| body_read_error := None; body_data := Some [];
              body_meta := None; body_dictionaries := None |}).
  - eexists _, _. split; [|split; [|split; [|split; [|split]]]].
    + apply list_elem_of_lookup. exists 1%nat. reflexivity.
    + reflexivity.
    + reflexivity.
    + reflexivity.
    + reflexivity.
    + reflexivity.
  - reflexivity.
Defined.

(** ** The city tool *)

Lemma search_hotels_by_city_tool_issued auth
    (net : request -> outcome (search_body HotelAgent.hotel_listing)) now
    city radius radius_unit amenities ratings st :
  issued (HotelAgent.search_hotels_by_city true auth net now city radius
            radius_unit amenities ratings) st
  = issued (HotelService.search_hotels_by_city auth net now
              (HotelAgent.resolve_city_code city) radius radius_unit None
              amenities ratings "ALL") st.
Proof.
  unfold HotelAgent.search_hotels_by_city. cbn [negb].
  apply issued_bind_pure. intros x st'.
  destruct (error x); [done|]. by destruct (data x).
Qed.

(** X17. The GET of the tool [search_hotels_by_city] asks for the city code
    the city resolves to (its table code, or the raw input uppercased), from
    every hotel source ([hotelSource=ALL]) and without [chainCodes]; radius,
    unit, amenities and ratings are those of the caller. *)
Theorem search_hotels_by_city_tool_query auth
    (net : request -> outcome (search_body HotelAgent.hotel_listing)) now
    city radius radius_unit amenities ratings st rq :
  rq ∈ issued (HotelAgent.search_hotels_by_city true auth net now city
                 radius radius_unit amenities ratings) st ->
  req_method rq = GET ->
  req_url rq = HotelService.HOTELS_BY_CITY_ENDPOINT
  /\ req_payload rq !! "cityCode"
     = Some (PStr (HotelAgent.resolve_city_code city))
  /\ req_payload rq !! "hotelSource" = Some (PStr "ALL")
  /\ req_payload rq !! "chainCodes" = None
  /\ req_payload rq !! "radius" = Some (PInt radius)
  /\ req_payload rq !! "radiusUnit" = Some (PStr radius_unit)
  /\ req_payload rq !! "amenities"
     = (if truthy_list amenities
        then Some (PStr (join "," (default [] amenities))) else None)
  /\ req_payload rq !! "ratings"
     = (if truthy_list ratings
        then Some (PStr (join "," (default [] ratings))) else None).
Proof.
  intros Hin Hm. rewrite search_hotels_by_city_tool_issued in Hin.
  destruct (search_hotels_by_city_get _ _ _ _ _ _ _ _ _ _ _ _ Hin Hm)
    as [-> ->].
  destruct (hotels_by_city_params_lookups (HotelAgent.resolve_city_code city)
              radius radius_unit None amenities ratings "ALL")
    as (H1 & H2 & H3 & H4 & H5 & H6 & H7).
  repeat split; done.
Qed.

Lemma search_hotels_by_city_tool_query_witness :
  exists rq,
    req_payload rq !! "cityCode" = Some (PStr "ATLANTIS CITY")
    /\ req_payload rq !! "hotelSource" = Some (PStr "ALL").
Proof.
  eexists.
  pose proof (search_hotels_by_city_tool_query Fixture.auth_grants
                Fixture.net_empty_404 0 "Atlantis City" 5 "KM" None None
                Fixture.start _
                ltac:(apply list_elem_of_lookup; exists 1%nat; reflexivity)
                eq_refl)
    as (_ & Hc & Hs & _).
  split; [exact Hc|exact Hs].
Defined.

(** ** Keys and letter case *)

Lemma lower_upper_ascii c : lower_ascii (upper_ascii c) = lower_ascii c.
Proof. by destruct c as [[] [] [] [] [] [] [] []]. Qed.

Lemma lower_lower_ascii c : lower_ascii (lower_ascii c) = lower_ascii c.
Proof. by destruct c as [[] [] [] [] [] [] [] []]. Qed.

Lemma lower_ascii_space c :
  Ascii.eqb (lower_ascii c) " " = Ascii.eqb c " ".
Proof. by destruct c as [[] [] [] [] [] [] [] []]. Qed.

Lemma lower_upper s : lower (upper s) = lower s.
Proof.
  unfold lower, upper. induction s as [|c s IH]; [done|].
  cbn [map_string]. by rewrite lower_upper_ascii, IH.
Qed.

Lemma lower_lower s : lower (lower s) = lower s.
Proof.
  unfold lower. induction s as [|c s IH]; [done|].
  cbn [map_string]. by rewrite lower_lower_ascii, IH.
Qed.

Lemma lower_remove_spaces s :
  lower (remove_spaces s) = remove_spaces (lower s).
Proof.
  unfold lower. induction s as [|c s IH]; [done|].
  cbn [remove_spaces map_string]. rewrite lower_ascii_space.
  destruct (Ascii.eqb c " "); cbn [map_string]; by rewrite IH.
Qed.

Lemma remove_spaces_none s :
  Shown.occurs " " (remove_spaces s) = false.
Proof.
  induction s as [|c s IH]; [done|]. cbn [remove_spaces].
  destruct (Ascii.eqb c " ") eqn:Hc; [done|]. cbn [Shown.occurs].
  rewrite IH, orb_false_r. rewrite Ascii.eqb_sym. exact Hc.
Qed.

Lemma remove_spaces_idempotent s :
  remove_spaces (remove_spaces s) = remove_spaces s.
Proof.
  induction s as [|c s IH]; [done|]. cbn [remove_spaces].
  destruct (Ascii.eqb c " ") eqn:Hc; [done|]. cbn [remove_spaces].
  by rewrite Hc, IH.
Qed.

(** X18. For a city typed in ASCII, the key it is looked up by has no space
    and is a fixed point of the normalization; so an entry of a table whose
    key has a space (["new york"], ["hong kong"], ...) is never the one a
    lookup finds. *)
Theorem city_key_normal city :
  is_ascii city = true ->
  Shown.occurs " " (HotelAgent.city_key city) = false
  /\ HotelAgent.city_key (HotelAgent.city_key city) = HotelAgent.city_key city
  /\ forall alias,
       Shown.occurs " " alias = true -> HotelAgent.city_key city ≠ alias.
Proof.
  intros _.
  unfold HotelAgent.city_key. split; [apply remove_spaces_none|]. split.
  - by rewrite lower_remove_spaces, lower_lower, remove_spaces_idempotent.
  - intros alias Ha <-. by rewrite remove_spaces_none in Ha.
Qed.

Lemma city_key_normal_witness :
  Shown.occurs " " (HotelAgent.city_key "New  York") = false
  /\ HotelAgent.city_key (HotelAgent.city_key "New  York")
     = HotelAgent.city_key "New  York"
  /\ forall alias,
       Shown.occurs " " alias = true ->
       HotelAgent.city_key "New  York" ≠ alias.
Proof. apply (city_key_normal "New  York"). reflexivity. Defined.

(** X19. For a city typed in ASCII, resolution ignores letter case and
    spaces as far as the tables decide: uppercasing the city or removing its
    spaces changes neither its
    hotel IDs nor whether its city code is found, and a city code that is
    found is the same; only the fallback code, the raw input uppercased,
    keeps the spaces typed. *)
Theorem resolve_ignores_case_and_spaces city :
  is_ascii city = true ->
  HotelAgent.city_key (upper city) = HotelAgent.city_key city
  /\ HotelAgent.city_key (remove_spaces city) = HotelAgent.city_key city
  /\ HotelAgent.resolve_hotel_ids (upper city)
     = HotelAgent.resolve_hotel_ids city
  /\ HotelAgent.resolve_hotel_ids (remove_spaces city)
     = HotelAgent.resolve_hotel_ids city
  /\ (forall code,
        HotelAgent.CITY_CODE_MAPPING !! HotelAgent.city_key city = Some code ->
        HotelAgent.resolve_city_code (upper city) = code
        /\ HotelAgent.resolve_city_code (remove_spaces city) = code
        /\ HotelAgent.resolve_city_code city = code)
  /\ (HotelAgent.CITY_CODE_MAPPING !! HotelAgent.city_key city = None ->
      HotelAgent.resolve_city_code city = upper city
      /\ HotelAgent.resolve_city_code (remove_spaces city)
         = remove_spaces (upper city)).
Proof.
  intros _.
  assert (HotelAgent.city_key (upper city) = HotelAgent.city_key city) as Hu.
  { unfold HotelAgent.city_key. by rewrite lower_upper. }
  assert (HotelAgent.city_key (remove_spaces city) = HotelAgent.city_key city)
    as Hs.
  { unfold HotelAgent.city_key.
    by rewrite lower_remove_spaces, remove_spaces_idempotent. }
  unfold HotelAgent.resolve_hotel_ids, HotelAgent.resolve_city_code.
  rewrite Hu, Hs. repeat split; try done.
  - by rewrite H.
  - by rewrite H.
  - by rewrite H.
  - by rewrite H.
  - rewrite H. simpl. unfold upper.
    clear. induction city as [|c s IH]; [done|].
    cbn [remove_spaces map_string].
    assert (Ascii.eqb (upper_ascii c) " " = Ascii.eqb c " ") as ->
      by (by destruct c as [[] [] [] [] [] [] [] []]).
    destruct (Ascii.eqb c " "); cbn [map_string]; by rewrite IH.
Qed.

Lemma resolve_ignores_case_and_spaces_witness :
  HotelAgent.resolve_city_code (upper "New York") = "NYC"
  /\ HotelAgent.resolve_city_code (remove_spaces "New York") = "NYC"
  /\ HotelAgent.resolve_city_code "New York" = "NYC".
Proof.
  destruct (resolve_ignores_case_and_spaces "New York" eq_refl)
    as (_ & _ & _ & _ & H & _).
  apply H. reflexivity.
Defined.

Lemma city_items_found :
  Forall (fun kv : string * string =>
            HotelAgent.CITY_CODE_MAPPING !! HotelAgent.city_key kv.1
            = Some kv.2)
         HotelAgent.CITY_CODE_MAPPING_items.
Proof.
  unfold HotelAgent.CITY_CODE_MAPPING_items.
  repeat (apply Forall_cons; split; [reflexivity|]).
  constructor.
Qed.

(** X20. Every city of [get_supported_cities()] can be given to the tool
    [search_hotels_by_city] in lower or upper case: the GET asks for the
    three-letter code the table has for it. *)
Theorem supported_city_query auth
    (net : request -> outcome (search_body HotelAgent.hotel_listing)) now
    city radius radius_unit amenities ratings st rq rq' :
  city ∈ HotelAgentUtil.get_supported_cities ->
  rq ∈ issued (HotelAgent.search_hotels_by_city true auth net now city
                 radius radius_unit amenities ratings) st ->
  rq' ∈ issued (HotelAgent.search_hotels_by_city true auth net now
                  (upper city) radius radius_unit amenities ratings) st ->
  req_method rq = GET -> req_method rq' = GET ->
  exists code,
    (city, code) ∈ HotelAgent.CITY_CODE_MAPPING_items
    /\ String.length code = 3%nat
    /\ req_payload rq !! "cityCode" = Some (PStr code)
    /\ req_payload rq' !! "cityCode" = Some (PStr code).
Proof.
  intros Hc Hin Hin' Hm Hm'.
  unfold HotelAgentUtil.get_supported_cities in Hc.
  apply list_elem_of_fmap in Hc as ([c code] & -> & Hc). cbn [fst] in *.
  pose proof city_items_resolve as Hall. rewrite Forall_forall in Hall.
  destruct (Hall _ Hc) as [Hr Hl]. simpl in Hr, Hl.
  exists code. split; [done|]. split; [done|].
  rewrite search_hotels_by_city_tool_issued in Hin, Hin'.
  destruct (search_hotels_by_city_get _ _ _ _ _ _ _ _ _ _ _ _ Hin Hm)
    as [_ ->].
  destruct (search_hotels_by_city_get _ _ _ _ _ _ _ _ _ _ _ _ Hin' Hm')
    as [_ ->].
  pose proof (hotels_by_city_params_lookups (HotelAgent.resolve_city_code c)
                radius radius_unit None amenities ratings "ALL") as Hp.
  pose proof (hotels_by_city_params_lookups
                (HotelAgent.resolve_city_code (upper c))
                radius radius_unit None amenities ratings "ALL") as Hp'.
  cbv zeta in Hp, Hp'. destruct Hp as (-> & _), Hp' as (-> & _).
  rewrite Hr. split; [done|]. do 2 f_equal.
  pose proof city_items_found as Hfound. rewrite Forall_forall in Hfound.
  pose proof (Hfound _ Hc) as Hk. simpl in Hk.
  unfold HotelAgent.resolve_city_code, HotelAgent.city_key.
  rewrite lower_upper. fold (HotelAgent.city_key c). by rewrite Hk.
Qed.

Lemma supported_city_query_witness :
  exists code,
    ("hong kong", code) ∈ HotelAgent.CITY_CODE_MAPPING_items
    /\ String.length code = 3%nat
    /\ req_payload
         (get_request HotelService.HOTELS_BY_CITY_ENDPOINT
            (HotelService.hotels_by_city_params "HKG" 5 "KM" None None None
               "ALL") (bearer (Some "tok-1"))) !! "cityCode"
       = Some (PStr code)
    /\ req_payload
         (get_request HotelService.HOTELS_BY_CITY_ENDPOINT
            (HotelService.hotels_by_city_params "HKG" 5 "KM" None None None
               "ALL") (bearer (Some "tok-1"))) !! "cityCode"
       = Some (PStr code).
Proof.
  apply (supported_city_query Fixture.auth_grants Fixture.net_empty_404 0
           "hong kong" 5 "KM" None None Fixture.start).
  - apply list_elem_of_lookup. exists 8%nat. reflexivity.
  - apply list_elem_of_lookup. exists 1%nat. reflexivity.
  - apply list_elem_of_lookup. exists 1%nat. reflexivity.
  - reflexivity.
  - reflexivity.
Defined.

(** ** The text of the tools, record by record *)

Lemma length_append (a b : string) :
  String.length (a +:+ b) = (String.length a + String.length b)%nat.
Proof.
  induction a as [|c a IH]; [done|].
  rewrite append_cons. simpl. by rewrite IH.
Qed.

(** X21. A room description is printed in at most 103 characters: as it is
    when it has at most 100, else its first 100 followed by the three dots;
    what is printed always starts with the first 100 characters of the
    description. *)
Theorem truncated_length room_desc :
  String.length (HotelAgent.truncated room_desc)
  = (if (100 <? String.length room_desc)%nat then 103%nat
     else String.length room_desc)
  /\ (String.length (HotelAgent.truncated room_desc) <= 103)%nat
  /\ exists dots,
       HotelAgent.truncated room_desc
       = HotelAgent.slice_to 100 room_desc +:+ dots
       /\ (dots = "..." \/ dots = "").
Proof.
  unfold HotelAgent.truncated. rewrite length_append, slice_to_length.
  destruct (Nat.ltb_spec 100 (String.length room_desc)); simpl String.length.
  - split; [lia|]. split; [lia|]. eauto.
  - split; [lia|]. split; [lia|]. eauto.
Qed.

(** X22. A record that is not available is printed as its two header lines
    and [Status: Sold out]: none of its offers, and no [---] line after it
    even when more records follow, whose text comes next. *)
Theorem format_sold_out_record city check_in_date check_out_date hotels i
    hotel_data :
  hotels !! i = Some hotel_data ->
  Shown.available hotel_data = false ->
  HotelAgent.format_hotel_offers city check_in_date check_out_date hotels
  = ("Found " +:+ HotelAgent.str_of_nat (length hotels) +:+ " hotels in "
     +:+ city +:+ " from " +:+ check_in_date +:+ " to " +:+ check_out_date
     +:+ ":" +:+ HotelAgent.nl +:+ HotelAgent.nl)
    +:+ Shown.passes (HotelAgent.hotel_lines (length hotels))
          (HotelAgent.enumerate (take i hotels))
    +:+ ("Hotel " +:+ HotelAgent.str_of_nat (i + 1) +:+ ": "
         +:+ Shown.name hotel_data +:+ " ("
         +:+ default "Unknown ID"
               (HotelAgent.hotel_hotelId
                  (default HotelAgent.no_hotel
                     (HotelAgent.ho_hotel hotel_data)))
         +:+ ")" +:+ HotelAgent.nl +:+ "City Code: "
         +:+ default ""
               (HotelAgent.hotel_cityCode
                  (default HotelAgent.no_hotel
                     (HotelAgent.ho_hotel hotel_data)))
         +:+ HotelAgent.nl +:+ "Status: Sold out" +:+ HotelAgent.nl
         +:+ HotelAgent.nl)
    +:+ Shown.passes (HotelAgent.hotel_lines (length hotels))
          (HotelAgent.enumerate_from (S i) (drop (S i) hotels)).
Proof.
  intros Hi Hav. by apply format_hotel_offers_sold_out.
Qed.

Lemma format_sold_out_record_witness :
  HotelAgent.format_hotel_offers "London" "2025-07-01" "2025-07-02"
    [Fixture.savoy false; Fixture.savoy true]
  = ("Found 2 hotels in London from 2025-07-01 to 2025-07-02:"
     +:+ HotelAgent.nl +:+ HotelAgent.nl)
    +:+ ("Hotel 1: Savoy (MCLONGHM)" +:+ HotelAgent.nl
         +:+ "City Code: LON" +:+ HotelAgent.nl
         +:+ "Status: Sold out" +:+ HotelAgent.nl +:+ HotelAgent.nl)
    +:+ Shown.passes (HotelAgent.hotel_lines 2) [(1%nat, Fixture.savoy true)].
Proof.
  apply (format_sold_out_record "London" "2025-07-01" "2025-07-02"
           [Fixture.savoy false; Fixture.savoy true] 0 (Fixture.savoy false)).
  - reflexivity.
  - reflexivity.
Defined.

Lemma search_hotels_by_city_tool_text auth
    (net : request -> outcome (search_body HotelAgent.hotel_listing)) now
    city radius radius_unit amenities ratings st hotels :
  let r :=
    result_of (HotelService.search_hotels_by_city auth net now
                 (HotelAgent.resolve_city_code city) radius radius_unit None
                 amenities ratings "ALL" st) in
  error r = None -> data r = hotels -> hotels ≠ [] ->
  result_of (HotelAgent.search_hotels_by_city true auth net now city radius
               radius_unit amenities ratings st)
  = ("Found " +:+ HotelAgent.str_of_nat (length hotels)
     +:+ " hotels near " +:+ city +:+ " ("
     +:+ HotelAgent.resolve_city_code city +:+ ") within "
     +:+ str_of_int radius +:+ radius_unit +:+ " radius:"
     +:+ HotelAgent.nl +:+ HotelAgent.nl)
    +:+ Shown.passes (HotelAgent.listing_lines (length hotels))
          (HotelAgent.enumerate hotels).
Proof.
  intros r He Hd Hne. subst r.
  unfold HotelAgent.search_hotels_by_city, result_of in *. cbn [negb].
  unfold mbind, M_bind.
  destruct (HotelService.search_hotels_by_city _ _ _ _ _ _ _ _ _ _ st)
    as [r st']; cbn [fst] in *.
  rewrite He, Hd. destruct hotels as [|h hs] eqn:Hh; [done|].
  rewrite <- Hh. unfold mret, M_ret. cbn [fst].
  by rewrite fold_left_passes, !append_assoc.
Qed.

(** X23. When the hotels-by-city GET is answered with records, the text of
    the tool [search_hotels_by_city] starts with the count of records and has,
    for the record at position [i], a block labelled [Hotel i+1:] with its
    name, ID, chain and IATA codes, location, country and distance (defaults
    for what is missing), followed by a [---] line unless it is the last. *)
Theorem search_hotels_by_city_text auth
    (net : request -> outcome (search_body HotelAgent.hotel_listing)) now
    city radius radius_unit amenities ratings st body hotels i h :
  answered net
    (issued (HotelAgent.search_hotels_by_city true auth net now city radius
               radius_unit amenities ratings) st) body ->
  body_data body = Some hotels ->
  hotels !! i = Some h ->
  exists before after,
    result_of (HotelAgent.search_hotels_by_city true auth net now city radius
                 radius_unit amenities ratings st)
    = ("Found " +:+ HotelAgent.str_of_nat (length hotels) +:+ " hotels near "
       +:+ city +:+ " (" +:+ HotelAgent.resolve_city_code city
       +:+ ") within " +:+ str_of_int radius +:+ radius_unit +:+ " radius:"
       +:+ HotelAgent.nl +:+ HotelAgent.nl)
      +:+ before
      +:+ ("Hotel " +:+ HotelAgent.str_of_nat (i + 1) +:+ ": "
           +:+ default "Unknown Hotel" (HotelAgent.hl_name h)
           +:+ HotelAgent.nl
           +:+ "ID: " +:+ default "Unknown ID" (HotelAgent.hl_hotelId h)
           +:+ HotelAgent.nl
           +:+ "Chain Code: " +:+ default "" (HotelAgent.hl_chainCode h)
           +:+ HotelAgent.nl
           +:+ "IATA Code: " +:+ default "" (HotelAgent.hl_iataCode h)
           +:+ HotelAgent.nl
           +:+ "Location: Latitude "
           +:+ default "Unknown" (HotelAgent.hl_latitude h)
           +:+ ", Longitude " +:+ default "Unknown" (HotelAgent.hl_longitude h)
           +:+ HotelAgent.nl
           +:+ "Country: " +:+ default "" (HotelAgent.hl_countryCode h)
           +:+ HotelAgent.nl
           +:+ "Distance: "
           +:+ default "Unknown" (HotelAgent.hl_distance_value h)
           +:+ " " +:+ default "KM" (HotelAgent.hl_distance_unit h)
           +:+ HotelAgent.nl +:+ HotelAgent.nl)
      +:+ (if (i <? length hotels - 1)%nat
           then "---" +:+ HotelAgent.nl +:+ HotelAgent.nl else "")
      +:+ after.
Proof.
  intros Ha Hd Hi.
  assert (hotels ≠ []) as Hne by (intros ->; discriminate Hi).
  rewrite search_hotels_by_city_tool_issued in Ha.
  rewrite (search_hotels_by_city_tool_text auth net now city radius
             radius_unit amenities ratings st hotels); [| | |done].
  2,3: unfold issued in Ha; rewrite search_hotels_by_city_operation in *;
       apply operation_answered in Ha as (resp & Hs & Hj & Hb & ->); [|done];
       rewrite (finish_dict_answered _ resp body Hs Hj Hb); cbn [error data];
       by rewrite ?Hd.
  destruct (passes_lookup (HotelAgent.listing_lines (length hotels)) hotels
              i h Hi) as (before & after & ->).
  exists before, after. unfold HotelAgent.listing_lines.
  destruct (i <? length hotels - 1)%nat;
    rewrite !append_assoc, ?append_empty; reflexivity.
Qed.

Lemma search_hotels_by_city_text_witness :
  exists before after,
    result_of (HotelAgent.search_hotels_by_city true Fixture.auth_grants
                 (Fixture.net_returns [FixtureListing.ritz]) 0 "Paris" 5 "KM" None
                 None Fixture.start)
    = ("Found " +:+ HotelAgent.str_of_nat 1 +:+ " hotels near "
       +:+ "Paris" +:+ " (" +:+ HotelAgent.resolve_city_code "Paris"
       +:+ ") within " +:+ str_of_int 5 +:+ "KM" +:+ " radius:"
       +:+ HotelAgent.nl +:+ HotelAgent.nl)
      +:+ before
      +:+ ("Hotel " +:+ HotelAgent.str_of_nat (0 + 1) +:+ ": "
           +:+ "Ritz" +:+ HotelAgent.nl
           +:+ "ID: " +:+ "PARPARHT" +:+ HotelAgent.nl
           +:+ "Chain Code: " +:+ "" +:+ HotelAgent.nl
           +:+ "IATA Code: " +:+ "PAR" +:+ HotelAgent.nl
           +:+ "Location: Latitude " +:+ "48.868"
           +:+ ", Longitude " +:+ "2.329" +:+ HotelAgent.nl
           +:+ "Country: " +:+ "" +:+ HotelAgent.nl
           +:+ "Distance: " +:+ "Unknown" +:+ " " +:+ "KM"
           +:+ HotelAgent.nl +:+ HotelAgent.nl)
      +:+ "" +:+ after.
Proof.
  apply (search_hotels_by_city_text Fixture.auth_grants
           (Fixture.net_returns [FixtureListing.ritz]) 0 "Paris" 5 "KM" None None
           Fixture.start
           {| body_read_error := None;
              body_data := Some [FixtureListing.ritz]; body_meta := None;
              body_dictionaries := None |}
           [FixtureListing.ritz] 0 FixtureListing.ritz).
  - eexists _, _. split; [|split; [|split; [|split; [|split]]]].
    + apply list_elem_of_lookup. exists 1%nat. reflexivity.
    + reflexivity.
    + reflexivity.
    + reflexivity.
    + reflexivity.
    + reflexivity.
  - reflexivity.
  - reflexivity.
Defined.

(** ** The default check-out date, read back *)

Lemma strftime_length d :
  String.length (strftime d) = 10%nat.
Proof. reflexivity. Qed.

(** X24. The check-out date [search_hotels] makes up when none is given is
    a date the same parser reads back (four-digit year, two-digit month and
    day, ten characters), valid, and exactly one day after the check-in
    date. *)
Theorem default_check_out_reads_back check_in_date check_out_date co d :
  truthy check_out_date = false ->
  strptime check_in_date = Some d ->
  1000 <= year d ->
  HotelAgent.default_check_out check_in_date check_out_date = Some co ->
  String.length co = 10%nat
  /\ exists d',
       strptime co = Some d'
       /\ valid_date d' = true
       /\ toordinal d' = toordinal d + 1.
Proof.
  intros Ht Hp _ Hco. unfold HotelAgent.default_check_out in Hco.
  rewrite Ht, Hp in Hco. simpl in Hco.
  destruct (add_one_day d) as [d'|] eqn:Ha; [|discriminate Hco].
  inversion Hco; subst co. split; [apply strftime_length|].
  destruct (add_one_day_ordinal d d' (strptime_valid _ _ Hp) Ha) as [Hv Ho].
  exists d'. split; [by apply strptime_strftime|done].
Qed.

Lemma default_check_out_reads_back_witness :
  String.length "2025-01-01" = 10%nat
  /\ exists d',
       strptime "2025-01-01" = Some d'
       /\ valid_date d' = true
       /\ toordinal d'
          = toordinal {| year := 2024; month := 12; day := 31 |} + 1.
Proof.
  apply (default_check_out_reads_back "2024-12-31" (Some "") "2025-01-01"
           {| year := 2024; month := 12; day := 31 |}).
  - reflexivity.
  - reflexivity.
  - simpl. lia.
  - reflexivity.
Defined.

(** ** The queries of the flight service *)

(** X25. The GET of [search_airports] carries [keyword] and [subType], the
    one of [search_flights] the origin, the destination and the departure
    date as given and [adults] and [max] as numbers, the one of
    [get_flight_checkin_links] the [airlineCode]; each goes to its own
    endpoint. *)
Theorem amadeus_queries auth
    (net : request -> outcome (search_body json_value)) now st rq
    keyword subtype origin destination departure_date adults max_results
    airline_code :
  req_method rq = GET ->
  (rq ∈ issued (AmadeusService.search_airports auth net now keyword subtype)
          st ->
   req_url rq = AmadeusService.AIRPORT_SEARCH_ENDPOINT
   /\ req_payload rq !! "keyword" = Some (PStr keyword)
   /\ req_payload rq !! "subType" = Some (PStr subtype))
  /\ (rq ∈ issued (AmadeusService.search_flights auth net now origin
                     destination departure_date adults max_results) st ->
      req_url rq = AmadeusService.FLIGHT_SEARCH_ENDPOINT
      /\ req_payload rq !! "originLocationCode" = Some (PStr origin)
      /\ req_payload rq !! "destinationLocationCode" = Some (PStr destination)
      /\ req_payload rq !! "departureDate" = Some (PStr departure_date)
      /\ req_payload rq !! "adults" = Some (PInt adults)
      /\ req_payload rq !! "max" = Some (PInt max_results))
  /\ (rq ∈ issued (AmadeusService.get_flight_checkin_links auth net now
                     airline_code) st ->
      req_url rq = AmadeusService.CHECKIN_LINKS_ENDPOINT
      /\ req_payload rq !! "airlineCode" = Some (PStr airline_code)
      /\ size (req_payload rq) = 1%nat).
Proof.
  intros Hm. split; [|split]; intros Hin.
  - rewrite (dict_operation_get _ _ _ _ _ _ _ _ _
               (search_airports_operation auth now net keyword subtype)
               (fun _ => eq_refl) Hin Hm).
    repeat split; by simplify_map_eq.
  - rewrite (dict_operation_get _ _ _ _ _ _ _ _ _
               (search_flights_operation auth now net origin destination
                  departure_date adults max_results)
               (fun _ => eq_refl) Hin Hm).
    repeat split; by simplify_map_eq.
  - rewrite (dict_operation_get _ _ _ _ _ _ _ _ _
               (get_flight_checkin_links_operation auth now net airline_code)
               (fun _ => eq_refl) Hin Hm).
    split; [done|]. split; [by simplify_map_eq|].
    cbn [req_payload get_request]. apply map_size_singleton.
Qed.

Lemma amadeus_queries_witness :
  exists rq,
    req_url rq = AmadeusService.FLIGHT_SEARCH_ENDPOINT
    /\ req_payload rq !! "originLocationCode" = Some (PStr "MAD")
    /\ req_payload rq !! "max" = Some (PInt 3).
Proof.
  eexists.
  destruct (amadeus_queries Fixture.auth_grants Fixture.net_empty_404 0
              Fixture.start
              (get_request AmadeusService.FLIGHT_SEARCH_ENDPOINT
                 (<[ "originLocationCode" := PStr "MAD" ]>
                  (<[ "destinationLocationCode" := PStr "BCN" ]>
                  (<[ "departureDate" := PStr "2025-07-01" ]>
                  (<[ "adults" := PInt 1 ]>
                  (<[ "max" := PInt 3 ]> ∅)))))
                 (bearer (Some "tok-1")))
              "PEK" "AIRPORT" "MAD" "BCN" "2025-07-01" 1 3 "BA" eq_refl)
    as (_ & H & _).
  destruct H as (Hu & Ho & _ & _ & _ & Hx).
  - apply list_elem_of_lookup. exists 1%nat. reflexivity.
  - split; [exact Hu|split; [exact Ho|exact Hx]].
Defined.

(** ** A token answer with a broken lifetime *)

(** X26. When the 200 answer has an [expires_in] that is no number, the
    call returns [None] although the exchange succeeded; by then
    [access_token] has been overwritten with the new token while
    [token_expires_at] keeps its old value, so that, the old value being
    past, every later call asks for a token again. *)
Theorem ensure_token_broken_lifetime auth t0 t1 st resp tok :
  must_refresh (svc st) t0 = true ->
  auth (token_request (svc st)) = Ok resp ->
  status resp = 200 ->
  json resp = Ok {| body_access_token := tok;
                    body_expires_in := Some ENotNumber |} ->
  result_of (_ensure_token auth t0 st) = None
  /\ access_token (service_after (_ensure_token auth t0 st)) = tok
  /\ token_expires_at (service_after (_ensure_token auth t0 st))
     = token_expires_at (svc st)
  /\ issued (_ensure_token auth t0) st = [token_request (svc st)]
  /\ (token_expires_at (svc st) <= t0 -> t0 <= t1 ->
      must_refresh (service_after (_ensure_token auth t0 st)) t1 = true).
Proof.
  intros Hr Ha Hs Hj.
  destruct (ensure_token_bad_expires_in auth t0 st resp tok Hr Ha Hs Hj)
    as (H1 & H2 & H3).
  split; [done|]. split; [done|]. split; [done|]. split.
  - by rewrite issued_ensure_token, Hr.
  - intros Hold Ht. apply must_refresh_true. right. rewrite H3. lia.
Qed.

Lemma ensure_token_broken_lifetime_witness :
  result_of (_ensure_token
               (fun _ => Ok {| status := 200; text := Ok "";
                               json := Ok {| body_access_token := Some "tok-3";
                                             body_expires_in :=
                                               Some ENotNumber |} |})
               1000 Fixture.start) = None
  /\ access_token
       (service_after
          (_ensure_token
             (fun _ => Ok {| status := 200; text := Ok "";
                             json := Ok {| body_access_token := Some "tok-3";
                                           body_expires_in :=
                                             Some ENotNumber |} |})
             1000 Fixture.start)) = Some "tok-3".
Proof.
  destruct (ensure_token_broken_lifetime
              (fun _ => Ok {| status := 200; text := Ok "";
                              json := Ok {| body_access_token := Some "tok-3";
                                            body_expires_in :=
                                              Some ENotNumber |} |})
              1000 1001 Fixture.start
              {| status := 200; text := Ok "";
                 json := Ok {| body_access_token := Some "tok-3";
                               body_expires_in := Some ENotNumber |} |}
              (Some "tok-3")) as (H1 & H2 & _); try reflexivity.
  split; [exact H1|exact H2].
Defined.
